(** * pdf-renamer: the traversal and rename engine of [pdfrenamer/main.py]

    A shallow embedding of [rename] and [rename_file] and the properties
    of the walk, the single-file processor and the collision-safe renamer.

    Python strings are Rocq strings (byte strings: [str.lower] is modelled
    on the ASCII letters).  The filesystem is an association list from the
    path spellings that exist to their kind, in on-disk order, so that
    directory listings have an order.  Paths are compared as spelled: the
    model has no links and resolves no [.] or [..].  Effects are explicit:
    a computation takes the filesystem and gives an outcome, the new
    filesystem and the events it emitted (log lines, calls to the
    collaborators, calls to [os.rename]). *)

From Stdlib Require Import Ascii.
From stdpp Require Import base list strings pretty gmap.

(** ** Python strings *)

Module Str.

Definition lower_ascii (c : ascii) : ascii :=
  let n := nat_of_ascii c in
  if (65 <=? n) && (n <=? 90) then ascii_of_nat (n + 32) else c.

(** [s.lower()] *)
Fixpoint lower (s : string) : string :=
  match s with
  | EmptyString => EmptyString
  | String c s' => String (lower_ascii c) (lower s')
  end.

(** [s.endswith(suffix)] *)
Definition endswith (s suffix : string) : bool :=
  let n := String.length s in
  let m := String.length suffix in
  (m <=? n) && bool_decide (String.substring (n - m) m s = suffix).

(** [s[len(prefix):]] when [s.startswith(prefix)] *)
Fixpoint strip_prefix (prefix s : string) : option string :=
  match prefix, s with
  | EmptyString, _ => Some s
  | String c p, String d s' =>
      if decide (c = d) then strip_prefix p s' else None
  | String _ _, EmptyString => None
  end.

(** [c in s] *)
Fixpoint contains (c : ascii) (s : string) : bool :=
  match s with
  | EmptyString => false
  | String d s' => bool_decide (c = d) || contains c s'
  end.

(** [bool(s)] *)
Definition truthy (s : string) : bool :=
  match s with EmptyString => false | _ => true end.

(** [sep.join(l)] *)
Fixpoint join (sep : string) (l : list string) : string :=
  match l with
  | [] => ""
  | [s] => s
  | s :: l' => s +:+ sep +:+ join sep l'
  end.

Definition quote : string := String (ascii_of_nat 34) EmptyString.
Definition nl_tab : string :=
  String (ascii_of_nat 10) (String (ascii_of_nat 9) EmptyString).
Definition nl_space : string :=
  String (ascii_of_nat 10) (String (ascii_of_nat 32) EmptyString).

End Str.

(** ** Exceptions, outcomes, events *)

(** The exceptions the code raises itself or meets; all are subclasses of
    Python's [Exception], so [except Exception] catches each of them.
    [Exception] stands for whatever a collaborator (the resolver, the
    filename builder) raises. *)
Inductive exn :=
| UnboundLocalError (var : string)
| ValueError (msg : string)
| TypeError (msg : string)
| OSError (msg : string)
| Exception (msg : string).

(** [str(e)] *)
Definition exn_str (e : exn) : string :=
  match e with
  | UnboundLocalError v =>
      "cannot access local variable '" +:+ v
        +:+ "' where it is not associated with a value"
  | ValueError m | TypeError m | OSError m | Exception m => m
  end.

(** What a call into a collaborator gives back. *)
Inductive call (A : Type) :=
| Returns (a : A)
| Throws (e : exn).
Arguments Returns {A} a.
Arguments Throws {A} e.

Inductive outcome (A : Type) :=
| Return (a : A)
| Raise (e : exn)
| OutOfFuel.
Arguments Return {A} a.
Arguments Raise {A} e.
Arguments OutOfFuel {A}.

Inductive level := ERROR | INFO.

Definition metadata_dict := list (string * string).

Inductive event :=
| Log (lvl : level) (msg : string)
| PrintTraceback
| CallCheckFormat (format : string)
| CallResolver (file : string)
| CallBuildFilename (md : metadata_dict) (format : string) (tags : list string)
| CallOsRename (src dst : string).

Definition is_os_rename (ev : event) : bool :=
  match ev with CallOsRename _ _ => true | _ => false end.

Definition is_check_format (ev : event) : bool :=
  match ev with CallCheckFormat _ => true | _ => false end.

Definition is_error_log (ev : event) : bool :=
  match ev with Log ERROR _ => true | _ => false end.

(** ** The filesystem *)

Inductive kind := RegularFile | Directory.

Global Instance kind_eq_dec : EqDecision kind.
Proof. solve_decision. Defined.

Abbreviation filesystem := (list (string * kind)).

Module Fs.

Fixpoint lookup (fs : filesystem) (p : string) : option kind :=
  match fs with
  | [] => None
  | (q, k) :: fs' => if decide (q = p) then Some k else lookup fs' p
  end.

Definition paths (fs : filesystem) : list string := fs.*1.

(** [os.path.exists(p)] *)
Definition exists_ (fs : filesystem) (p : string) : bool :=
  match lookup fs p with Some _ => true | None => false end.

(** [os.path.isdir(p)] *)
Definition isdir (fs : filesystem) (p : string) : bool :=
  match lookup fs p with Some Directory => true | _ => false end.

(** The direct children of the directory spelled [d] (with its trailing
    separator): the entries [d + name] with a non-empty [name] free of
    the separator, in on-disk order. *)
Definition child (sep : ascii) (d : string) (e : string * kind)
  : option (string * kind) :=
  match Str.strip_prefix d e.1 with
  | Some name =>
      if Str.truthy name && negb (Str.contains sep name)
      then Some (name, e.2) else None
  | None => None
  end.

Definition children (sep : ascii) (fs : filesystem) (d : string)
  : list (string * kind) :=
  omap (child sep d) fs.

(** [os.listdir(d)] *)
Definition listdir (sep : ascii) (fs : filesystem) (d : string)
  : list string :=
  (children sep fs d).*1.

(** [[f.path for f in os.scandir(d) if f.is_dir()]], for a [d] that ends
    with the separator: [f.path] is [os.path.join(d, f.name)]. *)
Definition scandir_dirs (sep : ascii) (fs : filesystem) (d : string)
  : list string :=
  omap (λ e : string * kind,
          match e.2 with
          | Directory => Some (d +:+ e.1)
          | RegularFile => None
          end)
       (children sep fs d).

(** The effect of an accepted [os.rename(src, dst)]: an entry at [dst]
    is replaced, the entry at [src] is re-keyed in place. *)
Definition rekey (src dst : string) (e : string * kind) : string * kind :=
  if decide (e.1 = src) then (dst, e.2) else e.

Definition move (fs : filesystem) (src dst : string) : filesystem :=
  rekey src dst <$> filter (λ e, e.1 ≠ dst) fs.

End Fs.

(** ** Computations *)

Definition M (A : Type) : Type :=
  filesystem → outcome A * filesystem * list event.

Definition ret {A} (a : A) : M A := λ fs, (Return a, fs, []).

Definition bind {A B} (m : M A) (f : A → M B) : M B := λ fs,
  match m fs with
  | (Return a, fs1, t1) =>
      match f a fs1 with (o, fs2, t2) => (o, fs2, t1 ++ t2) end
  | (Raise e, fs1, t1) => (Raise e, fs1, t1)
  | (OutOfFuel, fs1, t1) => (OutOfFuel, fs1, t1)
  end.

Global Instance M_ret : MRet M := @ret.
Global Instance M_bind : MBind M := λ A B f m, bind m f.

Definition raise {A} (e : exn) : M A := λ fs, (Raise e, fs, []).
Definition out_of_fuel {A} : M A := λ fs, (OutOfFuel, fs, []).
Definition emit (ev : event) : M unit := λ fs, (Return (), fs, [ev]).
Definition get_fs : M filesystem := λ fs, (Return fs, fs, []).
Definition put_fs (fs' : filesystem) : M unit := λ _, (Return (), fs', []).

(** [try: m  except Exception as e: h e] *)
Definition try_except {A} (m : M A) (h : exn → M A) : M A := λ fs,
  match m fs with
  | (Raise e, fs1, t1) =>
      match h e fs1 with (o, fs2, t2) => (o, fs2, t1 ++ t2) end
  | r => r
  end.

Definition of_call {A} (c : call A) : M A :=
  match c with Returns a => ret a | Throws e => raise e end.

Definition logger_error (msg : string) : M unit := emit (Log ERROR msg).
Definition logger_info (msg : string) : M unit := emit (Log INFO msg).

Definition os_path_exists (p : string) : M bool :=
  fs ← get_fs; mret (Fs.exists_ fs p).
Definition os_path_isdir (p : string) : M bool :=
  fs ← get_fs; mret (Fs.isdir fs p).

(** ** Python values *)

Inductive validation := ValidationTrue | ValidationPayload (raw : string).

(** The dictionary [pdf2bib.pdf2bib_singlefile] returns. *)
Record resolved := {
  r_identifier : option string;
  r_identifier_type : option string;
  r_validation_info : option validation;
  r_path : option string;
  r_method : option string;
  r_metadata : option metadata_dict;
  r_bibtex : option string
}.

(** The dictionary [rename] returns for one file: the resolver's
    dictionary with the keys [path_original] and [path_new] added.
    [path_new = None] is Python's [None]. *)
Record result_dict := {
  identifier : option string;
  identifier_type : option string;
  validation_info : option validation;
  path : option string;
  method : option string;
  metadata : option metadata_dict;
  bibtex : option string;
  path_original : string;
  path_new : option string
}.

(** [result['path_original'] = filename] on the resolver's dictionary. *)
Definition with_path_original (r : resolved) (filename : string)
  : result_dict :=
  {| identifier := r_identifier r;
     identifier_type := r_identifier_type r;
     validation_info := r_validation_info r;
     path := r_path r;
     method := r_method r;
     metadata := r_metadata r;
     bibtex := r_bibtex r;
     path_original := filename;
     path_new := None |}.

(** [result['path_new'] = p] *)
Definition set_path_new (p : option string) (r : result_dict) : result_dict :=
  {| identifier := identifier r;
     identifier_type := identifier_type r;
     validation_info := validation_info r;
     path := path r;
     method := method r;
     metadata := metadata r;
     bibtex := bibtex r;
     path_original := path_original r;
     path_new := p |}.

(** The keys of a result dictionary, in insertion order. *)
Definition dict_keys : list string :=
  ["identifier"; "identifier_type"; "validation_info"; "path"; "method";
   "metadata"; "bibtex"; "path_original"; "path_new"].

(** What [rename] can return: [None], one dictionary, or a list; a list
    holds whatever was appended to it. *)
#[warnings="-register-all"]
Inductive value :=
| VNone
| VStr (s : string)
| VDict (r : result_dict)
| VList (l : list value).

Fixpoint chars (s : string) : list string :=
  match s with
  | EmptyString => []
  | String c s' => String c EmptyString :: chars s'
  end.

(** [iter(v)], as [list.extend] uses it. *)
Definition py_iter (v : value) : call (list value) :=
  match v with
  | VList l => Returns l
  | VDict _ => Returns (VStr <$> dict_keys)
  | VStr s => Returns (VStr <$> chars s)
  | VNone => Throws (TypeError "'NoneType' object is not iterable")
  end.

(** [str(x)] of a string or [None] in an f-string *)
Definition str_opt (o : option string) : string :=
  match o with Some s => s | None => "None" end.

(** [bool(x)] of a string or [None] *)
Definition truthy_str (o : option string) : bool :=
  match o with Some s => Str.truthy s | None => false end.

(** [bool(x)] of a list, a dictionary or [None] *)
Definition truthy_list {A} (o : option (list A)) : bool :=
  match o with Some (_ :: _) => true | _ => false end.

Definition is_dict (v : value) : bool :=
  match v with VDict _ => true | _ => false end.

(** A flat list of result dictionaries. *)
Definition flat (l : list value) : bool := forallb is_dict l.

(** [path_original] and [path_new] of a result dictionary. *)
Definition original (v : value) : string :=
  match v with VDict r => path_original r | _ => "" end.

Definition renamed (v : value) : option string :=
  match v with VDict r => path_new r | _ => None end.

(** ** Configuration *)

(** [pdfrenamer.config]: the two parameters [rename] reads through
    [config.get]. *)
Record config_params := {
  config_format : string;
  config_check_subfolders : bool
}.

(** ** A POSIX instance of the path functions *)

Module Posix.

Definition sep : ascii := "/"%char.

(** [s.rpartition(c)]: the text before the last [c], and the text from
    that [c] on. *)
Fixpoint rsplit (c : ascii) (s : string) : option (string * string) :=
  match s with
  | EmptyString => None
  | String d s' =>
      match rsplit c s' with
      | Some (a, b) => Some (String d a, b)
      | None => if decide (d = c) then Some (EmptyString, s) else None
      end
  end.

Fixpoint span_dots (s : string) : string * string :=
  match s with
  | String "."%char s' => let '(d, r) := span_dots s' in (String "."%char d, r)
  | _ => (EmptyString, s)
  end.

(** [posixpath.splitext]: the extension starts at the last dot of the
    last component, leading dots of the component apart. *)
Definition splitext (p : string) : string * string :=
  let '(head, base) :=
    match rsplit sep p with
    | Some (h, String _ b) => (h +:+ "/", b)
    | _ => (EmptyString, p)
    end in
  let '(dots, rest) := span_dots base in
  match rsplit "."%char rest with
  | Some (a, b) => (head +:+ dots +:+ a, b)
  | None => (p, EmptyString)
  end.

(** [s.split('/')] *)
Fixpoint split (cur : string) (s : string) : list string :=
  match s with
  | EmptyString => [String.rev cur]
  | String c s' =>
      if decide (c = sep) then String.rev cur :: split EmptyString s'
      else split (String c cur) s'
  end.

(** [str(pathlib.PurePosixPath(p).parent)]: empty and [.] components
    are dropped, the last component is removed, and an empty relative
    path prints as [.]. *)
Definition parent (p : string) : string :=
  let parts :=
    List.filter (λ c, negb (bool_decide (c = "") || bool_decide (c = ".")))
                (split EmptyString p) in
  let root := match p with String "/"%char _ => "/" | _ => "" end in
  let up := removelast parts in
  match up, root with
  | [], "" => "."
  | _, _ => root +:+ Str.join "/" up
  end.

End Posix.

(** ** The summary of [main] (lines 334-363) *)

Section Report.

(** [os.path.relpath], the colours of [colorama.Fore], and [MainPath]. *)
Variable os_path_relpath : string → string → string.
Variables Fore_RED Fore_YELLOW Fore_MAGENTA : string.
Variable MainPath : string.

(** [bool(v)] *)
Definition truthy_value (v : value) : bool :=
  match v with
  | VNone => false
  | VStr s => Str.truthy s
  | VDict _ => true
  | VList l => match l with [] => false | _ => true end
  end.

(** [v['identifier']] and the like: only a dictionary has string keys. *)
Definition as_dict (v : value) : call result_dict :=
  match v with
  | VDict r => Returns r
  | VNone => Throws (TypeError "'NoneType' object is not subscriptable")
  | VStr _ => Throws (TypeError "string indices must be integers, not 'str'")
  | VList _ =>
      Throws (TypeError "list indices must be integers or slices, not str")
  end.

(** The loop of lines 342-349, with its counters and what it has printed. *)
Fixpoint count_results (results : list value)
    (counter counter_identifier_notfound : nat) (out : list string)
  : call (nat * nat) * list string :=
  match results with
  | [] => (Returns (counter, counter_identifier_notfound), out)
  | result :: results' =>
      if truthy_value result then
        match as_dict result with
        | Throws e => (Throws e, out)
        | Returns r =>
            if truthy_str (identifier r) && truthy_str (path_new r) then
              if decide (Some (path_original r) = path_new r) then
                count_results results' counter counter_identifier_notfound out
              else
                count_results results' (counter + 1)
                  counter_identifier_notfound
                  (out ++
                   [Fore_YELLOW +:+ os_path_relpath (path_original r) MainPath;
                    Fore_MAGENTA +:+ "---> "
                    +:+ os_path_relpath (default "" (path_new r)) MainPath])
            else
              count_results results' counter
                (counter_identifier_notfound + 1) out
        end
      else
        count_results results' counter (counter_identifier_notfound + 1) out
  end.

(** The loop of lines 360-362. *)
Fixpoint print_unidentified (results : list value) (out : list string)
  : option exn * list string :=
  match results with
  | [] => (None, out)
  | result :: results' =>
      match as_dict result with
      | Throws e => (Some e, out)
      | Returns r =>
          if truthy_str (identifier r) then print_unidentified results' out
          else print_unidentified results' (out ++ [path_original r])
      end
  end.

Definition renamed_line (counter : nat) : string :=
  if counter =? 0 then "No file has been renamed."
  else pretty counter +:+ " file"
       +:+ (if 1 <? counter then "s have " else " has ") +:+ "been renamed.".

Definition not_found_line : string :=
  Fore_RED +:+ "The following pdf files could not be renamed because it was not possile to automatically find the publication identifier (DOI or arXiv ID). Try to manually add a valid identifier to each file via the command "
  +:+ Str.quote +:+ "pdf2doi 'filename.pdf' -id 'valid_identifier'"
  +:+ Str.quote +:+ " and then run again pdf-renamer.".

(** Lines 334-363: what is printed for the results of [rename], and the
    exception that ends the printing, if any. *)
Definition report (results : value) : option exn * list string :=
  let out := [Fore_RED +:+ "Summaries of changes done:"] in
  let results := match results with VList l => l | v => [v] end in
  match count_results results 0 0 out with
  | (Throws e, out) => (Some e, out)
  | (Returns (counter, counter_identifier_notfound), out) =>
      let out := out ++ [renamed_line counter] in
      if 0 <? counter_identifier_notfound then
        print_unidentified results (out ++ [not_found_line])
      else (None, out)
  end.

(** The same, said at once: which results count as renamed, which as
    not found, which are named at the end. *)
Definition was_renamed (r : result_dict) : bool :=
  truthy_str (identifier r) && truthy_str (path_new r)
  && negb (bool_decide (Some (path_original r) = path_new r)).

Definition was_not_found (r : result_dict) : bool :=
  negb (truthy_str (identifier r) && truthy_str (path_new r)).

Definition has_no_identifier (r : result_dict) : bool :=
  negb (truthy_str (identifier r)).

Definition renamed_lines (r : result_dict) : list string :=
  [Fore_YELLOW +:+ os_path_relpath (path_original r) MainPath;
   Fore_MAGENTA +:+ "---> "
   +:+ os_path_relpath (default "" (path_new r)) MainPath].

End Report.

(** ** [add_abbreviations] (lines 184-213) *)

(** What is done to a file that is open for writing. *)
Inductive file_op :=
| Write (text : string)
| Close.

Section Abbreviations.

(** The text files are a map from paths to their characters, as the
    encoding of the locale decodes them.  The files are opened in text
    mode with the default [newline=None]: [read] gives [\n] for each of
    [\r\n], [\r] and [\n], and [write] puts [os.linesep] for each [\n].
    The parameters are the reasons [open(path, mode)], or the [read] that
    follows it, may fail (permissions, bytes that do not decode);
    [os.path.exists] on the paths that are no text files (directories);
    the path of [UserDefinedAbbreviations.txt] next to the module; the
    reasons a [write] or the closing of the file may fail (characters
    that do not encode, a full disk), each with the number of characters
    written since the file was opened that are in the file afterwards;
    and [os.linesep]. *)
Variable open_error : string → string → option exn.
Variable other_path_exists : string → bool.
Variable path_UserDefinedAbbreviations : string.
Variable write_error : string → file_op → option (exn * nat).
Variable os_linesep : string.

Definition carriage_return : ascii := ascii_of_nat 13.
Definition line_feed : ascii := ascii_of_nat 10.
Definition newline : string := String (ascii_of_nat 10) EmptyString.

(** What [read] makes of the characters of a file. *)
Fixpoint universal_newlines (s : string) : string :=
  match s with
  | EmptyString => EmptyString
  | String c s' =>
      if decide (c = carriage_return) then
        String line_feed
          match s' with
          | String c' s'' =>
              if decide (c' = line_feed) then universal_newlines s''
              else universal_newlines s'
          | EmptyString => EmptyString
          end
      else String c (universal_newlines s')
  end.

(** What [write] makes of the characters it is given. *)
Fixpoint to_linesep (s : string) : string :=
  match s with
  | EmptyString => EmptyString
  | String c s' =>
      (if decide (c = line_feed) then os_linesep else String c EmptyString)
      +:+ to_linesep s'
  end.

(** [s[:n]] *)
Fixpoint first_chars (n : nat) (s : string) : string :=
  match n, s with
  | S n', String c s' => String c (first_chars n' s')
  | _, _ => EmptyString
  end.

Definition text_exists (files : gmap string string) (p : string) : bool :=
  bool_decide (is_Some (files !! p)) || other_path_exists p.

(** [with open(p, 'r') as f: f.read()] *)
Definition read_text (files : gmap string string) (p : string) : call string :=
  match open_error "r" p with
  | Some e => Throws e
  | None =>
      match files !! p with
      | Some text => Returns (universal_newlines text)
      | None =>
          if other_path_exists p then
            Throws (OSError ("[Errno 21] Is a directory: '" +:+ p +:+ "'"))
          else
            Throws (OSError ("[Errno 2] No such file or directory: '"
                             +:+ p +:+ "'"))
      end
  end.

(** [open(p, 'w')]: the file is created or emptied. *)
Definition open_write (files : gmap string string) (p : string)
  : call (gmap string string) :=
  match open_error "w" p with
  | Some e => Throws e
  | None => Returns (<[p := ""]> files)
  end.

(** [f.write(text)] on the file opened at [p]: the text follows what the
    file has, or the write raises and leaves a part of it all. *)
Definition write_text (files : gmap string string) (p text : string)
  : gmap string string * option exn :=
  let content := default "" (files !! p) +:+ to_linesep text in
  match write_error p (Write text) with
  | Some (e, n) => (<[p := first_chars n content]> files, Some e)
  | None => (<[p := content]> files, None)
  end.

(** The end of the [with] block of line 205. *)
Definition close_text (files : gmap string string) (p : string)
  : gmap string string * option exn :=
  match write_error p Close with
  | Some (e, n) =>
      (<[p := first_chars n (default "" (files !! p))]> files, Some e)
  | None => (files, None)
  end.

Definition add_abbreviations (path_abbreviation_file : string)
    (files : gmap string string) : gmap string string * list event :=
  if negb (text_exists files path_abbreviation_file) then
    (files,
     [Log ERROR (path_abbreviation_file +:+ " is not a valid path to a file.")])
  else
    let loading :=
      Log INFO ("Loading the file " +:+ path_abbreviation_file +:+ "...") in
    match read_text files path_abbreviation_file with
    | Throws e =>
        (files,
         [loading;
          Log ERROR ("Some error occured while loading this file: "
                     +:+ Str.nl_space +:+ exn_str e)])
    | Returns new_abbreviation =>
        let adding :=
          Log INFO ("Adding the content of the file "
                    +:+ path_abbreviation_file
                    +:+ " to the user-specified journal abbreviations...") in
        let failed (files' : gmap string string) e :=
          (files',
           [loading; adding;
            Log ERROR ("Some error occured: " +:+ Str.nl_space +:+ exn_str e)])
        in
        match read_text files path_UserDefinedAbbreviations with
        | Throws e => failed files e
        | Returns UserDefinedAbbreviations_old =>
            match open_write files path_UserDefinedAbbreviations with
            | Throws e => failed files e
            | Returns files1 =>
                match write_text files1 path_UserDefinedAbbreviations
                                 new_abbreviation with
                | (files2, Some e) => failed files2 e
                | (files2, None) =>
                match write_text files2 path_UserDefinedAbbreviations
                                 newline with
                | (files3, Some e) => failed files3 e
                | (files3, None) =>
                match write_text files3 path_UserDefinedAbbreviations
                                 UserDefinedAbbreviations_old with
                | (files4, Some e) => failed files4 e
                | (files4, None) =>
                match close_text files4 path_UserDefinedAbbreviations with
                | (files5, Some e) => failed files5 e
                | (files5, None) =>
                    (files5,
                     [loading; adding;
                      Log INFO
                        "The new journal abbreviations were correctly added."])
                end end end end
            end
        end
    end.

(** What the user's file holds when nothing fails. *)
Definition prepended (new old : string) : string :=
  to_linesep (universal_newlines new) +:+ os_linesep
  +:+ to_linesep (universal_newlines old).

End Abbreviations.

(** ** [main] (lines 216-363) *)

(** What [parser.parse_args()] returns. *)
Record arguments := {
  args_path : list string;
  args_decrease_verbose : bool;
  args_format : string;
  args_sub_folders : bool;
  args_max_length_authors : Z;
  args_max_length_filename : Z;
  args_path_abbreviation_file : option string;
  args_set_default : bool;
  args_install_right_click : bool;
  args_uninstall_right_click : bool
}.

(** The parameters of [pdfrenamer.config] that [main] sets:
    [config.set(key, value)] makes [config.get(key)] give [value]. *)
Record settings := {
  set_verbose : bool;
  set_format : string;
  set_max_length_authors : Z;
  set_max_length_filename : Z;
  set_check_subfolders : bool
}.

(** The two of them that [rename] reads. *)
Definition config_of (s : settings) : config_params :=
  {| config_format := set_format s;
     config_check_subfolders := set_check_subfolders s |}.

Record world := {
  w_settings : settings;
  w_fs : filesystem;
  w_files : gmap string string
}.

Inductive main_event :=
| Event (ev : event)
| Print (line : string)
| InstallRightClick
| UninstallRightClick
| WriteParamsINIfile (s : settings).

Section Main.

(** [check_format_is_valid]; the call [rename(target=target)] under the
    configuration of the moment; the parameters of [add_abbreviations]
    and of the summary; [os.path.join] and [os.path.dirname]. *)
Variable check_format_is_valid : string → option (list string).
Variable do_rename : config_params → string → M value.
Variable open_error : string → string → option exn.
Variable other_path_exists : string → bool.
Variable path_UserDefinedAbbreviations : string.
Variable os_path_join : string → string → string.
Variable os_path_dirname : string → string.
Variable os_path_relpath : string → string → string.
Variables Fore_RED Fore_YELLOW Fore_MAGENTA : string.
Variable write_error : string → file_op → option (exn * nat).
Variable os_linesep : string.

(** Lines 289-299: the settings after the options were read, and what
    was logged on the way. *)
Definition read_options (args : arguments) (s : settings)
  : settings * list main_event :=
  let format :=
    if truthy_list (check_format_is_valid (args_format args))
    then args_format args else set_format s in
  let authors_ok := (0 <? args_max_length_authors args)%Z in
  let filename_ok := (0 <? args_max_length_filename args)%Z in
  ({| set_verbose := set_verbose s;
      set_format := format;
      set_max_length_authors :=
        if authors_ok then args_max_length_authors args
        else set_max_length_authors s;
      set_max_length_filename :=
        if filename_ok then args_max_length_filename args
        else set_max_length_filename s;
      set_check_subfolders := args_sub_folders args |},
   [Event (CallCheckFormat (args_format args))]
   ++ (if authors_ok then []
       else [Event (Log ERROR
               "The specified value for max_length_authors is not valid.")])
   ++ (if filename_ok then []
       else [Event (Log ERROR
               "The specified value for max_length_filename is not valid.")])).

(** The configuration [rename] reads after lines 289-299. *)
Definition options_config (args : arguments) (s : settings) : config_params :=
  {| config_format :=
       if truthy_list (check_format_is_valid (args_format args))
       then args_format args else set_format s;
     config_check_subfolders := args_sub_folders args |}.

(** Lines 308-314. *)
Definition target_of (args : arguments) : string :=
  match args_path args with
  | target :: _ => target
  | [] => ""
  end.

Definition with_verbose (b : bool) (s : settings) : settings :=
  {| set_verbose := b;
     set_format := set_format s;
     set_max_length_authors := set_max_length_authors s;
     set_max_length_filename := set_max_length_filename s;
     set_check_subfolders := set_check_subfolders s |}.

(** Lines 323-363: the call of [rename] and the summary. *)
Definition rename_and_report (target : string) (w : world)
  : outcome unit * world * list main_event :=
  match do_rename (config_of (w_settings w)) target (w_fs w) with
  | (Return results, fs', tr) =>
      let w' := {| w_settings := w_settings w; w_fs := fs';
                   w_files := w_files w |} in
      match results with
      | VNone => (Return (), w', Event <$> tr)
      | _ =>
          let target' :=
            if Fs.isdir fs' target then os_path_join target "" else target in
          let MainPath := os_path_dirname target' in
          match report os_path_relpath Fore_RED Fore_YELLOW Fore_MAGENTA
                       MainPath results with
          | (None, out) => (Return (), w', (Event <$> tr) ++ (Print <$> out))
          | (Some e, out) => (Raise e, w', (Event <$> tr) ++ (Print <$> out))
          end
      end
  | (Raise e, fs', tr) =>
      (Raise e,
       {| w_settings := w_settings w; w_fs := fs'; w_files := w_files w |},
       Event <$> tr)
  | (OutOfFuel, fs', tr) =>
      (OutOfFuel,
       {| w_settings := w_settings w; w_fs := fs'; w_files := w_files w |},
       Event <$> tr)
  end.

Definition main (args : arguments) (w : world)
  : outcome unit * world * list main_event :=
  let s := with_verbose (negb (args_decrease_verbose args)) (w_settings w) in
  if args_install_right_click args then
    (Return (),
     {| w_settings := with_verbose true s; w_fs := w_fs w;
        w_files := w_files w |},
     [InstallRightClick])
  else if args_uninstall_right_click args then
    (Return (),
     {| w_settings := with_verbose true s; w_fs := w_fs w;
        w_files := w_files w |},
     [UninstallRightClick])
  else if truthy_str (args_path_abbreviation_file args) then
    let '(files', log) :=
      add_abbreviations open_error other_path_exists
        path_UserDefinedAbbreviations write_error os_linesep
        (default "" (args_path_abbreviation_file args)) (w_files w) in
    (Return (),
     {| w_settings := s; w_fs := w_fs w; w_files := files' |},
     Event <$> log)
  else
    let '(s, options_log) := read_options args s in
    let default_log :=
      if args_set_default args then
        [Event (Log INFO
           "Storing the settings specified by the user (if any is valid) as default values...");
         WriteParamsINIfile s;
         Event (Log INFO "Done.")]
      else [] in
    let target := target_of args in
    let w := {| w_settings := s; w_fs := w_fs w; w_files := w_files w |} in
    if decide (target = "") then
      (Return (), w,
       options_log ++ default_log ++
       (if args_set_default args then []
        else [Print "pdfrenamer: error: the following arguments are required: path. Type 'pdfrenamer --h' for a list of commands."]))
    else
      let quiet_log :=
        if args_decrease_verbose args then
          [Print "(All intermediate output will be suppressed. To see additional outuput, do not use the command -s)"]
        else [] in
      match rename_and_report target w with
      | (o, w', tr) => (o, w', options_log ++ default_log ++ quiet_log ++ tr)
      end.

End Main.

(** What [main] has printed with [print], in order. *)
Definition printed (tr : list main_event) : list string :=
  omap (λ ev, match ev with Print line => Some line | _ => None end) tr.

(** ** Example collaborators and filesystems *)

Module Sample.

(** A validator that accepts the formats with a tag in braces. *)
Definition validator (format : string) : option (list string) :=
  if Str.contains "{"%char format then Some [format] else None.

Fixpoint field (key : string) (md : metadata_dict) : option string :=
  match md with
  | [] => None
  | (k, v) :: md' => if decide (k = key) then Some v else field key md'
  end.

(** A builder that names the file after its title. *)
Definition builder (md : metadata_dict) (format : string) (tags : list string)
  : call string :=
  match field "title" md with
  | Some title => Returns title
  | None => Throws (Exception "'title'")
  end.

Definition found (doi title : string) : resolved :=
  {| r_identifier := Some doi;
     r_identifier_type := Some "DOI";
     r_validation_info := Some ValidationTrue;
     r_path := None;
     r_method := Some "document_infos";
     r_metadata := Some [("title", title); ("year", "2020")];
     r_bibtex := Some ("@article{" +:+ title +:+ "}") |}.

Definition not_found : resolved :=
  {| r_identifier := None;
     r_identifier_type := None;
     r_validation_info := None;
     r_path := None;
     r_method := None;
     r_metadata := None;
     r_bibtex := None |}.

(** A resolver that knows three papers and fails on a damaged file. *)
Definition resolver (fs : filesystem) (file : string) : call resolved :=
  if decide (file = "d/a.PDF") then Returns (found "10.1000/a" "Alpha")
  else if decide (file = "d/b.pdf") then Returns (found "10.1000/b" "Beta")
  else if decide (file = "d/Beta.pdf") then Returns (found "10.1000/b" "Beta")
  else if decide (file = "d/broken.pdf") then
    Throws (Exception "EOF marker not found")
  else Returns not_found.

Definition accepts : filesystem → string → string → option exn :=
  λ _ _ _, None.

Definition denies : filesystem → string → string → option exn :=
  λ _ _ _, Some (OSError "[Errno 13] Permission denied").

Definition flat_walk : config_params :=
  {| config_format := "{title}"; config_check_subfolders := false |}.

Definition deep_walk : config_params :=
  {| config_format := "{title}"; config_check_subfolders := true |}.

(** A folder with two papers, a text file and a subfolder with a paper
    nobody knows. *)
Definition papers : filesystem :=
  [("d", Directory); ("d/b.pdf", RegularFile); ("d/notes.txt", RegularFile);
   ("d/s", Directory); ("d/a.PDF", RegularFile); ("d/s/c.pdf", RegularFile)].

(** A folder whose name for [Beta] is taken twice, and a paper already
    named after its title. *)
Definition crowded : filesystem :=
  [("d", Directory); ("d/b.pdf", RegularFile); ("d/Beta.pdf", RegularFile);
   ("d/Beta (2).pdf", RegularFile)].

(** A folder without papers next to a subfolder with one. *)
Definition barren : filesystem :=
  [("d", Directory); ("d/notes.txt", RegularFile); ("d/s", Directory);
   ("d/s/c.pdf", RegularFile)].

(** A folder with a damaged file before a good one. *)
Definition damaged : filesystem :=
  [("d", Directory); ("d/broken.pdf", RegularFile); ("d/b.pdf", RegularFile)].

(** A folder whose paper already has the name of its title. *)
Definition settled : filesystem :=
  [("d", Directory); ("d/Beta.pdf", RegularFile); ("d/s", Directory);
   ("d/s/b.pdf", RegularFile)].

(** A folder with a directory whose name ends in [.pdf]. *)
Definition odd : filesystem :=
  [("d", Directory); ("d/a.PDF", RegularFile); ("d/x.pdf", Directory);
   ("d/x.pdf/b.pdf", RegularFile)].

(** A folder with two copies of a paper next to the file that has its
    name. *)
Definition twins : filesystem :=
  [("d", Directory); ("d/b.pdf", RegularFile); ("d/b2.pdf", RegularFile);
   ("d/Beta.pdf", RegularFile)].

(** A resolver that reads the paper [Beta] in every file of [d] whose
    name starts with [Beta]. *)
Definition librarian (fs : filesystem) (file : string) : call resolved :=
  if Str.strip_prefix "d/Beta" file is Some _
  then Returns (found "10.1000/b" "Beta")
  else resolver fs file.

(** [posixpath.join] of two parts, [posixpath.dirname], and
    [posixpath.relpath] for a path below the start, on paths without
    doubled separators. *)
Definition join (a b : string) : string :=
  match b with
  | String "/"%char _ => b
  | _ =>
      if bool_decide (a = "") || Str.endswith a "/" then a +:+ b
      else a +:+ "/" +:+ b
  end.

Definition dirname (p : string) : string :=
  match Posix.rsplit Posix.sep p with
  | Some (EmptyString, _) => "/"
  | Some (head, _) => head
  | None => ""
  end.

Definition relpath (p start : string) : string :=
  default p (Str.strip_prefix (start +:+ "/") p).

(** The escape sequences of [colorama.Fore]. *)
Definition escape (code : string) : string :=
  String (ascii_of_nat 27) ("[" +:+ code +:+ "m").

Definition red : string := escape "31".
Definition yellow : string := escape "33".
Definition magenta : string := escape "35".

(** Text files that can all be opened, and no other path. *)
Definition may_open : string → string → option exn := λ _ _, None.
Definition no_other_path : string → bool := λ _, false.

(** Writes that all reach the file, with the line ends of Posix. *)
Definition may_write : string → file_op → option (exn * nat) := λ _ _, None.
Definition linesep : string := newline.

(** A disk on which a write of more than twenty characters fails, with
    twenty characters in the file afterwards. *)
Definition full_disk : string → file_op → option (exn * nat) :=
  λ _ op,
    match op with
    | Write text =>
        if 20 <? String.length text
        then Some (OSError "[Errno 28] No space left on device", 20)
        else None
    | Close => None
    end.

Definition user_abbreviations : string :=
  "pdfrenamer/UserDefinedAbbreviations.txt".

Definition texts : gmap string string :=
  <["more.txt" := "Nature = Nat."]>
    {[ user_abbreviations := "Physical Review Letters = PRL" ]}.

(** The same, with the new abbreviations written on Windows. *)
Definition dos_texts : gmap string string :=
  <["more.txt" := "Nature = Nat." +:+ String carriage_return newline]>
    {[ user_abbreviations := "Physical Review Letters = PRL" ]}.

(** The stored settings explore subfolders. *)
Definition stored : settings :=
  {| set_verbose := true;
     set_format := "{title}";
     set_max_length_authors := 80;
     set_max_length_filename := 250;
     set_check_subfolders := true |}.

Definition desk (fs : filesystem) : world :=
  {| w_settings := stored; w_fs := fs; w_files := texts |}.

(** [pdfrenamer path...] and [pdfrenamer -add_abbreviation_file file]. *)
Definition command (path : list string) (abbreviation_file : option string)
  : arguments :=
  {| args_path := path;
     args_decrease_verbose := false;
     args_format := "{title}";
     args_sub_folders := false;
     args_max_length_authors := 80;
     args_max_length_filename := 250;
     args_path_abbreviation_file := abbreviation_file;
     args_set_default := false;
     args_install_right_click := false;
     args_uninstall_right_click := false |}.

End Sample.

(** ** The program *)

Section Program.

(** [os.path.sep] *)
Variable sep : ascii.
Definition os_path_sep : string := String sep EmptyString.

Variable config : config_params.

(** The collaborators: [filename_creators.check_format_is_valid] and
    [filename_creators.build_filename], [pdf2bib.pdf2bib_singlefile]
    (which reads the file, so depends on the filesystem),
    [str(pathlib.Path(p).parent)], [os.path.splitext], and the reasons
    the operating system may have to refuse an [os.rename]
    (permissions, a missing parent directory, another device). *)
Variable check_format_is_valid : string → option (list string).
Variable build_filename : metadata_dict → string → list string → call string.
Variable pdf2bib_singlefile : filesystem → string → call resolved.
Variable pathlib_parent : string → string.
Variable os_path_splitext : string → string * string.
Variable os_rename_error : filesystem → string → string → option exn.

Definition call_check_format (format : string) : M (option (list string)) :=
  emit (CallCheckFormat format);;
  mret (check_format_is_valid format).

Definition call_resolver (file : string) : M resolved :=
  emit (CallResolver file);;
  fs ← get_fs;
  of_call (pdf2bib_singlefile fs file).

Definition call_build_filename
    (md : metadata_dict) (format : string) (tags : list string) : M string :=
  emit (CallBuildFilename md format tags);;
  of_call (build_filename md format tags).

(** [os.rename(src, dst)] *)
Definition os_rename (src dst : string) : M unit :=
  emit (CallOsRename src dst);;
  fs ← get_fs;
  match os_rename_error fs src dst with
  | Some e => raise e
  | None =>
      if Fs.exists_ fs src then put_fs (Fs.move fs src dst)
      else raise (OSError "[Errno 2] No such file or directory")
  end.

(** *** [rename_file] (lines 167-182) *)

(** [new_path + (f" ({i})" if i>1 else "") + ext] *)
Definition candidate (new_path ext : string) (i : nat) : string :=
  new_path +:+ (if 1 <? i then " (" +:+ pretty i +:+ ")" else "") +:+ ext.

(** The [while True] loop, from the value [i] on. *)
Fixpoint rename_file_loop (fuel i : nat) (old_path new_path ext : string)
  : M string :=
  match fuel with
  | 0 => out_of_fuel
  | S fuel' =>
      let New_path := candidate new_path ext i in
      taken ← os_path_exists New_path;
      if taken : bool then
        rename_file_loop fuel' (i + 1) old_path new_path ext
      else
        os_rename old_path New_path;;
        mret New_path
  end.

(** The loop probes one more path than the filesystem has entries at
    most ([rename_file_loop_returns] below), whence its fuel. *)
Definition rename_file (old_path new_path ext : string) : M string :=
  present ← os_path_exists old_path;
  if negb present then
    raise (ValueError ("The file " +:+ old_path +:+ " does not exist"))
  else
    fs ← get_fs;
    rename_file_loop (S (length fs)) 1 old_path new_path ext.

(** *** [rename], a file target (lines 112-165) *)

Definition metadata_string (md : metadata_dict) : string :=
  Str.nl_tab +:+
  Str.join Str.nl_tab
    ((λ kv : string * string,
        kv.1 +:+ " = " +:+ Str.quote +:+ kv.2 +:+ Str.quote) <$> md).

(** Lines 129-157, with [result] bound to the resolver's dictionary. *)
Definition process_resolved
    (filename format : string) (tags : list string) (result : result_dict)
  : M result_dict :=
  if truthy_list (metadata result) && truthy_str (identifier result) then
    logger_info ("Found bibtex data and an identifier for this file: "
                 +:+ str_opt (identifier result) +:+ " ("
                 +:+ str_opt (identifier_type result) +:+ ").");;
    let md := default [] (metadata result) in
    logger_info ("Found the following data:" +:+ metadata_string md);;
    NewName ← call_build_filename md format tags;
    let ext := Str.lower (os_path_splitext filename).2 in
    let directory := pathlib_parent filename in
    let NewPath := directory +:+ os_path_sep +:+ NewName in
    let NewPathWithExt := NewPath +:+ ext in
    logger_info ("The new file name is " +:+ NewPathWithExt);;
    if decide (filename = NewPathWithExt) then
      logger_info
        "The new file name is identical to the old one. Nothing will be changed";;
      mret (set_path_new (Some NewPathWithExt) result)
    else
      try_except
        (NewPathWithExt_renamed ← rename_file filename NewPath ext;
         logger_info "File renamed correctly.";;
         (if decide (NewPathWithExt = NewPathWithExt_renamed) then mret ()
          else logger_info
            "(Note: Another file with the same name was already present in the same folder, so a numerical index was added at the end).");;
         mret (set_path_new (Some NewPathWithExt_renamed) result))
        (λ e,
           logger_error ("Some error occured while trying to rename this file: "
                         +:+ Str.nl_space +:+ exn_str e);;
           mret (set_path_new None result))
  else
    logger_info
      "The pdf2doi library was not able to find an identifier for this pdf file.";;
    mret (set_path_new None result).

(** Lines 158-163: the handler of the outer [try].  [result] is the
    local variable as the handler finds it: unbound when the resolver
    call itself raised, since line 125 then assigned nothing. *)
Definition except_handler (result : option result_dict) (e : exn)
  : M result_dict :=
  emit PrintTraceback;;
  emit PrintTraceback;;
  logger_error
    ("Some unexpected error occured while using pdf2bib to process this file: "
     +:+ Str.nl_space +:+ exn_str e);;
  match result with
  | None => raise (UnboundLocalError "result")
  | Some r => mret (set_path_new None r)
  end.

(** [try: x = first; rest  except Exception as e: handler], where the
    handler reads the local variable [x]: bound once [first] has
    returned, unbound when [first] raised. *)
Definition try_assign {A B} (first : M A) (rest : A → M B)
    (handler : option A → exn → M B) : M B := λ fs,
  match first fs with
  | (Return a, fs1, t1) =>
      match try_except (rest a) (handler (Some a)) fs1 with
      | (o, fs2, t2) => (o, fs2, t1 ++ t2)
      end
  | (Raise e, fs1, t1) =>
      match handler None e fs1 with
      | (o, fs2, t2) => (o, fs2, t1 ++ t2)
      end
  | (OutOfFuel, fs1, t1) => (OutOfFuel, fs1, t1)
  end.

Definition rename_single_file
    (target format : string) (tags : list string) : M value :=
  let filename := target in
  logger_info ("File: " +:+ filename);;
  present ← os_path_exists filename;
  if negb present then
    logger_error ("'" +:+ filename +:+ "' is not a valid file or directory.");;
    mret VNone
  else if negb (Str.endswith (Str.lower filename) ".pdf") then
    logger_error "The file must have .pdf extension.";;
    mret VNone
  else
    logger_info
      "Calling the pdf2bib library to retrieve the bibtex info of this file.";;
    result ← try_assign
      (r ← call_resolver filename; mret (with_path_original r filename))
      (process_resolved filename format tags)
      except_handler;
    mret (VDict result).

(** *** [rename], a directory target (lines 72-109) *)

Section Directory.

(** The recursive call [rename(target, format=format, tags=tags)]. *)
Variable self : string → option string → option (list string) → M value.

(** Lines 88-93; [files_processed] is bound here. *)
Fixpoint for_pdf_files (target format : string) (tags : list string)
    (pdf_files : list string) (files_processed : list value)
  : M (list value) :=
  match pdf_files with
  | [] => mret files_processed
  | f :: pdf_files' =>
      logger_info "................";;
      let file := target +:+ f in
      result ← self file (Some format) (Some tags);
      for_pdf_files target format tags pdf_files'
        (files_processed ++ [result])
  end.

(** [files_processed.extend(result)]; [files_processed] is [None]
    while the local variable is unbound. *)
Definition extend (files_processed : option (list value)) (result : value)
  : M (option (list value)) :=
  match files_processed with
  | None => raise (UnboundLocalError "files_processed")
  | Some l =>
      items ← of_call (py_iter result);
      mret (Some (l ++ items))
  end.

(** Lines 102-104. *)
Fixpoint for_subfolders (format : string) (tags : list string)
    (subfolders : list string) (files_processed : option (list value))
  : M (option (list value)) :=
  match subfolders with
  | [] => mret files_processed
  | subfolder :: subfolders' =>
      result ← self subfolder (Some format) (Some tags);
      files_processed' ← extend files_processed result;
      for_subfolders format tags subfolders' files_processed'
  end.

Definition is_pdf_name (f : string) : bool :=
  Str.endswith (Str.lower f) ".pdf".

(** Lines 74-75: the path ends with the separator. *)
Definition with_trailing_sep (target : string) : string :=
  if Str.endswith target os_path_sep then target
  else target +:+ os_path_sep.

Definition rename_directory
    (target format : string) (tags : list string) : M value :=
  logger_info ("Looking for pdf files and subfolders in the folder "
               +:+ target +:+ "...");;
  let target := with_trailing_sep target in
  fs ← get_fs;
  let pdf_files := List.filter is_pdf_name (Fs.listdir sep fs target) in
  let subfolders := Fs.scandir_dirs sep fs target in
  let numb_files := length pdf_files in
  files_processed ←
    (if numb_files =? 0 then
       logger_error "No pdf file found in this folder.";;
       mret None
     else
       logger_info ("Found " +:+ pretty numb_files +:+ " pdf file(s).");;
       l ← for_pdf_files target format tags pdf_files [];
       logger_info "................";;
       mret (Some l));
  let numb_subfolders := length subfolders in
  files_processed ←
    (if numb_subfolders =? 0 then mret files_processed
     else
       logger_info ("Found " +:+ pretty numb_subfolders +:+ " subfolder(s)");;
       files_processed' ←
         (if config_check_subfolders config then
            logger_info "Exploring subfolders...";;
            for_subfolders format tags subfolders files_processed
          else
            logger_info
              "The subfolder(s) will not be scanned because the parameter check_subfolders is set to False. When using this script from command line, use the option -sf to explore also subfolders.";;
            mret files_processed);
       logger_info "................";;
       mret files_processed');
  match files_processed with
  | None => raise (UnboundLocalError "files_processed")
  | Some l => mret (VList l)
  end.

End Directory.

(** *** [rename] (lines 17-165) *)

Fixpoint rename (fuel : nat) (target : string)
    (format : option string) (tags : option (list string)) : M value :=
  match fuel with
  | 0 => out_of_fuel
  | S fuel' =>
      let format :=
        if truthy_str format then default "" format
        else config_format config in
      checked ←
        (if truthy_list tags then mret tags
         else call_check_format format);
      match checked with
      | None => mret VNone
      | Some tags =>
          present ← os_path_exists target;
          if negb present then
            logger_error
              (target +:+ " is not a valid path to a file or a directory.");;
            mret VNone
          else
            isdir ← os_path_isdir target;
            if isdir : bool then
              rename_directory (rename fuel') target format tags
            else
              rename_single_file target format tags
      end
  end.

(** What one call [os.rename(src, dst)] leaves behind. *)
Definition os_rename_result (fs : filesystem) (src dst : string)
  : outcome string * filesystem * list event :=
  match os_rename_error fs src dst with
  | Some e => (Raise e, fs, [CallOsRename src dst])
  | None =>
      if Fs.exists_ fs src
      then (Return dst, Fs.move fs src dst, [CallOsRename src dst])
      else (Raise (OSError "[Errno 2] No such file or directory"), fs,
            [CallOsRename src dst])
  end.


(** Lines 51-58 seen from outside: the format the call works with, the
    tags it works with ([None]: the call returns [None] at line 58), and
    the call to the validator it makes on the way. *)
Definition effective_format (format : option string) : string :=
  if truthy_str format then default "" format else config_format config.

Definition checked_tags (format : option string) (tags : option (list string))
  : option (list string) :=
  if truthy_list tags then tags
  else check_format_is_valid (effective_format format).

Definition entry_events (format : option string) (tags : option (list string))
  : list event :=
  if truthy_list tags then []
  else [CallCheckFormat (effective_format format)].

(** Lines 137-140: the base path and the extension of the new name. *)
Definition new_path (filename NewName : string) : string :=
  pathlib_parent filename +:+ os_path_sep +:+ NewName.

Definition new_ext (filename : string) : string :=
  Str.lower (os_path_splitext filename).2.

(** [pre] happened before the run [x]. *)
Definition after {A} (pre : list event)
    (x : outcome A * filesystem * list event)
  : outcome A * filesystem * list event :=
  match x with (o, fs, t) => (o, fs, pre ++ t) end.

(** Lines 78-79: what the walk of [target] lists. *)
Definition pdf_files_of (fs : filesystem) (target : string) : list string :=
  List.filter is_pdf_name (Fs.listdir sep fs (with_trailing_sep target)).

Definition subfolders_of (fs : filesystem) (target : string) : list string :=
  Fs.scandir_dirs sep fs (with_trailing_sep target).

(** The calls [f a] for the [a] of [l], one after the other, each on the
    filesystem the one before left; the values they return, in order. *)
Fixpoint mapM {A B} (f : A → M B) (l : list A) : M (list B) :=
  match l with
  | [] => mret []
  | a :: l' =>
      b ← f a;
      bs ← mapM f l';
      mret (b :: bs)
  end.

(** The events of a trace that are not log lines. *)
Definition is_log (ev : event) : bool :=
  match ev with Log _ _ => true | _ => false end.

Definition calls (tr : list event) : list event :=
  List.filter (λ ev, negb (is_log ev)) tr.

(** Every event a computation emits satisfies [P], whatever the
    filesystem it starts from. *)
Definition emits {A} (P : event → Prop) (m : M A) : Prop :=
  ∀ fs, Forall P (m fs).2.

(** What a call with tags given may emit: no call to the validator, and
    calls to the filename builder with that format and those tags only. *)
Definition unchecked_event (format : string) (tags : list string)
    (ev : event) : Prop :=
  match ev with
  | CallCheckFormat _ => False
  | CallBuildFilename _ format' tags' => format' = format ∧ tags' = tags
  | _ => True
  end.

(** [fs'] is [fs] after some renames of regular files, each to a path
    that did not exist. *)
Inductive moved : filesystem → filesystem → Prop :=
| moved_refl fs : moved fs fs
| moved_step fs src dst fs' :
    Fs.lookup fs src = Some RegularFile →
    Fs.exists_ fs dst = false →
    moved (Fs.move fs src dst) fs' →
    moved fs fs'.

(** A computation that changes the filesystem by such renames only. *)
Definition only_moves {A} (m : M A) : Prop :=
  ∀ fs, moved fs (m fs).1.2.

(** A call to [os.rename] as [rename] makes them: the source has a [.pdf]
    extension, the destination is a name in the directory of the source
    that ends with the lower-cased extension of the source. *)
Definition tidy_rename (ev : event) : Prop :=
  match ev with
  | CallOsRename src dst =>
      Str.endswith (Str.lower src) ".pdf" = true ∧
      (∃ name, dst = pathlib_parent src +:+ os_path_sep +:+ name) ∧
      Str.endswith dst (new_ext src) = true
  | _ => True
  end.

(** A call to [os.rename] moves one of [sources]. *)
Definition renames_from (sources : list string) (ev : event) : Prop :=
  match ev with
  | CallOsRename src _ => src ∈ sources
  | _ => True
  end.

(** The calls [rename_file(o, new_path, ext)] for the [o] of [olds], one
    after the other. *)
Definition rename_each (olds : list string) (new_path ext : string)
  : M (list string) :=
  mapM (λ o, rename_file o new_path ext) olds.

(** The path of the file, as it is spelled, is the very path lines
    136-140 build for it: [str(Path(file).parent) + os.path.sep + NewName
    + ext].  A file that has the built name under another spelling of
    its directory (a target [./d], for which the parent prints as [d])
    is not meant. *)
Definition canonical (fs : filesystem) (format : string) (tags : list string)
    (file : string) : Prop :=
  ∃ r NewName,
    Fs.lookup fs file = Some RegularFile ∧
    pdf2bib_singlefile fs file = Returns r ∧
    truthy_list (r_metadata r) = true ∧
    truthy_str (r_identifier r) = true ∧
    build_filename (default [] (r_metadata r)) format tags = Returns NewName ∧
    file = new_path file NewName +:+ new_ext file.

(** * Properties *)

(** ** Strings *)

Lemma string_app_cons (c : ascii) (a b : string) :
String c a +:+ b = String c (a +:+ b).
Proof. reflexivity. Qed.

Lemma string_length_app (a b : string) :
String.length (a +:+ b) = String.length a + String.length b.
Proof.
induction a as [|c a IH]; [done|].
rewrite string_app_cons. cbn. by rewrite IH.
Qed.

Lemma string_app_inv_tail (a b t : string) : a +:+ t = b +:+ t → a = b.
Proof.
revert b. induction a as [|c a IH]; intros [|d b] H.
- done.
- apply (f_equal String.length) in H.
  rewrite !string_length_app in H. cbn in H. lia.
- apply (f_equal String.length) in H.
  rewrite !string_length_app in H. cbn in H. lia.
- rewrite !string_app_cons in H. injection H as -> H. f_equal. by apply IH.
Qed.

Lemma string_app_assoc (a b c : string) : (a +:+ b) +:+ c = a +:+ b +:+ c.
Proof.
induction a as [|x a IH]; [done|]. rewrite !string_app_cons. by rewrite IH.
Qed.

Lemma lower_app (a b : string) :
  Str.lower (a +:+ b) = Str.lower a +:+ Str.lower b.
Proof.
  induction a as [|c a IH]; [done|].
  rewrite string_app_cons. cbn [Str.lower].
  by rewrite string_app_cons, IH.
Qed.

Lemma substring_app_skip (a b : string) (k m : nat) :
  String.substring (String.length a + k) m (a +:+ b) = String.substring k m b.
Proof. induction a as [|c a IH]; [done|]. rewrite string_app_cons. apply IH. Qed.

(** A suffix of [b] is a suffix of [a + b]. *)
Lemma endswith_app (a b suffix : string) :
  Str.endswith b suffix = true → Str.endswith (a +:+ b) suffix = true.
Proof.
  unfold Str.endswith. rewrite string_length_app.
  intros [Hlen Hsub]%andb_true_iff. apply Nat.leb_le in Hlen.
  apply andb_true_iff. split; [apply Nat.leb_le; lia|].
  replace (String.length a + String.length b - String.length suffix)
    with (String.length a + (String.length b - String.length suffix)) by lia.
  by rewrite substring_app_skip.
Qed.

(** The candidates of [rename_file] are pairwise different paths. *)
Lemma candidate_inj (new_path ext : string) (i j : nat) :
1 ≤ i → 1 ≤ j →
candidate new_path ext i = candidate new_path ext j → i = j.
Proof.
intros Hi Hj H. unfold candidate in H.
apply (inj (String.app new_path)) in H.
apply string_app_inv_tail in H.
destruct (1 <? i) eqn:Ei, (1 <? j) eqn:Ej.
- apply (inj (String.app " (")) in H.
  apply string_app_inv_tail in H. by apply (inj pretty) in H.
- discriminate H.
- discriminate H.
- apply Nat.ltb_ge in Ei, Ej. lia.
Qed.

(** ** The filesystem *)

Lemma exists_elem_of (fs : filesystem) (p : string) :
Fs.exists_ fs p = true ↔ p ∈ Fs.paths fs.
Proof.
unfold Fs.exists_, Fs.paths.
induction fs as [|[q k] fs IH]; cbn.
- split; [done|]. intros H. by apply elem_of_nil in H.
- rewrite elem_of_cons. destruct (decide (q = p)) as [->|Hne].
  + split; auto.
  + rewrite IH. split; [auto|]. intros [?|?]; [congruence|done].
Qed.

Lemma lookup_move_other (fs : filesystem) (src dst p : string) :
p ≠ src → p ≠ dst → Fs.lookup (Fs.move fs src dst) p = Fs.lookup fs p.
Proof.
intros Hs Hd. unfold Fs.move.
induction fs as [|[q k] fs IH]; [done|].
rewrite filter_cons. cbn [fst]. destruct (decide (q ≠ dst)) as [Hq|Hq].
- rewrite fmap_cons. unfold Fs.rekey at 1. cbn [fst snd].
  destruct (decide (q = src)) as [->|Hqs]; cbn.
  + rewrite !decide_False by congruence. apply IH.
  + destruct (decide (q = p)); [done|]. apply IH.
- apply dec_stable in Hq. subst q. cbn.
  rewrite decide_False by congruence. apply IH.
Qed.

Lemma lookup_move_src (fs : filesystem) (src dst : string) :
src ≠ dst → Fs.lookup (Fs.move fs src dst) src = None.
Proof.
intros Hne. unfold Fs.move.
induction fs as [|[q k] fs IH]; [done|].
rewrite filter_cons. cbn [fst]. destruct (decide (q ≠ dst)) as [Hq|Hq]; [|done].
rewrite fmap_cons. unfold Fs.rekey at 1. cbn [fst snd].
destruct (decide (q = src)) as [->|Hqs]; cbn.
- by rewrite decide_False by congruence.
- by rewrite decide_False.
Qed.

Lemma lookup_move_dst (fs : filesystem) (src dst : string) :
Fs.lookup fs dst = None →
Fs.lookup (Fs.move fs src dst) dst = Fs.lookup fs src.
Proof.
intros Hfree. unfold Fs.move.
induction fs as [|[q k] fs IH]; [done|].
cbn in Hfree. destruct (decide (q = dst)) as [|Hq]; [done|].
rewrite filter_cons. cbn [fst]. rewrite decide_True by done.
rewrite fmap_cons. unfold Fs.rekey at 1. cbn [fst snd].
destruct (decide (q = src)) as [->|Hqs]; cbn.
- by rewrite !decide_True.
- rewrite !decide_False by done. by apply IH.
Qed.

(** Among [length fs + 1] pairwise different paths one does not exist. *)
Lemma free_path (fs : filesystem) (f : nat → string) :
(∀ i j, 1 ≤ i → 1 ≤ j → f i = f j → i = j) →
∃ k, 1 ≤ k ≤ S (length fs) ∧ Fs.exists_ fs (f k) = false.
Proof.
intros Hinj.
destruct (decide (Forall (λ k, Fs.exists_ fs (f k) = true)
                         (seq 1 (S (length fs))))) as [Hall|Hex].
- exfalso.
  assert (NoDup (f <$> seq 1 (S (length fs)))) as Hnd.
  { apply NoDup_fmap_2_strong; [|apply NoDup_seq].
    intros i j [Hi _]%elem_of_seq [Hj _]%elem_of_seq. by apply Hinj. }
  assert (f <$> seq 1 (S (length fs)) ⊆ Fs.paths fs) as Hsub.
  { intros p (k & -> & Hk)%list_elem_of_fmap.
    apply exists_elem_of. rewrite Forall_forall in Hall. by apply Hall. }
  apply NoDup_submseteq in Hsub; [|done].
  apply submseteq_length in Hsub.
  unfold Fs.paths in Hsub. rewrite !length_fmap, length_seq in Hsub. lia.
- apply not_Forall_Exists in Hex; [|apply _].
  apply list.Exists_exists in Hex as (k & Hk & Hfree).
  apply elem_of_seq in Hk. cbn in Hfree.
  exists k. split; [lia|]. by destruct (Fs.exists_ fs (f k)).
Qed.

(** The least such path. *)
Lemma first_free_path (fs : filesystem) (f : nat → string) :
(∀ i j, 1 ≤ i → 1 ≤ j → f i = f j → i = j) →
∃ k, 1 ≤ k ≤ S (length fs) ∧ Fs.exists_ fs (f k) = false ∧
     ∀ j, 1 ≤ j < k → Fs.exists_ fs (f j) = true.
Proof.
intros Hinj. destruct (free_path fs f Hinj) as (k0 & Hk0 & Hfree0).
revert Hk0 Hfree0. induction (lt_wf k0) as [k0 _ IH]. intros Hk0 Hfree0.
destruct (decide (Forall (λ j, Fs.exists_ fs (f j) = true)
                         (seq 1 (k0 - 1)))) as [Hall|Hex].
- exists k0. split_and!; [lia..|done|].
  intros j Hj. rewrite Forall_forall in Hall. apply Hall.
  apply elem_of_seq. lia.
- apply not_Forall_Exists in Hex; [|apply _].
  apply list.Exists_exists in Hex as (k & Hk & Hfree).
  apply elem_of_seq in Hk. cbn in Hfree.
  apply (IH k); [lia|lia|]. by destruct (Fs.exists_ fs (f k)).
Qed.

(** ** Computations *)

Lemma bind_unit_r {A} (x : outcome A * filesystem * list event) :
match x with (o, fs2, t2) => (o, fs2, [] ++ t2) end = x.
Proof. by destruct x as [[o fs2] t2]. Qed.

Lemma bind_os_path_exists {A} (p : string) (f : bool → M A) (fs : filesystem) :
(os_path_exists p ≫= f) fs = f (Fs.exists_ fs p) fs.
Proof. cbv [mbind M_bind bind os_path_exists get_fs mret M_ret ret]. cbn. apply bind_unit_r. Qed.

Lemma bind_os_path_isdir {A} (p : string) (f : bool → M A) (fs : filesystem) :
(os_path_isdir p ≫= f) fs = f (Fs.isdir fs p) fs.
Proof. cbv [mbind M_bind bind os_path_isdir get_fs mret M_ret ret]. cbn. apply bind_unit_r. Qed.

Lemma bind_get_fs {A} (f : filesystem → M A) (fs : filesystem) :
(get_fs ≫= f) fs = f fs fs.
Proof. cbv [mbind M_bind bind get_fs]. apply bind_unit_r. Qed.

Lemma bind_ret {A B} (a : A) (f : A → M B) (fs : filesystem) :
(mret a ≫= f) fs = f a fs.
Proof. cbv [mbind M_bind bind mret M_ret ret]. apply bind_unit_r. Qed.

Lemma bind_raise {A B} (e : exn) (f : A → M B) (fs : filesystem) :
(raise e ≫= f) fs = (Raise e, fs, []).
Proof. reflexivity. Qed.

Lemma bind_emit {A} (ev : event) (f : unit → M A) (fs : filesystem) :
(emit ev ≫= f) fs =
match f () fs with (o, fs2, t2) => (o, fs2, ev :: t2) end.
Proof. reflexivity. Qed.

(** *** [rename_file] *)

Lemma os_rename_then_return (fs : filesystem) (src dst : string) :
  (os_rename src dst;; mret dst) fs = os_rename_result fs src dst.
Proof.
  unfold os_rename_result.
  cbv [mbind M_bind bind os_rename emit get_fs mret M_ret ret].
  destruct (os_rename_error fs src dst); [done|].
  by destruct (Fs.exists_ fs src).
Qed.

(** The loop stops at the first candidate that does not exist. *)
Lemma rename_file_loop_returns
    (fuel i k : nat) (old_path new_path ext : string) (fs : filesystem) :
  i ≤ k < i + fuel →
  Fs.exists_ fs (candidate new_path ext k) = false →
  (∀ j, i ≤ j < k → Fs.exists_ fs (candidate new_path ext j) = true) →
  rename_file_loop fuel i old_path new_path ext fs
  = os_rename_result fs old_path (candidate new_path ext k).
Proof.
  revert i. induction fuel as [|fuel IH]; intros i Hk Hfree Htaken; [lia|].
  cbn [rename_file_loop]. rewrite bind_os_path_exists.
  destruct (decide (i = k)) as [->|Hne].
  - rewrite Hfree. apply os_rename_then_return.
  - rewrite Htaken by lia. apply IH; [lia|done|].
    intros j Hj. apply Htaken. lia.
Qed.

(** C9: [rename_file] on an [old_path] that does not exist raises the
    [ValueError] that says so, and leaves the filesystem alone: no call
    to [os.rename] is made. *)
Theorem rename_file_missing_old_path
    (old_path new_path ext : string) (fs : filesystem) :
  Fs.exists_ fs old_path = false →
  rename_file old_path new_path ext fs
  = (Raise (ValueError ("The file " +:+ old_path +:+ " does not exist")),
     fs, []).
Proof.
  intros Hmissing. unfold rename_file.
  rewrite bind_os_path_exists, Hmissing. reflexivity.
Qed.

(** On an [old_path] that exists the loop ends, within its fuel, at the
    first candidate that does not exist. *)
Lemma rename_file_run
    (old_path new_path ext : string) (fs : filesystem) :
  Fs.exists_ fs old_path = true →
  ∃ k : nat,
    1 ≤ k ∧
    Fs.exists_ fs (candidate new_path ext k) = false ∧
    (∀ j, 1 ≤ j < k → Fs.exists_ fs (candidate new_path ext j) = true) ∧
    rename_file old_path new_path ext fs
    = os_rename_result fs old_path (candidate new_path ext k).
Proof.
  intros Hold.
  destruct (first_free_path fs (candidate new_path ext))
    as (k & Hk & Hfree & Htaken); [apply candidate_inj|].
  exists k. split_and!; [lia|done|done|].
  unfold rename_file.
  rewrite bind_os_path_exists, Hold. cbn [negb]. rewrite bind_get_fs.
  apply rename_file_loop_returns; [lia|done|].
  intros j Hj. apply Htaken. lia.
Qed.

(** C3: when [old_path] exists, [rename_file] asks the operating system
    for exactly one rename, of [old_path] to the first of the paths
    [new_path + ext], [new_path + " (2)" + ext], [new_path + " (3)" + ext],
    ... that does not exist; when the system accepts it the file is at
    that path afterwards, no longer at [old_path], and the path is
    returned. *)
Theorem rename_file_first_free_candidate
    (old_path new_path ext : string) (fs : filesystem) :
  Fs.exists_ fs old_path = true →
  ∃ k : nat,
    1 ≤ k ∧
    Fs.exists_ fs (candidate new_path ext k) = false ∧
    (∀ j, 1 ≤ j < k → Fs.exists_ fs (candidate new_path ext j) = true) ∧
    candidate new_path ext 1 = new_path +:+ ext ∧
    (2 ≤ k → candidate new_path ext k
             = new_path +:+ " (" +:+ pretty k +:+ ")" +:+ ext) ∧
    let New_path := candidate new_path ext k in
    match os_rename_error fs old_path New_path with
    | None =>
        rename_file old_path new_path ext fs
        = (Return New_path, Fs.move fs old_path New_path,
           [CallOsRename old_path New_path]) ∧
        Fs.lookup (Fs.move fs old_path New_path) New_path
        = Fs.lookup fs old_path ∧
        Fs.exists_ (Fs.move fs old_path New_path) old_path = false
    | Some e =>
        rename_file old_path new_path ext fs
        = (Raise e, fs, [CallOsRename old_path New_path])
    end.
Proof.
  intros Hold.
  destruct (rename_file_run old_path new_path ext fs Hold)
    as (k & Hk & Hfree & Htaken & Hrun).
  exists k. split_and!; [done|done|done|done|..].
  { intros Hk2. unfold candidate.
    apply Nat.ltb_lt in Hk2. rewrite Hk2.
    by rewrite !string_app_assoc. }
  cbn zeta. rewrite Hrun. unfold os_rename_result. rewrite Hold.
  destruct (os_rename_error fs old_path (candidate new_path ext k)); [done|].
  assert (Fs.lookup fs (candidate new_path ext k) = None) as Hnone.
  { unfold Fs.exists_ in Hfree.
    by destruct (Fs.lookup fs (candidate new_path ext k)). }
  split_and!; [done|by apply lookup_move_dst|].
  unfold Fs.exists_. rewrite lookup_move_src; [done|].
  intros ->. congruence.
Qed.


(** *** [rename]: one step of evaluation *)

Ltac run :=
  cbv [mbind M_bind bind mret M_ret ret raise emit get_fs put_fs out_of_fuel
       logger_info logger_error os_path_exists os_path_isdir of_call
       call_check_format call_resolver call_build_filename
       try_except try_assign after negb];
  cbn [app].

(** Lines 51-72: the entry of [rename], up to the choice of a branch. *)
Lemma rename_entry (fuel : nat) (target : string) (format : option string)
    (tags : option (list string)) (fs : filesystem) :
  rename (S fuel) target format tags fs
  = after (entry_events format tags)
      match checked_tags format tags with
      | None => (Return VNone, fs, [])
      | Some tl =>
          if Fs.exists_ fs target then
            if Fs.isdir fs target then
              rename_directory (rename fuel) target (effective_format format)
                               tl fs
            else
              rename_single_file target (effective_format format) tl fs
          else
            (Return VNone, fs,
             [Log ERROR (target
                         +:+ " is not a valid path to a file or a directory.")])
      end.
Proof.
  cbn [rename]. unfold entry_events, checked_tags.
  fold (effective_format format).
  destruct (truthy_list tags) eqn:Htags;
    [destruct tags as [tl|]; [|done]|]; run.
  - destruct (Fs.exists_ fs target); [|done].
    destruct (Fs.isdir fs target).
    + by destruct (rename_directory _ _ _ _ _) as [[[]]].
    + by destruct (rename_single_file _ _ _ _) as [[[]]].
  - destruct (check_format_is_valid (effective_format format)) as [tl|];
      [|done].
    destruct (Fs.exists_ fs target); [|done].
    destruct (Fs.isdir fs target).
    + by destruct (rename_directory _ _ _ _ _) as [[[]]].
    + by destruct (rename_single_file _ _ _ _) as [[[]]].
Qed.

(** *** [rename] on a file *)

(** C6, as the code has it: on an existing file without a [.pdf]
    extension [rename] returns [None], not a result dictionary; it raises
    nothing, leaves the filesystem alone, and, when the format was
    accepted, its last log line is the error that says so. *)
Theorem rename_non_pdf_returns_none
    (fuel : nat) (target : string) (format : option string)
    (tags : option (list string)) (fs : filesystem) :
  Fs.exists_ fs target = true →
  Fs.isdir fs target = false →
  Str.endswith (Str.lower target) ".pdf" = false →
  ∃ tr,
    rename (S fuel) target format tags fs = (Return VNone, fs, tr) ∧
    (is_Some (checked_tags format tags) →
     tr = entry_events format tags
          ++ [Log INFO ("File: " +:+ target);
              Log ERROR "The file must have .pdf extension."]).
Proof.
  intros He Hd Hp. rewrite rename_entry, He, Hd.
  destruct (checked_tags format tags) as [tl|].
  - unfold rename_single_file. run. rewrite He, Hp.
    eexists. split; [reflexivity|]. intros _.
    by destruct (entry_events format tags) as [|? []].
  - eexists. split; [reflexivity|]. by intros [? ?].
Qed.

(** C2, as the code has it: when [pdf2bib_singlefile] raises, the handler
    of line 158 runs with [result] unbound, and its assignment of line
    163 raises [UnboundLocalError], which leaves [rename]. *)
Theorem rename_resolver_exception_escapes
    (fuel : nat) (target : string) (format : option string)
    (tags : option (list string)) (tl : list string) (fs : filesystem)
    (e : exn) :
  checked_tags format tags = Some tl →
  Fs.exists_ fs target = true →
  Fs.isdir fs target = false →
  Str.endswith (Str.lower target) ".pdf" = true →
  pdf2bib_singlefile fs target = Throws e →
  ∃ tr,
    rename (S fuel) target format tags fs
    = (Raise (UnboundLocalError "result"), fs, tr) ∧
    Forall (λ ev, is_os_rename ev = false) tr.
Proof.
  intros Hc He Hd Hp Hr. rewrite rename_entry, Hc, He, Hd.
  unfold rename_single_file, except_handler. run. rewrite He, Hp, Hr.
  eexists. split; [reflexivity|].
  unfold entry_events. destruct (truthy_list tags); repeat constructor.
Qed.

(** What [process_resolved] returns is [result] with [path_new] set, to
    a path only if metadata and identifier are both truthy. *)
Lemma process_resolved_path_new
    (filename format : string) (tags : list string) (result r' : result_dict)
    (fs fs' : filesystem) (tr : list event) :
  process_resolved filename format tags result fs = (Return r', fs', tr) →
  ∃ p, r' = set_path_new p result ∧
       (p ≠ None →
        truthy_list (metadata result) && truthy_str (identifier result)
        = true).
Proof.
  unfold process_resolved.
  destruct (truthy_list (metadata result) && truthy_str (identifier result));
    run.
  - destruct (build_filename _ _ _); [|done].
    destruct (decide _).
    + intros [= <- <- <-]. eauto.
    + destruct (rename_file _ _ _ _) as [[[p| |] ?] ?]; [| |done].
      * destruct (decide _); intros [= <- <- <-]; eauto.
      * intros [= <- <- <-]. eauto.
  - intros [= <- <- <-]. by exists None.
Qed.

(** C4: a dictionary that [rename] returns for a file has a [path_new]
    only if its identifier and its metadata are both present (and
    truthy); when either is missing or empty, [path_new] is [None], hence
    not the original path. *)
Theorem path_new_needs_identifier_and_metadata
    (fuel : nat) (target : string) (format : option string)
    (tags : option (list string)) (fs fs' : filesystem)
    (r : result_dict) (tr : list event) :
  Fs.isdir fs target = false →
  rename fuel target format tags fs = (Return (VDict r), fs', tr) →
  path_original r = target ∧
  (path_new r ≠ None →
   is_Some (identifier r) ∧ is_Some (metadata r) ∧
   truthy_str (identifier r) = true ∧ truthy_list (metadata r) = true) ∧
  (truthy_list (metadata r) && truthy_str (identifier r) = false →
   path_new r = None ∧ path_new r ≠ Some (path_original r)).
Proof.
  intros Hd Hrun. destruct fuel as [|fuel]; [done|].
  rewrite rename_entry, Hd in Hrun.
  assert (∃ p r0,
    r = set_path_new p (with_path_original r0 target) ∧
    (p ≠ None →
     truthy_list (r_metadata r0) && truthy_str (r_identifier r0) = true))
    as (p & r0 & -> & Hp).
  { destruct (checked_tags format tags) as [tl|]; [|done].
    destruct (Fs.exists_ fs target) eqn:He; [|done].
    revert Hrun. unfold rename_single_file, except_handler. run.
    rewrite He. destruct (Str.endswith _ _); [|done].
    destruct (pdf2bib_singlefile fs target) as [r0|e]; [|done].
    destruct (process_resolved _ _ _ _ _) as [[[r'|e|] fs1] t1] eqn:Hproc;
      [| |done].
    - apply process_resolved_path_new in Hproc as (p & -> & Hp).
      intros [= <- <- <-]. eauto.
    - intros [= <- <- <-]. by exists None, r0. }
  cbn [path_original path_new identifier metadata set_path_new
       with_path_original].
  split_and!; [done|..].
  - intros Hsome%Hp. apply andb_true_iff in Hsome as [Hm Hi].
    split_and!; [|..|done|done].
    + by destruct (r_identifier r0).
    + by destruct (r_metadata r0).
  - intros Hfalse. destruct p as [p|]; [|done].
    rewrite Hp in Hfalse; done.
Qed.

(** C5: when the name built from the metadata gives back the very path
    of the file, [rename] calls [os.rename] not once, leaves the
    filesystem as it is, and reports [path_new] equal to
    [path_original]. *)
Theorem rename_same_name_is_noop
    (fuel : nat) (target : string) (format : option string)
    (tags : option (list string)) (tl : list string) (fs : filesystem)
    (r : resolved) (NewName : string) :
  checked_tags format tags = Some tl →
  Fs.exists_ fs target = true →
  Fs.isdir fs target = false →
  Str.endswith (Str.lower target) ".pdf" = true →
  pdf2bib_singlefile fs target = Returns r →
  truthy_list (r_metadata r) = true →
  truthy_str (r_identifier r) = true →
  build_filename (default [] (r_metadata r)) (effective_format format) tl
  = Returns NewName →
  target = new_path target NewName +:+ new_ext target →
  ∃ result tr,
    rename (S fuel) target format tags fs = (Return (VDict result), fs, tr) ∧
    Forall (λ ev, is_os_rename ev = false) tr ∧
    path_new result = Some (path_original result) ∧
    path_original result = target.
Proof.
  intros Hc He Hd Hp Hr Hm Hi Hb Heq.
  rewrite rename_entry, Hc, He, Hd.
  unfold rename_single_file, process_resolved, except_handler. run.
  rewrite He, Hp, Hr. cbn [metadata identifier with_path_original].
  rewrite Hm, Hi. cbn [andb]. rewrite Hb.
  fold (new_path target NewName) (new_ext target).
  destruct (decide _) as [_|Hne]; [|done].
  eexists _, _. split; [reflexivity|].
  split; [|by cbn; rewrite <-Heq].
  unfold entry_events. destruct (truthy_list tags); repeat constructor.
Qed.

(** C7: when the resolver gave an identifier and metadata and
    [rename_file] then raises, [rename] still returns the dictionary:
    [path_new] is [None], every field of the resolver is kept, and the
    exception goes no further. *)
Theorem rename_survives_rename_file_error
    (fuel : nat) (target : string) (format : option string)
    (tags : option (list string)) (tl : list string) (fs fs1 : filesystem)
    (r : resolved) (NewName : string) (e : exn) (t1 : list event) :
  checked_tags format tags = Some tl →
  Fs.exists_ fs target = true →
  Fs.isdir fs target = false →
  Str.endswith (Str.lower target) ".pdf" = true →
  pdf2bib_singlefile fs target = Returns r →
  truthy_list (r_metadata r) = true →
  truthy_str (r_identifier r) = true →
  build_filename (default [] (r_metadata r)) (effective_format format) tl
  = Returns NewName →
  target ≠ new_path target NewName +:+ new_ext target →
  rename_file target (new_path target NewName) (new_ext target) fs
  = (Raise e, fs1, t1) →
  ∃ result tr,
    rename (S fuel) target format tags fs = (Return (VDict result), fs1, tr) ∧
    result = set_path_new None (with_path_original r target) ∧
    path_new result = None ∧
    identifier result = r_identifier r ∧
    identifier_type result = r_identifier_type r ∧
    validation_info result = r_validation_info r ∧
    path result = r_path r ∧
    method result = r_method r ∧
    metadata result = r_metadata r ∧
    bibtex result = r_bibtex r ∧
    path_original result = target.
Proof.
  intros Hc He Hd Hp Hr Hm Hi Hb Hne Hraise.
  rewrite rename_entry, Hc, He, Hd.
  unfold rename_single_file, process_resolved, except_handler. run.
  rewrite He, Hp, Hr. cbn [metadata identifier with_path_original].
  rewrite Hm, Hi. cbn [andb]. rewrite Hb.
  fold (new_path target NewName) (new_ext target).
  destruct (decide _) as [|_]; [done|]. rewrite Hraise.
  eexists _, _. split; [reflexivity|]. by split_and!.
Qed.

(** *** A regular file always gets its dictionary *)

Lemma effective_format_idem (format : option string) :
  effective_format (Some (effective_format format)) = effective_format format.
Proof.
  unfold effective_format.
  destruct (truthy_str format) eqn:Hformat; cbn [truthy_str default from_option].
  - destruct format as [f|]; [|done]. cbn in Hformat |- *. by rewrite Hformat.
  - by destruct (Str.truthy (config_format config)).
Qed.



Lemma checked_tags_idem (format : option string)
    (tags : option (list string)) (tl : list string) :
  checked_tags format tags = Some tl →
  checked_tags (Some (effective_format format)) (Some tl) = Some tl.
Proof.
  unfold checked_tags. rewrite effective_format_idem.
  destruct (truthy_list tags) eqn:Htags.
  - intros ->. by rewrite Htags.
  - intros Hcheck. by destruct (truthy_list (Some tl)).
Qed.


(** *** [rename] on a directory *)

Lemma calls_app (t1 t2 : list event) : calls (t1 ++ t2) = calls t1 ++ calls t2.
Proof. apply List.filter_app. Qed.

Lemma calls_log (lvl : level) (msg : string) (t : list event) :
  calls (Log lvl msg :: t) = calls t.
Proof. reflexivity. Qed.

Lemma isdir_exists (fs : filesystem) (p : string) :
  Fs.isdir fs p = true → Fs.exists_ fs p = true.
Proof. unfold Fs.isdir, Fs.exists_. by destruct (Fs.lookup fs p). Qed.

Section Loops.

Variable self : string → option string → option (list string) → M value.
Variables (format : string) (tags : list string).

(** The loop of lines 88-93 appends to [files_processed] what the calls
    on the files return, in the order of [pdf_files]. *)
Lemma for_pdf_files_returns
    (target : string) (pdf_files : list string) (files_processed vs : list value)
    (fs fs1 : filesystem) (t1 : list event) :
  mapM (λ f, self (target +:+ f) (Some format) (Some tags)) pdf_files fs
  = (Return vs, fs1, t1) →
  ∃ t,
    for_pdf_files self target format tags pdf_files files_processed fs
    = (Return (files_processed ++ vs), fs1, t) ∧
    calls t = calls t1.
Proof.
  revert files_processed vs fs t1.
  induction pdf_files as [|f pdf_files IH]; intros acc vs fs t1.
  - cbn [mapM for_pdf_files]. run. intros [= <- <- <-].
    rewrite app_nil_r. by eexists.
  - cbn [mapM for_pdf_files]. run.
    destruct (self _ _ _ fs) as [[[v|e|] fs'] t]; [|done..].
    destruct (mapM _ pdf_files fs') as [[[vs'|e|] fs''] t'] eqn:Hrest;
      [|done..].
    intros [= <- <- <-].
    destruct (IH (acc ++ [v]) _ _ _ Hrest) as (t'' & -> & Hcalls).
    eexists. split; [by rewrite <-app_assoc|].
    rewrite app_nil_r.
    change (Log INFO "................" :: t ++ t'')
      with ([Log INFO "................"] ++ t ++ t'').
    rewrite !calls_app, Hcalls. reflexivity.
Qed.

(** The loop of lines 102-104 extends a bound [files_processed] with the
    lists the calls on the subfolders return, in the order of
    [subfolders]. *)
Lemma for_subfolders_returns
    (subfolders : list string) (files_processed : list value)
    (ls : list (list value)) (fs fs1 : filesystem) (t1 : list event) :
  mapM (λ s, self s (Some format) (Some tags)) subfolders fs
  = (Return (VList <$> ls), fs1, t1) →
  for_subfolders self format tags subfolders (Some files_processed) fs
  = (Return (Some (files_processed ++ concat ls)), fs1, t1).
Proof.
  revert files_processed ls fs t1.
  induction subfolders as [|s subfolders IH]; intros acc ls fs t1.
  - cbn [mapM for_subfolders]. run. intros [= Hls <- <-].
    destruct ls; [|done]. by rewrite app_nil_r.
  - cbn [mapM for_subfolders]. run.
    destruct (self _ _ _ fs) as [[[v|e|] fs'] t]; [|done..].
    destruct (mapM _ subfolders fs') as [[[vs'|e|] fs''] t'] eqn:Hrest;
      [|done..].
    intros [= Hls <- <-]. destruct ls as [|l ls]; [done|].
    rewrite fmap_cons in Hls. injection Hls as -> ->.
    unfold extend, py_iter. run.
    rewrite (IH (acc ++ l) ls fs' t' Hrest).
    by rewrite app_nil_r, <-app_assoc.
Qed.

(** With [files_processed] unbound the loop of lines 102-104 returns
    nothing: its first round raises at line 104, if not before. *)
Lemma for_subfolders_unbound
    (subfolders : list string) (fs : filesystem) :
  subfolders ≠ [] →
  ∀ v fs1 t1,
    for_subfolders self format tags subfolders None fs ≠ (Return v, fs1, t1).
Proof.
  destruct subfolders as [|s subfolders]; [done|]. intros _ v fs1 t1.
  cbn [for_subfolders]. unfold extend. run.
  by destruct (self _ _ _ fs) as [[[?|?|] ?] ?].
Qed.

End Loops.

(** C1, as the code has it: on a directory that lists no [.pdf] name the
    walk returns nothing, for [files_processed] is bound at line 87 only,
    in the branch that found files.  With the subfolders left alone (or
    absent) the [return] of line 109 raises [UnboundLocalError] and the
    filesystem is untouched; with subfolders to explore, line 104 raises
    it after the first recursive call, if that call returns. *)
Theorem walk_without_pdf_raises
    (fuel : nat) (target : string) (format : option string)
    (tags : option (list string)) (tl : list string) (fs : filesystem) :
  checked_tags format tags = Some tl →
  Fs.isdir fs target = true →
  pdf_files_of fs target = [] →
  (∀ v fs1 t1, rename (S fuel) target format tags fs ≠ (Return v, fs1, t1)) ∧
  (config_check_subfolders config = false ∨ subfolders_of fs target = [] →
   ∃ tr, rename (S fuel) target format tags fs
         = (Raise (UnboundLocalError "files_processed"), fs, tr) ∧
         calls tr = calls (entry_events format tags)).
Proof.
  intros Hc Hd Hpdf.
  rewrite rename_entry, Hc, (isdir_exists _ _ Hd), Hd.
  unfold rename_directory.
  fold (pdf_files_of fs target) (subfolders_of fs target).
  run. fold (pdf_files_of fs target) (subfolders_of fs target).
  rewrite Hpdf. cbn [length Nat.eqb].
  destruct (subfolders_of fs target) as [|s subs] eqn:Hsubs.
  - cbn [length Nat.eqb]. split; [done|]. intros _.
    eexists. split; [reflexivity|].
    rewrite calls_app. cbn. by rewrite app_nil_r.
  - cbn [length Nat.eqb].
    destruct (config_check_subfolders config) eqn:Hflag.
    + split; [|by intros [?|?]]. intros v fs1 t1.
      destruct (for_subfolders _ _ _ _ _ _) as [[[fp|e|] fs'] t] eqn:Hloop;
        [|done..].
      by apply for_subfolders_unbound in Hloop.
    + split; [done|]. intros _.
      eexists. split; [reflexivity|].
      rewrite calls_app. cbn. by rewrite app_nil_r.
Qed.

Lemma mapM_length {A B} (f : A → M B) (l : list A) (vs : list B)
    (fs fs1 : filesystem) (t1 : list event) :
  mapM f l fs = (Return vs, fs1, t1) → length vs = length l.
Proof.
  revert vs fs t1. induction l as [|a l IH]; intros vs fs t1.
  - cbn [mapM]. run. by intros [= <- <- <-].
  - cbn [mapM]. run.
    destruct (f a fs) as [[[v|e|] fs'] t]; [|done..].
    destruct (mapM f l fs') as [[[vs'|e|] fs''] t'] eqn:Hrest; [|done..].
    intros [= <- <- <-]. cbn. f_equal. by eapply IH.
Qed.

Lemma flat_app_concat (vs : list value) (ls : list (list value)) :
  forallb is_dict vs = true → forallb flat ls = true →
  flat (vs ++ concat ls) = true.
Proof.
  intros Hvs Hls. unfold flat. rewrite forallb_app, Hvs. cbn [andb].
  induction ls as [|l ls IH]; [done|].
  cbn in Hls. apply andb_true_iff in Hls as [Hl Hls].
  cbn [concat]. rewrite forallb_app. unfold flat in Hl. rewrite Hl. by apply IH.
Qed.

(** What the walk returns, from what the calls it makes return. *)
Lemma walk_result_from_calls
    (fuel : nat) (target : string) (format : option string)
    (tags : option (list string)) (tl : list string)
    (fs fs1 fs2 : filesystem) (vs : list value) (ls : list (list value))
    (t1 t2 : list event) :
  checked_tags format tags = Some tl →
  Fs.isdir fs target = true →
  pdf_files_of fs target ≠ [] →
  mapM (λ f, rename fuel (with_trailing_sep target +:+ f)
                    (Some (effective_format format)) (Some tl))
       (pdf_files_of fs target) fs
  = (Return vs, fs1, t1) →
  (if config_check_subfolders config then
     mapM (λ s, rename fuel s (Some (effective_format format)) (Some tl))
          (subfolders_of fs target) fs1
     = (Return (VList <$> ls), fs2, t2)
   else ls = [] ∧ fs2 = fs1 ∧ t2 = []) →
  ∃ tr,
    rename (S fuel) target format tags fs
    = (Return (VList (vs ++ concat ls)), fs2, tr) ∧
    calls tr = calls (entry_events format tags) ++ calls t1 ++ calls t2 ∧
    length vs = length (pdf_files_of fs target) ∧
    (forallb is_dict vs = true → forallb flat ls = true →
     flat (vs ++ concat ls) = true).
Proof.
  intros Hc Hd Hpdf Hfiles Hsubs.
  rewrite rename_entry, Hc, (isdir_exists _ _ Hd), Hd.
  unfold rename_directory.
  fold (pdf_files_of fs target) (subfolders_of fs target).
  run. fold (pdf_files_of fs target) (subfolders_of fs target).
  assert ((length (pdf_files_of fs target) =? 0) = false) as ->.
  { apply Nat.eqb_neq. by destruct (pdf_files_of fs target). }
  destruct (for_pdf_files_returns _ _ _ _ _ [] _ _ _ _ Hfiles)
    as (t & -> & Hcalls).
  cbn [app].
  assert (ls = [] ∧ fs2 = fs1 ∧ t2 = [] ∧
            (length (subfolders_of fs target) =? 0) = true ∨
          for_subfolders (rename fuel) (effective_format format) tl
            (subfolders_of fs target) (Some vs) fs1
          = (Return (Some (vs ++ concat ls)), fs2, t2) ∧
            config_check_subfolders config = true ∧
            (length (subfolders_of fs target) =? 0) = false ∨
          ls = [] ∧ fs2 = fs1 ∧ t2 = [] ∧
            config_check_subfolders config = false ∧
            (length (subfolders_of fs target) =? 0) = false) as Hcases.
  { destruct (length (subfolders_of fs target) =? 0) eqn:Hlen;
      destruct (config_check_subfolders config).
    - left. apply Nat.eqb_eq, nil_length_inv in Hlen.
      rewrite Hlen in Hsubs. revert Hsubs. cbn [mapM]. run.
      intros [= Hls <- <-]. by destruct ls.
    - left. by destruct Hsubs as (-> & -> & ->).
    - right. left. by apply (for_subfolders_returns _ _ _ _ vs) in Hsubs.
    - right. right. by destruct Hsubs as (-> & -> & ->). }
  pose proof (flat_app_concat vs ls) as Hflat.
  pose proof (mapM_length _ _ _ _ _ _ Hfiles) as Hlength.
  destruct Hcases
    as [(-> & -> & -> & ->)|[(Hloop & -> & ->)|(-> & -> & -> & -> & ->)]];
    try rewrite Hloop;
    cbn [concat] in Hflat |- *;
    repeat rewrite app_nil_r in Hflat; repeat rewrite app_nil_r;
    (eexists; split; [reflexivity|]);
    (split_and!; [|exact Hlength|exact Hflat]);
    repeat first [rewrite calls_app | rewrite calls_log | rewrite app_nil_r];
    by rewrite ?Hcalls.
Qed.


(** *** The events of a call *)

Section Emits.

Context {A B : Type} (P : event → Prop).

Lemma emits_ret (a : A) : emits P (mret a).
Proof. intros fs. constructor. Qed.

Lemma emits_raise (e : exn) : emits P (raise (A := A) e).
Proof. intros fs. constructor. Qed.

Lemma emits_out_of_fuel : emits P (out_of_fuel (A := A)).
Proof. intros fs. constructor. Qed.

Lemma emits_of_call (c : call A) : emits P (of_call c).
Proof. destruct c; intros fs; constructor. Qed.

Lemma emits_bind (m : M A) (f : A → M B) :
  emits P m → (∀ a, emits P (f a)) → emits P (m ≫= f).
Proof.
  intros Hm Hf fs. specialize (Hm fs). run.
  destruct (m fs) as [[[a|e|] fs1] t1]; [|done..].
  specialize (Hf a fs1). destruct (f a fs1) as [[o fs2] t2].
  by apply Forall_app.
Qed.

Lemma emits_try_except (m : M A) (h : exn → M A) :
  emits P m → (∀ e, emits P (h e)) → emits P (try_except m h).
Proof.
  intros Hm Hh fs. specialize (Hm fs). run.
  destruct (m fs) as [[[a|e|] fs1] t1]; [done| |done].
  specialize (Hh e fs1). destruct (h e fs1) as [[o fs2] t2].
  by apply Forall_app.
Qed.

End Emits.

Lemma emits_try_assign {A B} (P : event → Prop)
    (first : M A) (rest : A → M B)
    (handler : option A → exn → M B) :
  emits P first → (∀ a, emits P (rest a)) → (∀ x e, emits P (handler x e)) →
  emits P (try_assign first rest handler).
Proof.
  intros Hfirst Hrest Hh fs. specialize (Hfirst fs). unfold try_assign.
  destruct (first fs) as [[[a|e|] fs1] t1]; [| |done].
  - pose proof (emits_try_except P _ _ (Hrest a) (Hh (Some a)) fs1) as H.
    destruct (try_except _ _ fs1) as [[o fs2] t2]. by apply Forall_app.
  - specialize (Hh None e fs1). destruct (handler None e fs1) as [[o fs2] t2].
    by apply Forall_app.
Qed.

Lemma emits_emit (P : event → Prop) (ev : event) : P ev → emits P (emit ev).
Proof. intros Hev fs. by repeat constructor. Qed.

Lemma emits_get_fs (P : event → Prop) : emits P get_fs.
Proof. intros fs. constructor. Qed.

Lemma emits_put_fs (P : event → Prop) (fs' : filesystem) :
  emits P (put_fs fs').
Proof. intros fs. constructor. Qed.

Lemma emits_os_path_exists (P : event → Prop) (p : string) :
  emits P (os_path_exists p).
Proof. intros fs. constructor. Qed.

Lemma emits_os_path_isdir (P : event → Prop) (p : string) :
  emits P (os_path_isdir p).
Proof. intros fs. constructor. Qed.

Ltac emits_step :=
  first
    [ apply emits_ret | apply emits_raise | apply emits_out_of_fuel
    | apply emits_of_call | apply emits_get_fs | apply emits_put_fs
    | apply emits_os_path_exists | apply emits_os_path_isdir
    | apply emits_emit; done
    | apply emits_bind; [|intros ?]
    | apply emits_try_except; [|intros ?]
    | apply emits_try_assign; [|intros ?|intros ? ?]
    | match goal with
      | |- emits _ (if ?b then _ else _) => destruct b
      | |- emits _ (match ?x with _ => _ end) => destruct x
      end ].

Section Unchecked.

Variables (format : string) (tags : list string).

Lemma rename_file_unchecked (old_path new_path ext : string) :
  emits (unchecked_event format tags) (rename_file old_path new_path ext).
Proof.
  assert (∀ fuel i, emits (unchecked_event format tags)
                          (rename_file_loop fuel i old_path new_path ext))
    as Hloop.
  { induction fuel as [|fuel IH]; intros i; cbn [rename_file_loop];
      [emits_step|].
    unfold os_rename. repeat emits_step. apply IH. }
  unfold rename_file. repeat first [apply Hloop | emits_step].
Qed.

Lemma rename_single_file_unchecked (target : string) :
  emits (unchecked_event format tags) (rename_single_file target format tags).
Proof.
  unfold rename_single_file, process_resolved, except_handler,
    call_resolver, call_build_filename, logger_info, logger_error.
  repeat first [apply rename_file_unchecked | emits_step].
Qed.

Variable self : string → option string → option (list string) → M value.
Hypothesis self_unchecked :
  ∀ target, emits (unchecked_event format tags)
                  (self target (Some format) (Some tags)).

Lemma for_pdf_files_unchecked
    (target : string) (pdf_files : list string) (files_processed : list value) :
  emits (unchecked_event format tags)
        (for_pdf_files self target format tags pdf_files files_processed).
Proof.
  revert files_processed.
  induction pdf_files as [|f pdf_files IH]; intros acc;
    cbn [for_pdf_files]; unfold logger_info; repeat emits_step.
  - apply self_unchecked.
  - apply IH.
Qed.

Lemma for_subfolders_unchecked
    (subfolders : list string) (files_processed : option (list value)) :
  emits (unchecked_event format tags)
        (for_subfolders self format tags subfolders files_processed).
Proof.
  revert files_processed.
  induction subfolders as [|f subfolders IH]; intros acc;
    cbn [for_subfolders]; unfold extend; repeat emits_step;
    first [apply self_unchecked | apply IH].
Qed.

Lemma rename_directory_unchecked (target : string) :
  emits (unchecked_event format tags)
        (rename_directory self target format tags).
Proof.
  unfold rename_directory, logger_info, logger_error.
  repeat first [apply for_pdf_files_unchecked | apply for_subfolders_unchecked
               | emits_step].
Qed.

End Unchecked.

(** With tags given, [rename] and the calls it makes on files and
    subfolders never call the validator, and hand the format and the tags
    to the filename builder as they are. *)
Lemma rename_unchecked (fuel : nat) (target : string) (format : option string)
    (t : string) (ts : list string) :
  emits (unchecked_event (effective_format format) (t :: ts))
        (rename fuel target format (Some (t :: ts))).
Proof.
  revert target format. induction fuel as [|fuel IH]; intros target format fs;
    [constructor|].
  rewrite rename_entry. unfold entry_events, checked_tags. cbn [truthy_list].
  destruct (Fs.exists_ fs target); [|by repeat constructor].
  destruct (Fs.isdir fs target).
  - assert (emits (unchecked_event (effective_format format) (t :: ts))
              (rename_directory (rename fuel) target (effective_format format)
                                (t :: ts))) as Hdir.
    { apply rename_directory_unchecked. intros target'.
      rewrite <-(effective_format_idem format) at 1. apply IH. }
    specialize (Hdir fs). by destruct (rename_directory _ _ _ _ _) as [[? ?] ?].
  - pose proof (rename_single_file_unchecked (effective_format format)
                  (t :: ts) target fs) as Hfile.
    by destruct (rename_single_file _ _ _ _) as [[? ?] ?].
Qed.

(** *** Two ways of calling back give the same walk *)

Section Ext.

Variables self1 self2 : string → option string → option (list string) → M value.
Variables (format : string) (tags : list string).
Hypothesis self_ext :
  ∀ target fs,
    self1 target (Some format) (Some tags) fs
    = self2 target (Some format) (Some tags) fs.

Lemma for_pdf_files_ext
    (target : string) (pdf_files : list string) (files_processed : list value)
    (fs : filesystem) :
  for_pdf_files self1 target format tags pdf_files files_processed fs
  = for_pdf_files self2 target format tags pdf_files files_processed fs.
Proof.
  revert files_processed fs.
  induction pdf_files as [|f pdf_files IH]; intros acc fs; [done|].
  cbn [for_pdf_files]. run. rewrite self_ext.
  destruct (self2 _ _ _ fs) as [[[v|e|] fs'] t]; [|done..].
  by rewrite IH.
Qed.

Lemma for_subfolders_ext
    (subfolders : list string) (files_processed : option (list value))
    (fs : filesystem) :
  for_subfolders self1 format tags subfolders files_processed fs
  = for_subfolders self2 format tags subfolders files_processed fs.
Proof.
  revert files_processed fs.
  induction subfolders as [|f subfolders IH]; intros acc fs; [done|].
  cbn [for_subfolders]. run. rewrite self_ext.
  destruct (self2 _ _ _ fs) as [[[v|e|] fs'] t]; [|done..].
  destruct (extend acc v fs') as [[[acc'|e|] fs''] t']; [|done..].
  by rewrite IH.
Qed.

Lemma rename_directory_ext (target : string) (fs : filesystem) :
  rename_directory self1 target format tags fs
  = rename_directory self2 target format tags fs.
Proof.
  unfold rename_directory. run.
  destruct (length (List.filter _ _) =? 0).
  - destruct (length (Fs.scandir_dirs _ _ _) =? 0); [done|].
    destruct (config_check_subfolders config); [|done].
    by rewrite for_subfolders_ext.
  - rewrite for_pdf_files_ext.
    destruct (for_pdf_files self2 _ _ _ _ _ _) as [[[l|e|] fs'] t]; [|done..].
    destruct (length (Fs.scandir_dirs _ _ _) =? 0); [done|].
    destruct (config_check_subfolders config); [|done].
    by rewrite for_subfolders_ext.
Qed.

End Ext.

(** *** What a run does to the filesystem *)

Lemma moved_trans (fs1 fs2 fs3 : filesystem) :
  moved fs1 fs2 → moved fs2 fs3 → moved fs1 fs3.
Proof.
  induction 1 as [|fs src dst fs' Hsrc Hdst _ IH]; [done|].
  intros H3. eapply moved_step; [done..|]. by apply IH.
Qed.

Lemma filter_free (fs : filesystem) (dst : string) :
  Fs.exists_ fs dst = false → filter (λ e, e.1 ≠ dst) fs = fs.
Proof.
  unfold Fs.exists_. induction fs as [|[q k] fs IH]; [done|].
  cbn [Fs.lookup]. destruct (decide (q = dst)) as [|Hne]; [done|].
  intros Hfree. rewrite filter_cons. cbn [fst].
  rewrite decide_True by done. by rewrite IH.
Qed.

Lemma move_free (fs : filesystem) (src dst : string) :
  Fs.exists_ fs dst = false → Fs.move fs src dst = Fs.rekey src dst <$> fs.
Proof. intros Hfree. unfold Fs.move. by rewrite filter_free. Qed.

Lemma paths_move_free (fs : filesystem) (src dst : string) :
  Fs.exists_ fs dst = false →
  Fs.paths (Fs.move fs src dst)
  = (λ q, if decide (q = src) then dst else q) <$> Fs.paths fs.
Proof.
  intros Hfree. rewrite move_free by done. unfold Fs.paths.
  rewrite <-!list_fmap_compose. apply list_fmap_ext. intros i [q k] _.
  unfold Fs.rekey. cbn. by destruct (decide (q = src)).
Qed.

Lemma moved_length (fs fs' : filesystem) :
  moved fs fs' → length fs' = length fs.
Proof.
  induction 1 as [|fs src dst fs' Hsrc Hdst _ IH]; [done|].
  rewrite IH, move_free by done. apply length_fmap.
Qed.

Lemma moved_kinds (fs fs' : filesystem) : moved fs fs' → fs'.*2 = fs.*2.
Proof.
  induction 1 as [|fs src dst fs' Hsrc Hdst _ IH]; [done|].
  rewrite IH, move_free by done.
  rewrite <-list_fmap_compose. apply list_fmap_ext. intros i [q k] _.
  unfold Fs.rekey. cbn. by destruct (decide (q = src)).
Qed.

Lemma moved_NoDup (fs fs' : filesystem) :
  moved fs fs' → NoDup (Fs.paths fs) → NoDup (Fs.paths fs').
Proof.
  induction 1 as [|fs src dst fs' Hsrc Hdst _ IH]; [done|].
  intros Hnodup. apply IH. rewrite paths_move_free by done.
  apply NoDup_fmap_2_strong; [|done].
  intros q1 q2 Hq1 Hq2.
  assert (dst ∉ Fs.paths fs) as Hnew.
  { intros Hin%exists_elem_of. congruence. }
  destruct (decide (q1 = src)), (decide (q2 = src)); congruence.
Qed.

Lemma moved_directory (fs fs' : filesystem) (p : string) :
  moved fs fs' →
  Fs.lookup fs p = Some Directory → Fs.lookup fs' p = Some Directory.
Proof.
  induction 1 as [|fs src dst fs' Hsrc Hdst _ IH]; [done|].
  intros Hdir. apply IH. rewrite lookup_move_other; [done|congruence|].
  intros ->. unfold Fs.exists_ in Hdst. by rewrite Hdir in Hdst.
Qed.

(** What [rename_file] leaves of a regular file. *)
Lemma rename_file_outcome
    (old_path new_path ext : string) (fs fs' : filesystem)
    (o : outcome string) (t : list event) :
  Fs.exists_ fs old_path = true →
  rename_file old_path new_path ext fs = (o, fs', t) →
  match o with
  | Return p =>
      Fs.exists_ fs p = false ∧ fs' = Fs.move fs old_path p ∧
      ∃ k, 1 ≤ k ∧ p = candidate new_path ext k
  | Raise e => fs' = fs
  | OutOfFuel => False
  end.
Proof.
  intros Hold Hrun.
  destruct (rename_file_run old_path new_path ext fs Hold)
    as (k & Hk & Hfree & _ & Heq).
  rewrite Heq in Hrun. unfold os_rename_result in Hrun. rewrite Hold in Hrun.
  destruct (os_rename_error fs old_path _); injection Hrun as <- <- <-;
    [done|]. eauto.
Qed.

Lemma regular_file (fs : filesystem) (p : string) :
  Fs.exists_ fs p = true → Fs.isdir fs p = false →
  Fs.lookup fs p = Some RegularFile.
Proof.
  unfold Fs.exists_, Fs.isdir. by destruct (Fs.lookup fs p) as [[]|].
Qed.

(** What [process_resolved] leaves of a regular file: the dictionary with
    a [path_new] at which the file is, or with none and the filesystem as
    it was. *)
Lemma process_resolved_outcome
    (filename format : string) (tags : list string) (result : result_dict)
    (fs fs' : filesystem) (o : outcome result_dict) (t : list event) :
  Fs.lookup fs filename = Some RegularFile →
  process_resolved filename format tags result fs = (o, fs', t) →
  match o with
  | Return r' =>
      ∃ p, r' = set_path_new p result ∧
           match p with
           | Some q =>
               Fs.lookup fs' q = Some RegularFile ∧
               (q = filename ∧ fs' = fs ∨
                q ≠ filename ∧ Fs.exists_ fs q = false ∧
                fs' = Fs.move fs filename q)
           | None => fs' = fs
           end
  | Raise e => fs' = fs
  | OutOfFuel => False
  end.
Proof.
  intros Hfile.
  assert (Fs.exists_ fs filename = true) as Hexists.
  { unfold Fs.exists_. by rewrite Hfile. }
  unfold process_resolved.
  destruct (truthy_list (metadata result) && truthy_str (identifier result));
    run.
  - destruct (build_filename _ _ _) as [NewName|e]; [|by intros [= <- <- <-]].
    destruct (decide _) as [Hsame|Hdiff].
    + intros [= <- <- <-]. exists (Some filename). rewrite <-Hsame. eauto.
    + destruct (rename_file _ _ _ _) as [[o' fs1] t1] eqn:Hrf.
      apply rename_file_outcome in Hrf; [|done].
      destruct o' as [p|e|]; [| |done].
      * destruct Hrf as (Hfree & -> & _).
        assert (p ≠ filename) as Hne by (intros ->; congruence).
        assert (Fs.lookup (Fs.move fs filename p) p = Some RegularFile).
        { rewrite lookup_move_dst; [done|].
          unfold Fs.exists_ in Hfree. by destruct (Fs.lookup fs p). }
        destruct (decide _); intros [= <- <- <-]; exists (Some p); eauto 6.
      * subst fs1. intros [= <- <- <-]. by exists None.
  - intros [= <- <- <-]. by exists None.
Qed.

(** X3: the dictionary [rename] returns for a file tells where the file
    is.  With a [path_new], a regular file is at that path afterwards:
    either it is the original path and the filesystem is as it was, or it
    was a free path, the file was moved there and is at its original path
    no more.  Without one the filesystem is as it was. *)
Theorem path_new_is_where_the_file_is
    (fuel : nat) (target : string) (format : option string)
    (tags : option (list string)) (fs fs' : filesystem)
    (r : result_dict) (tr : list event) :
  Fs.isdir fs target = false →
  rename fuel target format tags fs = (Return (VDict r), fs', tr) →
  match path_new r with
  | Some p =>
      Fs.lookup fs' p = Some RegularFile ∧
      (p = target ∧ fs' = fs ∨
       p ≠ target ∧ Fs.exists_ fs p = false ∧
       Fs.exists_ fs' target = false ∧ fs' = Fs.move fs target p)
  | None => fs' = fs
  end.
Proof.
  intros Hd Hrun. destruct fuel as [|fuel]; [done|].
  rewrite rename_entry, Hd in Hrun.
  destruct (checked_tags format tags) as [tl|]; [|done].
  destruct (Fs.exists_ fs target) eqn:He; [|done].
  revert Hrun. unfold rename_single_file, except_handler. run.
  rewrite He. destruct (Str.endswith _ _); [|done].
  destruct (pdf2bib_singlefile fs target) as [r0|e]; [|done].
  destruct (process_resolved _ _ _ _ _) as [[o fs1] t1] eqn:Hproc.
  apply process_resolved_outcome in Hproc; [|by apply regular_file].
  destruct o as [r'|e|]; [| |done].
  - destruct Hproc as (p & -> & Hp). intros [= <- <- <-].
    cbn [path_new set_path_new]. destruct p as [q|]; [|done].
    destruct Hp as [Hq [[-> ->]|(Hne & Hfree & ->)]]; [by eauto|].
    split; [done|]. right. split_and!; [done|done| |done].
    unfold Fs.exists_. by rewrite lookup_move_src.
  - subst fs1. by intros [= <- <- <-].
Qed.

Section Moves.

Context {A B : Type}.

Lemma only_moves_ret (a : A) : only_moves (mret a).
Proof. intros fs. constructor. Qed.

Lemma only_moves_raise (e : exn) : only_moves (raise (A := A) e).
Proof. intros fs. constructor. Qed.

Lemma only_moves_of_call (c : call A) : only_moves (of_call c).
Proof. destruct c; intros fs; constructor. Qed.

Lemma only_moves_bind (m : M A) (f : A → M B) :
  only_moves m → (∀ a, only_moves (f a)) → only_moves (m ≫= f).
Proof.
  intros Hm Hf fs. specialize (Hm fs). run.
  destruct (m fs) as [[[a|e|] fs1] t1]; [|done..].
  specialize (Hf a fs1). destruct (f a fs1) as [[o fs2] t2].
  by eapply moved_trans.
Qed.

End Moves.

Lemma only_moves_emit (ev : event) : only_moves (emit ev).
Proof. intros fs. constructor. Qed.

Lemma only_moves_get_fs : only_moves get_fs.
Proof. intros fs. constructor. Qed.

Ltac moves_step :=
  first
    [ apply only_moves_ret | apply only_moves_raise | apply only_moves_of_call
    | apply only_moves_get_fs | apply only_moves_emit
    | apply only_moves_bind; [|intros ?]
    | match goal with
      | |- only_moves (if ?b then _ else _) => destruct b
      | |- only_moves (match ?x with _ => _ end) => destruct x
      end ].

Lemma rename_single_file_moves
    (target format : string) (tags : list string) (fs : filesystem) :
  Fs.isdir fs target = false →
  moved fs (rename_single_file target format tags fs).1.2.
Proof.
  intros Hd. unfold rename_single_file, except_handler. run.
  destruct (Fs.exists_ fs target) eqn:He; [|constructor].
  destruct (Str.endswith _ _); [|constructor].
  destruct (pdf2bib_singlefile fs target) as [r0|e]; [|constructor].
  destruct (process_resolved _ _ _ _ _) as [[o fs1] t1] eqn:Hproc.
  apply process_resolved_outcome in Hproc; [|by apply regular_file].
  assert (moved fs fs1) as Hmoved.
  { destruct o as [r'|e|]; [|subst; constructor|done].
    destruct Hproc as ([q|] & _ & Hp); [|subst; constructor].
    destruct Hp as [_ [[_ ->]|(_ & Hfree & ->)]]; [constructor|].
    eapply moved_step; [by apply regular_file|done|constructor]. }
  by destruct o.
Qed.

Section DirectoryMoves.

Variable self : string → option string → option (list string) → M value.
Hypothesis self_moves : ∀ target format tags, only_moves (self target format tags).

Lemma for_pdf_files_moves
    (target format : string) (tags : list string) (pdf_files : list string)
    (files_processed : list value) :
  only_moves (for_pdf_files self target format tags pdf_files files_processed).
Proof.
  revert files_processed.
  induction pdf_files as [|f pdf_files IH]; intros acc;
    cbn [for_pdf_files]; unfold logger_info; repeat moves_step;
    first [apply self_moves | apply IH].
Qed.

Lemma for_subfolders_moves
    (format : string) (tags : list string) (subfolders : list string)
    (files_processed : option (list value)) :
  only_moves (for_subfolders self format tags subfolders files_processed).
Proof.
  revert files_processed.
  induction subfolders as [|f subfolders IH]; intros acc;
    cbn [for_subfolders]; unfold extend; repeat moves_step;
    first [apply self_moves | apply IH].
Qed.

Lemma rename_directory_moves (target format : string) (tags : list string) :
  only_moves (rename_directory self target format tags).
Proof.
  unfold rename_directory, logger_info, logger_error.
  repeat first [apply for_pdf_files_moves | apply for_subfolders_moves
               | moves_step].
Qed.

End DirectoryMoves.

Lemma after_state {A} (pre : list event)
    (x : outcome A * filesystem * list event) :
  (after pre x).1.2 = x.1.2.
Proof. by destruct x as [[? ?] ?]. Qed.

Lemma rename_moves (fuel : nat) (target : string) (format : option string)
    (tags : option (list string)) :
  only_moves (rename fuel target format tags).
Proof.
  revert target format tags.
  induction fuel as [|fuel IH]; intros target format tags fs; [constructor|].
  rewrite rename_entry, after_state.
  destruct (checked_tags format tags) as [tl|]; [|constructor].
  destruct (Fs.exists_ fs target); [|constructor].
  destruct (Fs.isdir fs target) eqn:Hd.
  - apply (rename_directory_moves (rename fuel) IH).
  - by apply rename_single_file_moves.
Qed.

(** X2: whatever the target, the fuel and the outcome, a run of [rename]
    changes the filesystem only by renaming regular files to paths that
    were free: it has as many entries afterwards, of the same kinds in
    the same places, paths that were different stay different (no file
    is overwritten), and every directory is where it was. *)
Theorem rename_loses_no_entry
    (fuel : nat) (target : string) (format : option string)
    (tags : option (list string)) (fs : filesystem) :
  let fs' := (rename fuel target format tags fs).1.2 in
  moved fs fs' ∧
  length fs' = length fs ∧
  fs'.*2 = fs.*2 ∧
  (NoDup (Fs.paths fs) → NoDup (Fs.paths fs')) ∧
  (∀ p, Fs.lookup fs p = Some Directory → Fs.lookup fs' p = Some Directory).
Proof.
  intros fs'. pose proof (rename_moves fuel target format tags fs) as Hmoved.
  fold fs' in Hmoved. split_and!; [done|..].
  - by apply moved_length.
  - by apply moved_kinds.
  - by apply moved_NoDup.
  - intros p. by apply moved_directory.
Qed.

(** *** The renames a run asks for *)

Lemma substring_full (s : string) : String.substring 0 (String.length s) s = s.
Proof. induction s as [|c s IH]; [done|]. cbn. by rewrite IH. Qed.

Lemma endswith_self (a b : string) : Str.endswith (a +:+ b) b = true.
Proof.
  apply endswith_app. unfold Str.endswith.
  rewrite Nat.leb_refl, Nat.sub_diag, substring_full. by rewrite bool_decide_true.
Qed.

Lemma emits_impl {A} (P Q : event → Prop) (m : M A) :
  (∀ ev, P ev → Q ev) → emits P m → emits Q m.
Proof. intros HPQ Hm fs. eapply Forall_impl; [apply Hm|done]. Qed.

(** [rename_file] emits calls to [os.rename] only, from [old_path] to a
    candidate. *)
Lemma rename_file_events (old_path new_path ext : string) :
  emits (λ ev, ∃ i, ev = CallOsRename old_path (candidate new_path ext i))
        (rename_file old_path new_path ext).
Proof.
  assert (∀ fuel i,
            emits (λ ev, ∃ i, ev = CallOsRename old_path
                                     (candidate new_path ext i))
                  (rename_file_loop fuel i old_path new_path ext)) as Hloop.
  { induction fuel as [|fuel IH]; intros i; cbn [rename_file_loop];
      [emits_step|].
    unfold os_rename.
    repeat first [apply IH | apply emits_emit; by eexists | emits_step]. }
  unfold rename_file. repeat first [apply Hloop | emits_step].
Qed.

Lemma candidate_tidy (filename NewName : string) (i : nat) :
  Str.endswith (Str.lower filename) ".pdf" = true →
  tidy_rename (CallOsRename filename
                 (candidate (new_path filename NewName) (new_ext filename) i)).
Proof.
  intros Hp. split_and!; [done|..].
  - unfold candidate, new_path. eexists.
    by rewrite !string_app_assoc.
  - unfold candidate. rewrite <-string_app_assoc. apply endswith_self.
Qed.

Lemma process_resolved_tidy
    (filename format : string) (tags : list string) (result : result_dict) :
  Str.endswith (Str.lower filename) ".pdf" = true →
  emits tidy_rename (process_resolved filename format tags result).
Proof.
  intros Hp. unfold process_resolved, call_build_filename, logger_info,
    logger_error.
  repeat first
    [ eapply emits_impl; [|apply rename_file_events];
      intros ev [i ->]; by apply candidate_tidy
    | emits_step ].
Qed.

Lemma rename_single_file_tidy
    (target format : string) (tags : list string) :
  emits tidy_rename (rename_single_file target format tags).
Proof.
  unfold rename_single_file, logger_info, logger_error.
  apply emits_bind; [by apply emits_emit|intros _].
  apply emits_bind; [apply emits_os_path_exists|intros present].
  destruct present; cbn [negb]; [|repeat emits_step].
  destruct (Str.endswith (Str.lower target) ".pdf") eqn:Hp; cbn [negb];
    [|repeat emits_step].
  unfold except_handler, call_resolver, logger_error.
  repeat first [by apply process_resolved_tidy | emits_step].
Qed.

Section Quiet.

(** Events that log lines are. *)
Variable P : event → Prop.
Hypothesis P_log : ∀ lvl msg, P (Log lvl msg).
Variable self : string → option string → option (list string) → M value.
Hypothesis self_emits : ∀ target format tags, emits P (self target format tags).

Lemma rename_directory_emits (target format : string) (tags : list string) :
  emits P (rename_directory self target format tags).
Proof.
  assert (∀ pdf_files d acc,
            emits P (for_pdf_files self d format tags pdf_files acc)) as Hf.
  { induction pdf_files as [|f pdf_files IH]; intros d acc;
      cbn [for_pdf_files]; unfold logger_info;
      repeat first [apply self_emits | apply IH
                   | apply emits_emit; apply P_log | emits_step]. }
  assert (∀ subfolders acc,
            emits P (for_subfolders self format tags subfolders acc)) as Hs.
  { induction subfolders as [|f subfolders IH]; intros acc;
      cbn [for_subfolders]; unfold extend;
      repeat first [apply self_emits | apply IH | emits_step]. }
  unfold rename_directory, logger_info, logger_error.
  repeat first [apply Hf | apply Hs | apply emits_emit; apply P_log
               | emits_step].
Qed.

End Quiet.

(** X4: every call to [os.rename] in a run of [rename] has a source with
    a [.pdf] extension (in any case) and a destination that is a name in
    the directory of the source, [str(Path(source).parent) + os.path.sep]
    before it, and that ends with the lower-cased extension of the
    source. *)
Theorem rename_calls_are_tidy
    (fuel : nat) (target : string) (format : option string)
    (tags : option (list string)) (fs : filesystem) :
  Forall tidy_rename (rename fuel target format tags fs).2.
Proof.
  revert target format tags fs.
  induction fuel as [|fuel IH]; intros target format tags fs; [constructor|].
  rewrite rename_entry.
  assert (Forall tidy_rename (entry_events format tags)) as Hentry.
  { unfold entry_events. destruct (truthy_list tags); by repeat constructor. }
  assert (∀ x : outcome value * filesystem * list event,
            Forall tidy_rename x.2 →
            Forall tidy_rename (after (entry_events format tags) x).2)
    as Hafter.
  { intros [[? ?] ?] Hx. by apply Forall_app. }
  apply Hafter.
  destruct (checked_tags format tags) as [tl|]; [|constructor].
  destruct (Fs.exists_ fs target); [|by repeat constructor].
  destruct (Fs.isdir fs target).
  - by apply rename_directory_emits.
  - apply rename_single_file_tidy.
Qed.

(** *** Copies of one name *)

Lemma not_exists_lookup (fs : filesystem) (p : string) :
  Fs.exists_ fs p = false → Fs.lookup fs p = None.
Proof. unfold Fs.exists_. by destruct (Fs.lookup fs p). Qed.

Lemma exists_move_other (fs : filesystem) (src dst p : string) :
  p ≠ src → p ≠ dst → Fs.exists_ (Fs.move fs src dst) p = Fs.exists_ fs p.
Proof. intros Hs Hd. unfold Fs.exists_. by rewrite lookup_move_other. Qed.

(** X5: files renamed one after the other to the same name get the name
    and then its numbered copies, in order.  When the candidates of the
    name that exist are its first [m] and the operating system accepts
    every rename, [rename_file] on [n] different existing files, none of
    them a candidate, returns the candidates [m + 1] to [m + n]; after it
    the first [m + n] candidates exist, none of the old paths does, and
    every other path is as it was. *)
Theorem rename_each_numbers_the_copies
    (olds : list string) (new_path ext : string) (m : nat) (fs : filesystem) :
  (∀ fs s d, os_rename_error fs s d = None) →
  NoDup olds →
  (∀ o, o ∈ olds → Fs.exists_ fs o = true) →
  (∀ o i, o ∈ olds → o ≠ candidate new_path ext i) →
  (∀ i, 1 ≤ i → Fs.exists_ fs (candidate new_path ext i) = (i <=? m)) →
  ∃ fs' tr,
    rename_each olds new_path ext fs
    = (Return (candidate new_path ext <$> seq (S m) (length olds)), fs', tr) ∧
    (∀ i, 1 ≤ i →
          Fs.exists_ fs' (candidate new_path ext i) = (i <=? m + length olds)) ∧
    (∀ o, o ∈ olds → Fs.exists_ fs' o = false) ∧
    (∀ p, p ∉ olds → (∀ i, p ≠ candidate new_path ext i) →
          Fs.lookup fs' p = Fs.lookup fs p) ∧
    length fs' = length fs.
Proof.
  intros Haccepts. revert m fs.
  induction olds as [|o olds IH]; intros m fs Hnodup Hexist Hfresh Hcands.
  - exists fs, []. split_and!; [done| |by intros o Ho%elem_of_nil|done|done].
    intros i Hi. rewrite Nat.add_0_r. by apply Hcands.
  - apply NoDup_cons in Hnodup as [Ho Hnodup].
    assert (Fs.exists_ fs o = true) as Holdex by (apply Hexist; left).
    destruct (rename_file_run o new_path ext fs Holdex)
      as (k & Hk & Hfree & Htaken & Hrun).
    assert (k = S m) as ->.
    { rewrite Hcands in Hfree by done. apply Nat.leb_gt in Hfree.
      destruct (decide (k = S m)) as [|Hne]; [done|].
      specialize (Htaken (S m) ltac:(lia)).
      rewrite Hcands in Htaken by lia. apply Nat.leb_le in Htaken. lia. }
    unfold os_rename_result in Hrun. rewrite Haccepts, Holdex in Hrun.
    assert (o ≠ candidate new_path ext (S m)) as Hodst by (apply Hfresh; left).
    destruct (IH (S m) (Fs.move fs o (candidate new_path ext (S m))))
      as (fs' & tr & Hrest & Hc & Hgone & Hframe & Hlen); [done|..].
    { intros o' Ho'. rewrite exists_move_other; [apply Hexist; by right|..].
      - by intros ->.
      - apply Hfresh. by right. }
    { intros o' i Ho'. apply Hfresh. by right. }
    { intros i Hi. destruct (decide (i = S m)) as [->|Hne].
      - rewrite Nat.leb_refl. unfold Fs.exists_.
        rewrite lookup_move_dst; [exact Holdex|by apply not_exists_lookup].
      - rewrite exists_move_other.
        + rewrite Hcands by done.
          destruct (i <=? m) eqn:E1, (i <=? S m) eqn:E2; try done.
          * apply Nat.leb_le in E1. apply Nat.leb_gt in E2. lia.
          * apply Nat.leb_gt in E1. apply Nat.leb_le in E2. lia.
        + intros Heq. symmetry in Heq. revert Heq. apply Hfresh. left.
        + intros Heq. apply candidate_inj in Heq; [done|done|lia]. }
    exists fs', (CallOsRename o (candidate new_path ext (S m)) :: tr).
    split_and!.
    + unfold rename_each in *. cbn [mapM length seq]. run.
      rewrite Hrun, Hrest. by rewrite fmap_cons, app_nil_r.
    + intros i Hi. rewrite Hc by done. cbn [length]. f_equal. lia.
    + intros o' [->|Ho']%elem_of_cons; [|by apply Hgone].
      unfold Fs.exists_. rewrite Hframe; [|done|by intros i; apply Hfresh; left].
      by rewrite lookup_move_src.
    + intros p Hp Hnc. rewrite Hframe; [|by intros ?; apply Hp; right|done].
      apply lookup_move_other; [|done]. intros ->. apply Hp. left.
    + rewrite Hlen, move_free by done. apply length_fmap.
Qed.

(** *** Calls that stop at once, walks that change nothing *)

(** X1: [rename] stops before it looks at any file when the format is
    rejected or the target does not exist: it returns [None], leaves the
    filesystem alone and calls neither the resolver, nor the builder, nor
    [os.rename]; for a missing target it logs the error that says so, for
    a rejected format it logs nothing itself. *)
Theorem rename_fails_fast
    (fuel : nat) (target : string) (format : option string)
    (tags : option (list string)) (fs : filesystem) :
  checked_tags format tags = None ∨ Fs.exists_ fs target = false →
  ∃ tr,
    rename (S fuel) target format tags fs = (Return VNone, fs, tr) ∧
    calls tr = calls (entry_events format tags) ∧
    (checked_tags format tags = None → tr = entry_events format tags) ∧
    (is_Some (checked_tags format tags) →
     tr = entry_events format tags
          ++ [Log ERROR (target
                         +:+ " is not a valid path to a file or a directory.")]).
Proof.
  intros Hstop. rewrite rename_entry.
  destruct (checked_tags format tags) as [tl|] eqn:Hc.
  - destruct Hstop as [|He]; [done|]. rewrite He.
    eexists. split; [reflexivity|]. split_and!; [|done|done].
    rewrite calls_app. cbn. by rewrite app_nil_r.
  - eexists. split; [reflexivity|]. rewrite app_nil_r.
    split_and!; [done|done|]. by intros [? ?].
Qed.

Lemma rename_canonical_file
    (fuel : nat) (target : string) (format : option string)
    (tags : option (list string)) (tl : list string) (fs : filesystem) :
  checked_tags format tags = Some tl →
  Str.endswith (Str.lower target) ".pdf" = true →
  canonical fs (effective_format format) tl target →
  ∃ result tr,
    rename (S fuel) target format tags fs = (Return (VDict result), fs, tr) ∧
    Forall (λ ev, is_os_rename ev = false) tr ∧
    path_original result = target ∧ path_new result = Some target.
Proof.
  intros Hc Hp (r & NewName & Hlook & Hr & Hm & Hi & Hb & Heq).
  assert (Fs.exists_ fs target = true) as He.
  { unfold Fs.exists_. by rewrite Hlook. }
  assert (Fs.isdir fs target = false) as Hd.
  { unfold Fs.isdir. by rewrite Hlook. }
  rewrite rename_entry, Hc, He, Hd.
  unfold rename_single_file, process_resolved, except_handler. run.
  rewrite He, Hp, Hr. cbn [metadata identifier with_path_original].
  rewrite Hm, Hi. cbn [andb]. rewrite Hb.
  fold (new_path target NewName) (new_ext target).
  destruct (decide _) as [_|Hne]; [|done].
  eexists _, _. split; [reflexivity|].
  split; [|by cbn; rewrite <-Heq].
  unfold entry_events. destruct (truthy_list tags); repeat constructor.
Qed.

Lemma mapM_canonical_files
    (fuel : nat) (d format : string) (tl : list string)
    (files : list string) (fs : filesystem) :
  checked_tags (Some format) (Some tl) = Some tl →
  effective_format (Some format) = format →
  (∀ f, f ∈ files → is_pdf_name f = true) →
  (∀ f, f ∈ files → canonical fs format tl (d +:+ f)) →
  ∃ vs t1,
    mapM (λ f, rename (S fuel) (d +:+ f) (Some format) (Some tl)) files fs
    = (Return vs, fs, t1) ∧
    Forall (λ ev, is_os_rename ev = false) t1 ∧
    original <$> vs = String.app d <$> files ∧
    renamed <$> vs = Some <$> (String.app d <$> files) ∧
    forallb is_dict vs = true.
Proof.
  intros Hc Hfmt.
  induction files as [|f files IH]; intros Hpdf Hcanon.
  - by eexists _, _.
  - destruct (rename_canonical_file fuel (d +:+ f) (Some format) (Some tl)
                tl fs Hc)
      as (result & tr & Hrun & Hquiet & Horig & Hnew).
    { rewrite lower_app. apply endswith_app, Hpdf. left. }
    { rewrite Hfmt. apply Hcanon. left. }
    destruct IH as (vs & t1 & Hrest & Hquiet' & Hvs & Hnews & Hdict).
    { intros g Hg. apply Hpdf. by right. }
    { intros g Hg. apply Hcanon. by right. }
    cbn [mapM]. run. rewrite Hrun, Hrest.
    eexists _, _. split; [reflexivity|].
    rewrite !fmap_cons. cbn [original renamed forallb is_dict andb].
    rewrite Horig, Hnew, Hvs, Hnews, app_nil_r.
    split_and!; [by apply Forall_app|done..].
Qed.

Lemma Forall_calls (P : event → Prop) (tr : list event) :
  (∀ lvl msg, P (Log lvl msg)) → Forall P (calls tr) → Forall P tr.
Proof.
  intros Hlog. induction tr as [|ev tr IH]; [done|].
  destruct ev; cbn; rewrite ?Forall_cons; intros H;
    (constructor; [try apply Hlog; try apply H|apply IH; try apply H; done]).
Qed.

(** X6: a walk over files whose paths are, character for character,
    the paths built for them (the test of line 142) changes nothing.
    With [check_subfolders] off, on a directory whose listed [.pdf]
    names all give such paths - regular files with an identifier and
    metadata, for which [str(Path(file).parent) + os.path.sep + NewName
    + ext] is the path [target + name] itself - [rename] makes no call
    to [os.rename], leaves the filesystem as it is, and returns one
    dictionary per listed name, in listing order, each with [path_new]
    equal to [path_original]. *)
Theorem walk_of_canonical_files_is_noop
    (fuel : nat) (target : string) (format : option string)
    (tags : option (list string)) (tl : list string) (fs : filesystem) :
  checked_tags format tags = Some tl →
  Fs.isdir fs target = true →
  config_check_subfolders config = false →
  pdf_files_of fs target ≠ [] →
  (∀ f, f ∈ pdf_files_of fs target →
        canonical fs (effective_format format) tl
                  (with_trailing_sep target +:+ f)) →
  ∃ l tr,
    rename (S (S fuel)) target format tags fs = (Return (VList l), fs, tr) ∧
    Forall (λ ev, is_os_rename ev = false) tr ∧
    original <$> l
    = String.app (with_trailing_sep target) <$> pdf_files_of fs target ∧
    renamed <$> l = Some <$> (original <$> l) ∧
    flat l = true.
Proof.
  intros Hc Hd Hflag Hpdf Hcanon.
  destruct (mapM_canonical_files fuel (with_trailing_sep target)
              (effective_format format) tl (pdf_files_of fs target) fs)
    as (vs & t1 & Hfiles & Hquiet & Hvs & Hnews & Hdict);
    [by eapply checked_tags_idem|apply effective_format_idem| |done|].
  { intros f Hf. unfold pdf_files_of in Hf.
    apply list_elem_of_In, filter_In in Hf. apply Hf. }
  destruct (walk_result_from_calls (S fuel) target format tags tl
              fs fs fs vs [] t1 [] Hc Hd Hpdf Hfiles)
    as (tr & Hrun & Hcalls & _ & Hflat); [by rewrite Hflag|].
  cbn [concat] in Hrun, Hflat. rewrite app_nil_r in Hrun, Hflat.
  exists vs, tr. split_and!; [done| |done|by rewrite Hvs|by apply Hflat].
  apply Forall_calls; [done|]. rewrite Hcalls, app_nil_r.
  apply Forall_app. split.
  - unfold entry_events. destruct (truthy_list tags); by repeat constructor.
  - unfold calls. apply Forall_forall. intros ev Hev%list_elem_of_In.
    apply filter_In in Hev as [Hev _]. rewrite Forall_forall in Hquiet.
    by apply Hquiet, list_elem_of_In.
Qed.

(** *** A directory among the files *)

Lemma rename_directory_returns_list
    (self : string → option string → option (list string) → M value)
    (target format : string) (tags : list string)
    (fs fs' : filesystem) (v : value) (tr : list event) :
  rename_directory self target format tags fs = (Return v, fs', tr) →
  ∃ l, v = VList l.
Proof.
  unfold rename_directory. run.
  destruct (length (List.filter _ _) =? 0).
  - destruct (length (Fs.scandir_dirs _ _ _) =? 0); [done|].
    destruct (config_check_subfolders config); [|done].
    destruct (for_subfolders _ _ _ _ _ _) as [[[[l|]|e|] fs1] t1]; [|done..].
    intros [= <- <- <-]. by eexists.
  - destruct (for_pdf_files _ _ _ _ _ _ _) as [[[l|e|] fs1] t1]; [|done..].
    destruct (length (Fs.scandir_dirs _ _ _) =? 0).
    + intros [= <- <- <-]. by eexists.
    + destruct (config_check_subfolders config).
      * destruct (for_subfolders _ _ _ _ _ _) as [[[[l'|]|e|] fs2] t2];
          [|done..].
        intros [= <- <- <-]. by eexists.
      * intros [= <- <- <-]. by eexists.
Qed.

(** Whatever [rename] returns for a directory, once the tags are there,
    is a list. *)
Lemma rename_on_directory_returns_list
    (fuel : nat) (target : string) (format : option string)
    (tags : option (list string)) (tl : list string)
    (fs fs' : filesystem) (v : value) (tr : list event) :
  checked_tags format tags = Some tl →
  Fs.isdir fs target = true →
  rename fuel target format tags fs = (Return v, fs', tr) →
  ∃ l, v = VList l.
Proof.
  intros Hc Hd. destruct fuel as [|fuel]; [done|].
  rewrite rename_entry, Hc, (isdir_exists _ _ Hd), Hd.
  destruct (rename_directory _ _ _ _ _) as [[o fs1] t1] eqn:Hrun.
  intros [= -> <- <-]. by eapply rename_directory_returns_list.
Qed.

(** The value at a position of the result of [mapM] is the one the call
    at that position returned, on a filesystem that has what the calls
    keep. *)
Lemma mapM_lookup {A B} (I : filesystem → Prop) (f : A → M B)
    (l : list A) (vs : list B) (fs fs1 : filesystem) (t1 : list event)
    (i : nat) (a : A) :
  (∀ a fs, I fs → I (f a fs).1.2) →
  I fs →
  mapM f l fs = (Return vs, fs1, t1) →
  l !! i = Some a →
  ∃ fsi v fsi' ti, I fsi ∧ f a fsi = (Return v, fsi', ti) ∧ vs !! i = Some v.
Proof.
  intros Hkeeps. revert vs fs t1 i.
  induction l as [|b l IH]; intros vs fs t1 i HI; [done|].
  cbn [mapM]. run.
  destruct (f b fs) as [[[v|e|] fs'] t] eqn:Hb; [|done..].
  destruct (mapM f l fs') as [[[vs'|e|] fs''] t'] eqn:Hrest; [|done..].
  intros [= <- <- <-] Hi. destruct i as [|i].
  - injection Hi as ->. by exists fs, v, fs', t.
  - apply (IH vs' fs' t' i); [|done..].
    specialize (Hkeeps b fs HI). by rewrite Hb in Hkeeps.
Qed.

(** C8, as the code has it.  The walk keeps the order - the values of
    the calls on the listed names, then those of the subfolders' lists -
    but the list is not always flat: line 78 takes every name that ends
    in [.pdf], a directory too; the call of line 92 on a directory
    returns a list; and line 93 appends that list as one element where
    the loop over the subfolders (line 104) extends.  So when the
    calls return, the [i]-th element of the result is a list, for every
    listed name at position [i] that is a directory. *)
Theorem walk_nests_a_listed_directory
    (fuel : nat) (target : string) (format : option string)
    (tags : option (list string)) (tl : list string)
    (fs fs1 fs2 : filesystem) (vs : list value) (ls : list (list value))
    (t1 t2 : list event) (i : nat) (f : string) :
  checked_tags format tags = Some tl →
  Fs.isdir fs target = true →
  pdf_files_of fs target !! i = Some f →
  Fs.isdir fs (with_trailing_sep target +:+ f) = true →
  mapM (λ f, rename fuel (with_trailing_sep target +:+ f)
                    (Some (effective_format format)) (Some tl))
       (pdf_files_of fs target) fs
  = (Return vs, fs1, t1) →
  (if config_check_subfolders config then
     mapM (λ s, rename fuel s (Some (effective_format format)) (Some tl))
          (subfolders_of fs target) fs1
     = (Return (VList <$> ls), fs2, t2)
   else ls = [] ∧ fs2 = fs1 ∧ t2 = []) →
  ∃ tr nested,
    rename (S fuel) target format tags fs
    = (Return (VList (vs ++ concat ls)), fs2, tr) ∧
    calls tr = calls (entry_events format tags) ++ calls t1 ++ calls t2 ∧
    length vs = length (pdf_files_of fs target) ∧
    (vs ++ concat ls) !! i = Some (VList nested) ∧
    flat (vs ++ concat ls) = false.
Proof.
  intros Hc Hd Hi Hdir Hfiles Hsubs.
  assert (pdf_files_of fs target ≠ []) as Hpdf.
  { intros Hnil. by rewrite Hnil in Hi. }
  destruct (walk_result_from_calls fuel target format tags tl fs fs1 fs2
              vs ls t1 t2 Hc Hd Hpdf Hfiles Hsubs)
    as (tr & Hrun & Hcalls & Hlen & _).
  assert (∀ g fs',
            Fs.isdir fs' (with_trailing_sep target +:+ f) = true →
            Fs.isdir
              (rename fuel (with_trailing_sep target +:+ g)
                      (Some (effective_format format)) (Some tl) fs').1.2
              (with_trailing_sep target +:+ f) = true) as Hkeeps.
  { intros g fs' Hg.
    pose proof (rename_moves fuel (with_trailing_sep target +:+ g)
                  (Some (effective_format format)) (Some tl) fs') as Hmoved.
    unfold Fs.isdir in Hg |- *.
    destruct (Fs.lookup fs' (with_trailing_sep target +:+ f))
      as [[]|] eqn:Hlook; try done.
    by rewrite (moved_directory _ _ _ Hmoved Hlook). }
  destruct (mapM_lookup
              (λ fs', Fs.isdir fs' (with_trailing_sep target +:+ f) = true)
              _ _ _ _ _ _ _ _ Hkeeps Hdir Hfiles Hi)
    as (fsi & v & fsi' & ti & Hdiri & Hcall & Hv).
  destruct (rename_on_directory_returns_list fuel _ _ _ tl _ _ _ _
              (checked_tags_idem _ _ _ Hc) Hdiri Hcall) as [nested ->].
  assert ((vs ++ concat ls) !! i = Some (VList nested)) as Hnested.
  { by apply lookup_app_l_Some. }
  exists tr, nested. split_and!; [done..|].
  unfold flat. apply not_true_is_false. intros Hflat.
  rewrite forallb_forall in Hflat.
  specialize (Hflat (VList nested)). cbn in Hflat.
  assert (false = true) as Habs; [|done].
  apply Hflat, list_elem_of_In. by eapply list_elem_of_lookup_2.
Qed.

(** *** Past the validation *)

(** Once the tags are there - passed, or given by the validator - a call
    on a regular [.pdf] file that has an identifier and metadata gets to
    the filename builder, with the format in force and those tags, and
    returns a dictionary. *)
Lemma rename_reaches_builder
    (fuel : nat) (target : string) (format : option string)
    (tags : option (list string)) (tl : list string) (fs : filesystem)
    (r : resolved) :
  checked_tags format tags = Some tl →
  Fs.lookup fs target = Some RegularFile →
  Str.endswith (Str.lower target) ".pdf" = true →
  pdf2bib_singlefile fs target = Returns r →
  truthy_list (r_metadata r) = true →
  truthy_str (r_identifier r) = true →
  ∃ result fs' tr,
    rename (S fuel) target format tags fs = (Return (VDict result), fs', tr) ∧
    path_original result = target ∧
    identifier result = r_identifier r ∧
    CallBuildFilename (default [] (r_metadata r)) (effective_format format) tl
    ∈ tr.
Proof.
  intros Hc Hlook Hp Hr Hm Hi.
  assert (Fs.exists_ fs target = true) as He.
  { unfold Fs.exists_. by rewrite Hlook. }
  assert (Fs.isdir fs target = false) as Hd.
  { unfold Fs.isdir. by rewrite Hlook. }
  rewrite rename_entry, Hc, He, Hd.
  unfold rename_single_file, process_resolved, except_handler. run.
  rewrite He, Hp, Hr. cbn [metadata identifier with_path_original].
  rewrite Hm, Hi. cbn [andb].
  assert (∀ pre t1 t2 : list event,
            CallBuildFilename (default [] (r_metadata r))
              (effective_format format) tl
            ∈ pre ++ t1
              ++ CallBuildFilename (default [] (r_metadata r))
                   (effective_format format) tl :: t2) as Hin.
  { intros pre t1 t2. apply elem_of_app. right.
    apply elem_of_app. right. left. }
  destruct (build_filename _ _ _) as [NewName|e].
  - destruct (decide _).
    + eexists _, _, _. split; [reflexivity|]. split_and!; [done..|].
      apply (Hin _ [_; _; _; _; _]).
    + destruct (rename_file _ _ _ _) as [[o fs1] t1] eqn:Hrf.
      apply rename_file_outcome in Hrf; [|done].
      destruct o as [q|e|]; [| |done].
      * destruct (decide _);
          (eexists _, _, _; split; [reflexivity|]; split_and!; [done..|]);
          apply (Hin _ [_; _; _; _; _]).
      * eexists _, _, _. split; [reflexivity|]. split_and!; [done..|].
        apply (Hin _ [_; _; _; _; _]).
  - eexists _, _, _. split; [reflexivity|]. split_and!; [done..|].
    apply (Hin _ [_; _; _; _; _]).
Qed.

(** *** Without [-sf] *)

Lemma moved_not_directory (fs fs' : filesystem) (p : string) :
  moved fs fs' → Fs.isdir fs p = false → Fs.isdir fs' p = false.
Proof.
  induction 1 as [|fs src dst fs' Hsrc Hdst _ IH]; [done|].
  intros Hp. apply IH. unfold Fs.isdir in Hp |- *.
  destruct (decide (p = dst)) as [->|Hpd].
  - rewrite lookup_move_dst, Hsrc; [done|].
    unfold Fs.exists_ in Hdst. by destruct (Fs.lookup fs dst).
  - destruct (decide (p = src)) as [->|Hps].
    + by rewrite lookup_move_src.
    + by rewrite lookup_move_other.
Qed.

Lemma renames_from_subseteq (l1 l2 : list string) (ev : event) :
  l1 ⊆ l2 → renames_from l1 ev → renames_from l2 ev.
Proof. intros Hsub. destruct ev; try done. apply Hsub. Qed.

Lemma rename_single_file_source
    (target format : string) (tags : list string) :
  emits (renames_from [target]) (rename_single_file target format tags).
Proof.
  unfold rename_single_file, process_resolved, except_handler, call_resolver,
    call_build_filename, logger_info, logger_error.
  repeat first
    [ eapply emits_impl; [|apply rename_file_events];
      intros ev [i ->]; by apply list_elem_of_here
    | emits_step ].
Qed.

Lemma rename_file_target_source
    (fuel : nat) (target : string) (format : option string)
    (tags : option (list string)) (fs : filesystem) :
  Fs.isdir fs target = false →
  Forall (renames_from [target]) (rename fuel target format tags fs).2.
Proof.
  intros Hd. destruct fuel as [|fuel]; [constructor|].
  rewrite rename_entry, Hd.
  assert (Forall (renames_from [target]) (entry_events format tags)) as Hentry.
  { unfold entry_events. destruct (truthy_list tags); by repeat constructor. }
  destruct (checked_tags format tags) as [tl|];
    [|cbn; by rewrite app_nil_r].
  destruct (Fs.exists_ fs target).
  - pose proof (rename_single_file_source target (effective_format format)
                  tl fs) as Hrun.
    destruct (rename_single_file _ _ _ _) as [[o fs'] t].
    by apply Forall_app.
  - apply Forall_app. split; [done|]. by repeat constructor.
Qed.

Lemma for_pdf_files_sources
    (fuel : nat) (d format : string) (tags : list string)
    (pdf_files : list string) (files_processed : list value)
    (fs : filesystem) :
  (∀ f, f ∈ pdf_files → Fs.isdir fs (d +:+ f) = false) →
  Forall (renames_from (String.app d <$> pdf_files))
         (for_pdf_files (rename fuel) d format tags pdf_files
                        files_processed fs).2.
Proof.
  revert files_processed fs.
  induction pdf_files as [|f pdf_files IH]; intros acc fs Hfiles;
    [constructor|].
  cbn [for_pdf_files]. run.
  pose proof (rename_file_target_source fuel (d +:+ f) (Some format)
                (Some tags) fs (Hfiles f ltac:(left))) as Hself.
  pose proof (rename_moves fuel (d +:+ f) (Some format) (Some tags) fs)
    as Hmoved.
  destruct (rename fuel (d +:+ f) _ _ fs) as [[o fs'] t].
  cbn in Hself, Hmoved.
  assert (Forall (renames_from (String.app d <$> f :: pdf_files)) t) as Ht.
  { eapply Forall_impl; [exact Hself|]. intros ev.
    apply renames_from_subseteq. intros x ->%list_elem_of_singleton. left. }
  destruct o as [v|e|]; [|by constructor..].
  specialize (IH (acc ++ [v]) fs').
  destruct (for_pdf_files _ _ _ _ _ _ fs') as [[o' fs''] t'].
  constructor; [done|]. apply Forall_app. split; [done|].
  eapply Forall_impl; [apply IH|].
  - intros g Hg. eapply moved_not_directory; [done|]. apply Hfiles. by right.
  - intros ev. apply renames_from_subseteq. intros x Hx. by right.
Qed.

(** X20: without [check_subfolders], and with no directory among the
    listed [.pdf] names, a walk renames listed files only: the source of
    every [os.rename] call it makes is the directory's path followed by a
    listed name, however the walk ends. *)
Theorem flat_walk_renames_listed_files_only
    (fuel : nat) (target : string) (format : option string)
    (tags : option (list string)) (fs : filesystem) :
  Fs.isdir fs target = true →
  config_check_subfolders config = false →
  (∀ f, f ∈ pdf_files_of fs target →
        Fs.isdir fs (with_trailing_sep target +:+ f) = false) →
  Forall (renames_from
            (String.app (with_trailing_sep target) <$> pdf_files_of fs target))
         (rename fuel target format tags fs).2.
Proof.
  intros Hd Hflag Hfiles. destruct fuel as [|fuel]; [constructor|].
  rewrite rename_entry, (isdir_exists _ _ Hd), Hd.
  assert (∀ l, Forall (renames_from l) (entry_events format tags)) as Hentry.
  { intros l. unfold entry_events.
    destruct (truthy_list tags); by repeat constructor. }
  destruct (checked_tags format tags) as [tl|];
    [|cbn; by rewrite app_nil_r].
  unfold rename_directory.
  fold (pdf_files_of fs target) (subfolders_of fs target).
  run. fold (pdf_files_of fs target) (subfolders_of fs target).
  rewrite Hflag.
  pose proof (for_pdf_files_sources fuel (with_trailing_sep target)
                (effective_format format) tl (pdf_files_of fs target) [] fs
                Hfiles) as Hloop.
  assert (∀ t : list event,
            Forall (renames_from
                      (String.app (with_trailing_sep target)
                         <$> pdf_files_of fs target)) t →
            Forall (renames_from
                      (String.app (with_trailing_sep target)
                         <$> pdf_files_of fs target))
                   (entry_events format tags ++ t)) as Hafter.
  { intros t Ht. by apply Forall_app. }
  destruct (length (pdf_files_of fs target) =? 0).
  - destruct (length (subfolders_of fs target) =? 0);
      apply Hafter; by repeat constructor.
  - destruct (for_pdf_files _ _ _ _ _ _ fs) as [[[l|e|] fs'] t];
      cbn in Hloop;
      [destruct (length (subfolders_of fs target) =? 0)|..];
      apply Hafter;
      repeat first [done | constructor | apply Forall_app; split].
Qed.

(** *** A second run *)

(** X18: [rename] is not idempotent on numbered copies.  A file that
    carries a numbered name of the name built for it - the candidate
    [k ≥ 2], with the unnumbered name taken - is not left alone: it is
    moved to the first candidate that is free, which is numbered too and
    is not its own, so its path changes at every run. *)
Theorem numbered_copy_is_renamed_again
    (fuel : nat) (target : string) (format : option string)
    (tags : option (list string)) (tl : list string) (fs : filesystem)
    (r : resolved) (NewName : string) (k : nat) :
  let name := candidate (new_path target NewName) (new_ext target) in
  checked_tags format tags = Some tl →
  Fs.lookup fs target = Some RegularFile →
  Str.endswith (Str.lower target) ".pdf" = true →
  pdf2bib_singlefile fs target = Returns r →
  truthy_list (r_metadata r) = true →
  truthy_str (r_identifier r) = true →
  build_filename (default [] (r_metadata r)) (effective_format format) tl
  = Returns NewName →
  (∀ dst, os_rename_error fs target dst = None) →
  2 ≤ k →
  target = name k →
  Fs.exists_ fs (name 1) = true →
  ∃ result j tr,
    rename (S fuel) target format tags fs
    = (Return (VDict result), Fs.move fs target (name j), tr) ∧
    path_new result = Some (name j) ∧
    2 ≤ j ∧ j ≠ k ∧
    Fs.exists_ fs (name j) = false ∧
    (∀ i, 1 ≤ i < j → Fs.exists_ fs (name i) = true) ∧
    Fs.exists_ (Fs.move fs target (name j)) target = false.
Proof.
  intros name Hc Hlook Hp Hr Hm Hi Hb Haccepts Hk Hname Htaken.
  assert (Fs.exists_ fs target = true) as He.
  { unfold Fs.exists_. by rewrite Hlook. }
  assert (Fs.isdir fs target = false) as Hd.
  { unfold Fs.isdir. by rewrite Hlook. }
  assert (target ≠ new_path target NewName +:+ new_ext target) as Hne.
  { change (target ≠ name 1). rewrite Hname at 1.
    intros Heq%candidate_inj; lia. }
  destruct (rename_file_run target (new_path target NewName)
              (new_ext target) fs He) as (j & Hj & Hfree & Hbelow & Hrun).
  fold name in Hfree, Hbelow, Hrun.
  unfold os_rename_result in Hrun. rewrite Haccepts, He in Hrun.
  assert (j ≠ 1) as Hj1 by (intros ->; congruence).
  assert (j ≠ k) as Hjk by (intros ->; congruence).
  assert (target ≠ name j) as Hsrc by (intros Heq; congruence).
  rewrite rename_entry, Hc, He, Hd.
  unfold rename_single_file, process_resolved, except_handler. run.
  rewrite He, Hp, Hr. cbn [metadata identifier with_path_original].
  rewrite Hm, Hi. cbn [andb]. rewrite Hb.
  fold (new_path target NewName) (new_ext target).
  destruct (decide _) as [|_]; [done|]. rewrite Hrun.
  destruct (decide _); (eexists _, j, _; split; [reflexivity|]);
    (split_and!; [done|lia|done|done|done|]);
    unfold Fs.exists_; by rewrite lookup_move_src.
Qed.

(** *** What [main] gets back *)

Lemma rename_without_result
    (fuel : nat) (target : string) (format : option string)
    (tags : option (list string)) (fs : filesystem) :
  checked_tags format tags = None ∨
  Fs.exists_ fs target = false ∨
  Fs.isdir fs target = false ∧ Str.endswith (Str.lower target) ".pdf" = false →
  ∃ tr, rename (S fuel) target format tags fs = (Return VNone, fs, tr).
Proof.
  intros Hwhy. rewrite rename_entry. unfold after.
  destruct (checked_tags format tags) as [tl|]; [|by eexists].
  destruct (Fs.exists_ fs target) eqn:He; [|by eexists].
  destruct Hwhy as [?|[?|[Hd Hp]]]; [done..|]. rewrite Hd.
  unfold rename_single_file. run. rewrite He, Hp. by eexists.
Qed.

Lemma rename_without_pdf_unbound
    (fuel : nat) (target : string) (format : option string)
    (tags : option (list string)) (tl : list string) (fs : filesystem) :
  checked_tags format tags = Some tl →
  Fs.isdir fs target = true →
  pdf_files_of fs target = [] →
  config_check_subfolders config = false ∨ subfolders_of fs target = [] →
  ∃ tr, rename (S fuel) target format tags fs
        = (Raise (UnboundLocalError "files_processed"), fs, tr).
Proof.
  intros Hc Hd Hpdf Hsubs.
  rewrite rename_entry, Hc, (isdir_exists _ _ Hd), Hd.
  unfold rename_directory.
  fold (pdf_files_of fs target) (subfolders_of fs target).
  run. fold (pdf_files_of fs target) (subfolders_of fs target).
  rewrite Hpdf. cbn [length Nat.eqb].
  destruct (subfolders_of fs target) as [|s subs]; [by eexists|].
  destruct Hsubs as [->|?]; [|done]. by eexists.
Qed.



End Program.

(** C10: a call of [rename] with truthy tags never calls
    [check_format_is_valid], neither itself nor in the calls it makes on
    the files and subfolders; the filename builder gets the format and the
    tags as they were passed; the call does what it does whatever the
    validator would have said of the format; it does not return at line
    58 but is the rest of the function, from line 61 on; and on a regular
    [.pdf] file with an identifier and metadata it calls the filename
    builder with that format and those tags, and returns a dictionary. *)
Theorem truthy_tags_skip_validation
    (sep : ascii) (config : config_params)
    (check_format_is_valid check_format_is_valid' :
       string → option (list string))
    (build_filename : metadata_dict → string → list string → call string)
    (pdf2bib_singlefile : filesystem → string → call resolved)
    (pathlib_parent : string → string)
    (os_path_splitext : string → string * string)
    (os_rename_error : filesystem → string → string → option exn)
    (fuel : nat) (target : string) (format : option string)
    (t : string) (ts : list string) (fs : filesystem) :
  let run :=
    rename sep config check_format_is_valid build_filename pdf2bib_singlefile
           pathlib_parent os_path_splitext os_rename_error
           fuel target format (Some (t :: ts)) fs in
  Forall (λ ev, is_check_format ev = false) run.2 ∧
  (∀ md format' tags',
     CallBuildFilename md format' tags' ∈ run.2 →
     format' = effective_format config format ∧ tags' = t :: ts) ∧
  run = rename sep config check_format_is_valid' build_filename
               pdf2bib_singlefile pathlib_parent os_path_splitext
               os_rename_error fuel target format (Some (t :: ts)) fs ∧
  (∀ fuel', fuel = S fuel' →
     run
     = if Fs.exists_ fs target then
         if Fs.isdir fs target then
           rename_directory sep config
             (rename sep config check_format_is_valid build_filename
                     pdf2bib_singlefile pathlib_parent os_path_splitext
                     os_rename_error fuel')
             target (effective_format config format) (t :: ts) fs
         else
           rename_single_file sep build_filename pdf2bib_singlefile
             pathlib_parent os_path_splitext os_rename_error
             target (effective_format config format) (t :: ts) fs
       else
         (Return VNone, fs,
          [Log ERROR (target
                      +:+ " is not a valid path to a file or a directory.")]))
  ∧
  (∀ r,
     0 < fuel →
     Fs.lookup fs target = Some RegularFile →
     Str.endswith (Str.lower target) ".pdf" = true →
     pdf2bib_singlefile fs target = Returns r →
     truthy_list (r_metadata r) = true →
     truthy_str (r_identifier r) = true →
     ∃ result fs' tr,
       run = (Return (VDict result), fs', tr) ∧
       path_original result = target ∧
       identifier result = r_identifier r ∧
       CallBuildFilename (default [] (r_metadata r))
         (effective_format config format) (t :: ts) ∈ tr).
Proof.
  intros run.
  pose proof (rename_unchecked sep config check_format_is_valid build_filename
                pdf2bib_singlefile pathlib_parent os_path_splitext
                os_rename_error fuel target format t ts fs) as Hev.
  fold run in Hev. split_and!.
  - eapply Forall_impl; [exact Hev|]. by intros [].
  - intros md format' tags' Hin.
    rewrite Forall_forall in Hev. exact (Hev _ Hin).
  - subst run. clear Hev. revert target format fs.
    induction fuel as [|fuel IH]; intros target format fs; [done|].
    rewrite !rename_entry.
    unfold entry_events, checked_tags. cbn [truthy_list].
    destruct (Fs.exists_ fs target); [|done].
    destruct (Fs.isdir fs target); [|done].
    f_equal. apply rename_directory_ext. intros target' fs'. apply IH.
  - intros fuel' ->. subst run. rewrite rename_entry.
    unfold entry_events, checked_tags, after. cbn [truthy_list app].
    destruct (Fs.exists_ fs target); [|done].
    destruct (Fs.isdir fs target).
    + by destruct (rename_directory _ _ _ _ _ _ _) as [[? ?] ?].
    + by destruct (rename_single_file _ _ _ _ _ _ _ _ _ _) as [[? ?] ?].
  - intros r Hfuel Hlook Hp Hr Hm Hi. subst run.
    destruct fuel as [|fuel']; [lia|].
    by apply rename_reaches_builder.
Qed.

(** X19: a format passed to [rename] makes the stored one irrelevant:
    with a non-empty [format] argument, [rename] does the same under any
    two configurations that agree on [check_subfolders], at every depth
    of the walk. *)
Theorem explicit_format_ignores_the_stored_one
    (sep : ascii) (config config' : config_params)
    (check_format_is_valid : string → option (list string))
    (build_filename : metadata_dict → string → list string → call string)
    (pdf2bib_singlefile : filesystem → string → call resolved)
    (pathlib_parent : string → string)
    (os_path_splitext : string → string * string)
    (os_rename_error : filesystem → string → string → option exn)
    (fuel : nat) (target format : string) (tags : option (list string))
    (fs : filesystem) :
  format ≠ "" →
  config_check_subfolders config = config_check_subfolders config' →
  rename sep config check_format_is_valid build_filename pdf2bib_singlefile
         pathlib_parent os_path_splitext os_rename_error
         fuel target (Some format) tags fs
  = rename sep config' check_format_is_valid build_filename pdf2bib_singlefile
           pathlib_parent os_path_splitext os_rename_error
           fuel target (Some format) tags fs.
Proof.
  intros Hformat Hflag. revert target tags fs.
  induction fuel as [|fuel IH]; intros target tags fs; [done|].
  rewrite !rename_entry.
  assert (∀ c, effective_format c (Some format) = format) as Heff.
  { intros c. unfold effective_format. by destruct format. }
  unfold entry_events, checked_tags. rewrite !Heff.
  destruct (if truthy_list tags then tags else check_format_is_valid format)
    as [tl|]; [|done].
  destruct (Fs.exists_ fs target); [|done].
  destruct (Fs.isdir fs target); [|done].
  f_equal.
  rewrite (rename_directory_ext sep config _
             (rename sep config' check_format_is_valid build_filename
                     pdf2bib_singlefile pathlib_parent os_path_splitext
                     os_rename_error fuel) format tl) by (intros; apply IH).
  unfold rename_directory. by rewrite Hflag.
Qed.

(** ** The summary *)

Section ReportProperties.

Context (os_path_relpath : string → string → string).
Context (Fore_RED Fore_YELLOW Fore_MAGENTA MainPath : string).

Local Abbreviation count_results' :=
  (count_results os_path_relpath Fore_YELLOW Fore_MAGENTA MainPath).
Local Abbreviation report' :=
  (report os_path_relpath Fore_RED Fore_YELLOW Fore_MAGENTA MainPath).
Local Abbreviation renamed_lines' :=
  (renamed_lines os_path_relpath Fore_YELLOW Fore_MAGENTA MainPath).

Lemma count_results_dicts (rs : list result_dict) (c n : nat)
    (out : list string) :
  count_results' (VDict <$> rs) c n out
  = (Returns (c + length (List.filter was_renamed rs),
              n + length (List.filter was_not_found rs)),
     out ++ concat (renamed_lines' <$> List.filter was_renamed rs)).
Proof.
  revert c n out. induction rs as [|r rs IH]; intros c n out.
  - cbn. by rewrite !Nat.add_0_r, app_nil_r.
  - rewrite fmap_cons. cbn [count_results truthy_value as_dict List.filter].
    destruct (truthy_str (identifier r) && truthy_str (path_new r)) eqn:Hc.
    + assert (was_not_found r = false) as -> by (unfold was_not_found; by rewrite Hc).
      destruct (decide (Some (path_original r) = path_new r)) as [Heq|Hne].
      * assert (was_renamed r = false) as ->.
        { unfold was_renamed. by rewrite Hc, bool_decide_true. }
        apply IH.
      * assert (was_renamed r = true) as ->.
        { unfold was_renamed. by rewrite Hc, bool_decide_false. }
        rewrite IH. rewrite fmap_cons. cbn [concat length].
        rewrite <-!app_assoc. do 3 f_equal; lia.
    + assert (was_not_found r = true) as -> by (unfold was_not_found; by rewrite Hc).
      assert (was_renamed r = false) as ->.
      { unfold was_renamed. by rewrite Hc. }
      rewrite IH. cbn [length]. do 3 f_equal. lia.
Qed.

Lemma print_unidentified_dicts (rs : list result_dict) (out : list string) :
  print_unidentified (VDict <$> rs) out
  = (None, out ++ (path_original <$> List.filter has_no_identifier rs)).
Proof.
  revert out. induction rs as [|r rs IH]; intros out.
  - cbn. by rewrite app_nil_r.
  - rewrite fmap_cons. cbn [print_unidentified as_dict List.filter].
    unfold has_no_identifier.
    destruct (truthy_str (identifier r)); cbn [negb]; rewrite IH; [done|].
    by rewrite fmap_cons, <-app_assoc.
Qed.

(** X7: for results that are all dictionaries the summary is printed to
    the end, and reads: the heading; for each renamed file (one with an
    identifier and a [path_new] that is not its original path) its old
    and its new relative path; the number of those; and, when some
    result lacks an identifier or a [path_new], the warning followed by
    the original paths of the results without identifier, in order. *)
Theorem report_of_dictionaries (rs : list result_dict) :
  report' (VList (VDict <$> rs))
  = (None,
     [Fore_RED +:+ "Summaries of changes done:"]
     ++ concat (renamed_lines' <$> List.filter was_renamed rs)
     ++ [renamed_line (length (List.filter was_renamed rs))]
     ++ (if 0 <? length (List.filter was_not_found rs) then
           not_found_line Fore_RED
           :: (path_original <$> List.filter has_no_identifier rs)
         else [])).
Proof.
  unfold report. rewrite count_results_dicts. cbn [Nat.add].
  destruct (0 <? length (List.filter was_not_found rs)).
  - rewrite print_unidentified_dicts. f_equal.
    cbn [app]. by rewrite <-!app_assoc.
  - reflexivity.
Qed.

(** X8: a file whose identifier was found and whose renaming failed
    raises the warning about files without identifier and is not named
    under it: when every result has an identifier and one of them has no
    [path_new], the warning is the last line printed. *)
Theorem report_warns_without_names (rs : list result_dict) (r : result_dict) :
  (∀ r', r' ∈ rs → truthy_str (identifier r') = true) →
  r ∈ rs →
  path_new r = None →
  ∃ out, report' (VList (VDict <$> rs)) = (None, out) ∧
         last out = Some (not_found_line Fore_RED).
Proof.
  intros Hids Hr Hnew. unfold report.
  rewrite count_results_dicts. cbn [Nat.add].
  assert (List.filter has_no_identifier rs = []) as Hnone.
  { clear Hr. induction rs as [|r' rs IH]; [done|].
    cbn [List.filter]. unfold has_no_identifier at 1.
    rewrite Hids by left. cbn [negb]. apply IH.
    intros r'' Hr''. apply Hids. by right. }
  assert ((0 <? length (List.filter was_not_found rs)) = true) as ->.
  { apply Nat.ltb_lt.
    assert (r ∈ List.filter was_not_found rs) as Hin.
    { apply list_elem_of_In, filter_In. split; [by apply list_elem_of_In|].
      unfold was_not_found. rewrite Hnew. cbn. by rewrite andb_false_r. }
    destruct (List.filter was_not_found rs); [by apply elem_of_nil in Hin|].
    cbn. lia. }
  rewrite print_unidentified_dicts, Hnone.
  eexists. split; [reflexivity|].
  cbn [fmap list_fmap]. by rewrite app_nil_r, last_snoc.
Qed.

Lemma count_results_outcome (l : list value) (c n : nat) (out : list string) :
  match count_results' l c n out with
  | (Throws e, _) => ∃ msg, e = TypeError msg
  | (Returns (c', n'), _) =>
      n ≤ n' ∧ ((∃ v, v ∈ l ∧ is_dict v = false) → n < n')
  end.
Proof.
  revert c n out. induction l as [|v l IH]; intros c n out.
  - cbn. split; [done|]. by intros (v & Hv%elem_of_nil & _).
  - cbn [count_results].
    assert (∀ c' out',
              match count_results' l c' (n + 1) out' with
              | (Throws e, _) => ∃ msg, e = TypeError msg
              | (Returns (c'', n'), _) =>
                  n ≤ n' ∧ ((∃ v0, v0 ∈ v :: l ∧ is_dict v0 = false) → n < n')
              end) as Hcounted.
    { intros c' out'. specialize (IH c' (n + 1) out').
      destruct (count_results' l c' (n + 1) out') as [[[c'' n']|e] ?];
        [|done]. lia. }
    destruct (truthy_value v) eqn:Htruthy; [|apply Hcounted].
    destruct v as [|s|r|l']; cbn [as_dict]; [done|by eexists| |by eexists].
    assert (∀ c' out',
              match count_results' l c' n out' with
              | (Throws e, _) => ∃ msg, e = TypeError msg
              | (Returns (c'', n'), _) =>
                  n ≤ n' ∧
                  ((∃ v0, v0 ∈ VDict r :: l ∧ is_dict v0 = false) → n < n')
              end) as Hkept.
    { intros c' out'. specialize (IH c' n out').
      destruct (count_results' l c' n out') as [[[c'' n']|e] ?]; [|done].
      destruct IH as [Hle Hlt]. split; [done|].
      intros (v0 & [->|Hv0]%elem_of_cons & Hnd); [done|]. apply Hlt. eauto. }
    destruct (truthy_str (identifier r) && truthy_str (path_new r));
      [|apply Hcounted].
    destruct (decide _); apply Hkept.
Qed.

Lemma print_unidentified_crashes (l : list value) (out : list string) :
  (∃ v, v ∈ l ∧ is_dict v = false) →
  ∃ msg out', print_unidentified l out = (Some (TypeError msg), out').
Proof.
  revert out. induction l as [|v l IH]; intros out (v0 & Hv0 & Hnd).
  - by apply elem_of_nil in Hv0.
  - cbn [print_unidentified].
    destruct v as [|s|r|l']; cbn [as_dict]; [by eexists _, _..| |by eexists _, _].
    apply elem_of_cons in Hv0 as [->|Hv0]; [done|].
    destruct (truthy_str (identifier r)); apply IH; eauto.
Qed.

Lemma report_crashes_on_non_dictionary_run (l : list value) (v : value) :
  v ∈ l → is_dict v = false →
  ∃ msg out, report' (VList l) = (Some (TypeError msg), out).
Proof.
  intros Hv Hnd. unfold report.
  pose proof (count_results_outcome l 0 0
                [Fore_RED +:+ "Summaries of changes done:"]) as Hcount.
  destruct (count_results' l 0 0 _) as [[[c n]|e] out].
  - destruct Hcount as [_ Hlt].
    assert (0 < n) as Hn by (apply Hlt; eauto).
    apply Nat.ltb_lt in Hn. rewrite Hn.
    apply print_unidentified_crashes. eauto.
  - destruct Hcount as [msg ->]. by eexists _, _.
Qed.

(** X9: the summary ends in a [TypeError] as soon as one of the results
    is not a dictionary - [None], or a list, as the walk appends for a
    directory whose name ends in [.pdf]; and it is printed to the end
    when all of them are dictionaries. *)
Theorem report_crashes_on_non_dictionary (l : list value) :
  (∃ v, v ∈ l ∧ is_dict v = false) ↔
  ∃ msg out, report' (VList l) = (Some (TypeError msg), out).
Proof.
  split.
  - intros (v & Hv & Hnd). by eapply report_crashes_on_non_dictionary_run.
  - intros (msg & out & Hrun).
    destruct (decide (Forall (λ v, is_dict v = true) l)) as [Hall|Hsome].
    + assert (∃ rs, l = VDict <$> rs) as [rs ->].
      { clear Hrun. induction Hall as [|v l Hv _ [rs ->]]; [by exists []|].
        destruct v as [| |r|]; try done. by exists (r :: rs). }
      unfold report in Hrun. rewrite count_results_dicts in Hrun.
      destruct (0 <? _); [|done].
      by rewrite print_unidentified_dicts in Hrun.
    + apply not_Forall_Exists in Hsome; [|apply _].
      apply list.Exists_exists in Hsome as (v & Hv & Hnd).
      exists v. split; [done|]. cbn in Hnd. by apply not_true_is_false.
Qed.

End ReportProperties.

(** ** The journal abbreviations *)

Section AbbreviationsProperties.

Context (open_error : string → string → option exn).
Context (other_path_exists : string → bool).
Context (uda : string).
Context (write_error : string → file_op → option (exn * nat)).
Context (os_linesep : string).

Local Abbreviation add_abbreviations' :=
  (add_abbreviations open_error other_path_exists uda write_error os_linesep).
Local Abbreviation write_text' := (write_text write_error os_linesep).
Local Abbreviation close_text' := (close_text write_error).
Local Abbreviation to_linesep' := (to_linesep os_linesep).

Lemma string_app_empty_r (s : string) : s +:+ "" = s.
Proof. induction s as [|c s IH]; [done|]. by rewrite string_app_cons, IH. Qed.

Lemma first_chars_prefix (n : nat) (s : string) :
  ∃ rest, s = first_chars n s +:+ rest.
Proof.
  revert s. induction n as [|n IH]; intros s; [by exists s; destruct s|].
  destruct s as [|c s]; [by exists ""|].
  destruct (IH s) as [rest Hrest]. exists rest.
  cbn [first_chars]. by rewrite string_app_cons, <-Hrest.
Qed.

Lemma prefix_app (s w rest more : string) :
  s = w +:+ rest → s +:+ more = w +:+ (rest +:+ more).
Proof. intros ->. by rewrite string_app_assoc. Qed.

Lemma universal_newlines_id (s : string) :
  Str.contains carriage_return s = false → universal_newlines s = s.
Proof.
  induction s as [|c s IH]; [done|]. cbn [Str.contains universal_newlines].
  intros [Hc Hs]%orb_false_iff. apply bool_decide_eq_false in Hc.
  rewrite decide_False by congruence. by rewrite IH.
Qed.

Lemma to_linesep_id (s : string) :
  os_linesep = newline → to_linesep' s = s.
Proof.
  intros Hsep. induction s as [|c s IH]; [done|]. cbn [to_linesep].
  rewrite IH. destruct (decide (c = line_feed)) as [->|]; [|done].
  by rewrite Hsep.
Qed.

Lemma to_linesep_newline : to_linesep' newline = os_linesep.
Proof. cbn. apply string_app_empty_r. Qed.

Lemma write_text_insert (files : gmap string string) (p c text : string) :
  write_text' (<[p := c]> files) p text
  = match write_error p (Write text) with
    | Some (e, n) =>
        (<[p := first_chars n (c +:+ to_linesep' text)]> files, Some e)
    | None => (<[p := c +:+ to_linesep' text]> files, None)
    end.
Proof.
  unfold write_text. rewrite lookup_insert_eq. cbn [default from_option].
  destruct (write_error p (Write text)) as [[e n]|];
    by rewrite insert_insert_eq.
Qed.

Lemma close_text_insert (files : gmap string string) (p c : string) :
  close_text' (<[p := c]> files) p
  = match write_error p Close with
    | Some (e, n) => (<[p := first_chars n c]> files, Some e)
    | None => (<[p := c]> files, None)
    end.
Proof.
  unfold close_text. rewrite lookup_insert_eq. cbn [default from_option].
  destruct (write_error p Close) as [[e n]|]; [|done].
  by rewrite insert_insert_eq.
Qed.

(** X10: when both files can be read and the user's file can be written
    to the end, [add_abbreviations] leaves in
    [UserDefinedAbbreviations.txt] the new abbreviations, a line break
    and the old abbreviations, each as [read] gave it and [write] put
    it: with [\n] for every [\r\n] and [\r] that was read, and
    [os.linesep] for every [\n] that is written.  No other file is
    touched.  The old abbreviations are kept to the letter when
    [os.linesep] is [\n] and they have no carriage return. *)
Theorem add_abbreviations_prepends
    (path new old : string) (files : gmap string string) :
  files !! path = Some new →
  files !! uda = Some old →
  open_error "r" path = None →
  open_error "r" uda = None →
  open_error "w" uda = None →
  write_error uda (Write (universal_newlines new)) = None →
  write_error uda (Write newline) = None →
  write_error uda (Write (universal_newlines old)) = None →
  write_error uda Close = None →
  ∃ files' log,
    add_abbreviations' path files = (files', log) ∧
    files' !! uda
    = Some (to_linesep' (universal_newlines new) +:+ os_linesep
            +:+ to_linesep' (universal_newlines old)) ∧
    (os_linesep = newline →
     Str.contains carriage_return new = false →
     Str.contains carriage_return old = false →
     files' !! uda = Some (new +:+ newline +:+ old)) ∧
    (∀ q, q ≠ uda → files' !! q = files !! q) ∧
    last log
    = Some (Log INFO "The new journal abbreviations were correctly added.").
Proof.
  intros Hnew Hold Hr Hr' Hw Hw1 Hw2 Hw3 Hc.
  unfold add_abbreviations, text_exists, read_text, open_write.
  rewrite Hnew, Hold, Hr, Hr', Hw.
  rewrite bool_decide_true by eauto. cbn [orb negb].
  rewrite write_text_insert, Hw1, write_text_insert, Hw2,
    write_text_insert, Hw3, close_text_insert, Hc.
  rewrite to_linesep_newline. change ("" +:+ ?a) with a.
  rewrite string_app_assoc.
  eexists _, _. split; [reflexivity|].
  split_and!; [by rewrite lookup_insert_eq| | |done].
  - intros Hsep Hnew' Hold'. rewrite lookup_insert_eq.
    rewrite !universal_newlines_id, !to_linesep_id by done.
    by rewrite Hsep.
  - intros q Hq. by rewrite lookup_insert_ne.
Qed.

(** X11: [add_abbreviations] touches no file but
    [UserDefinedAbbreviations.txt], and ends in one of three ways.
    Either nothing has changed and the last log line is an error: the
    given path does not exist or cannot be read, or the user's file is
    missing, cannot be read or cannot be opened for writing; a missing
    user's file is not created.  Or everything was written.  Or a write
    or the closing failed after line 205 had emptied the user's file:
    then the file holds a first part of what was to be written, the last
    log line is an error, and the old abbreviations are in the file only
    as far as that part reaches. *)
Theorem add_abbreviations_outcomes
    (path : string) (files : gmap string string) :
  let '(files', log) := add_abbreviations' path files in
  (∀ q, q ≠ uda → files' !! q = files !! q) ∧
  ((files' = files ∧ ∃ msg, last log = Some (Log ERROR msg)) ∨
   (∃ new old,
      files !! path = Some new ∧ files !! uda = Some old ∧
      files' = <[uda := prepended os_linesep new old]> files ∧
      last log
      = Some (Log INFO "The new journal abbreviations were correctly added."))
   ∨
   (∃ new old written rest msg,
      files !! path = Some new ∧ files !! uda = Some old ∧
      open_error "w" uda = None ∧
      files' = <[uda := written]> files ∧
      prepended os_linesep new old = written +:+ rest ∧
      last log = Some (Log ERROR msg))).
Proof.
  unfold add_abbreviations, read_text, open_write.
  destruct (text_exists _ files path); cbn [negb]; [|eauto 10].
  destruct (open_error "r" path); [eauto 10|].
  destruct (files !! path) as [new|] eqn:Hnew;
    [|destruct (other_path_exists path); eauto 10].
  destruct (open_error "r" uda); [eauto 10|].
  destruct (files !! uda) as [old|] eqn:Hold;
    [|destruct (other_path_exists uda); eauto 10].
  destruct (open_error "w" uda) eqn:Hw; [eauto 10|].
  assert (∀ c (fs' : gmap string string), ∀ q, q ≠ uda →
            (<[uda := c]> files) !! q = files !! q) as Hothers.
  { intros c _ q Hq. by rewrite lookup_insert_ne. }
  assert (∀ n s more, ∃ rest,
            s +:+ more = first_chars n s +:+ rest) as Hpart.
  { intros n s more. destruct (first_chars_prefix n s) as [rest Hrest].
    exists (rest +:+ more). by apply prefix_app. }
  unfold prepended.
  set (new' := to_linesep' (universal_newlines new)).
  set (old' := to_linesep' (universal_newlines old)).
  rewrite write_text_insert. change ("" +:+ ?a) with a. fold new'.
  destruct (write_error uda (Write (universal_newlines new))) as [[e n]|].
  { split; [by apply Hothers|]. right. right.
    destruct (Hpart n new' (os_linesep +:+ old')) as [rest Hrest].
    eexists new, old, _, rest, _. by split_and!. }
  rewrite write_text_insert, to_linesep_newline.
  destruct (write_error uda (Write newline)) as [[e n]|].
  { split; [by apply Hothers|]. right. right.
    destruct (Hpart n (new' +:+ os_linesep) old') as [rest Hrest].
    rewrite string_app_assoc in Hrest.
    eexists new, old, _, rest, _. by split_and!. }
  rewrite write_text_insert. fold old'. rewrite string_app_assoc.
  destruct (write_error uda (Write (universal_newlines old))) as [[e n]|].
  { split; [by apply Hothers|]. right. right.
    destruct (first_chars_prefix n (new' +:+ os_linesep +:+ old'))
      as [rest Hrest].
    eexists new, old, _, rest, _. by split_and!. }
  rewrite close_text_insert.
  destruct (write_error uda Close) as [[e n]|].
  { split; [by apply Hothers|]. right. right.
    destruct (first_chars_prefix n (new' +:+ os_linesep +:+ old'))
      as [rest Hrest].
    eexists new, old, _, rest, _. by split_and!. }
  split; [by apply Hothers|]. right. left. by exists new, old.
Qed.

End AbbreviationsProperties.

(** ** The command line *)

Section MainProperties.

Context (check_format_is_valid : string → option (list string)).
Context (open_error : string → string → option exn).
Context (other_path_exists : string → bool).
Context (uda : string).
Context (os_path_join : string → string → string).
Context (os_path_dirname : string → string).
Context (os_path_relpath : string → string → string).
Context (Fore_RED Fore_YELLOW Fore_MAGENTA : string).
Context (write_error : string → file_op → option (exn * nat)).
Context (os_linesep : string).

Local Abbreviation main' do_rename :=
  (main check_format_is_valid do_rename open_error other_path_exists uda
        os_path_join os_path_dirname os_path_relpath
        Fore_RED Fore_YELLOW Fore_MAGENTA write_error os_linesep).

Local Abbreviation options_config' := (options_config check_format_is_valid).

(** X12: [main] never gets to [rename] when it is asked to install or
    remove the context menu or to add abbreviations, or when it is given
    no path (or an empty one): whatever [rename] would do, [main]
    returns normally and no file is renamed. *)
Theorem main_options_stop_before_rename
    (do_rename do_rename' : config_params → string → M value)
    (args : arguments) (w : world) :
  args_install_right_click args = true ∨
  args_uninstall_right_click args = true ∨
  truthy_str (args_path_abbreviation_file args) = true ∨
  target_of args = "" →
  main' do_rename args w = main' do_rename' args w ∧
  (main' do_rename args w).1.1 = Return () ∧
  w_fs (main' do_rename args w).1.2 = w_fs w.
Proof.
  intros Hstop. unfold main.
  destruct (args_install_right_click args); [done|].
  destruct (args_uninstall_right_click args); [done|].
  destruct (truthy_str (args_path_abbreviation_file args)).
  { by destruct (add_abbreviations _ _ _ _ _). }
  destruct Hstop as [?|[?|[?|Hempty]]]; [done..|].
  unfold read_options. by destruct (decide (target_of args = "")) as [_|?].
Qed.

(** X13: [main] calls [rename] at most once, on the first path of the
    command line, with subfolders explored exactly when [-sf] was given -
    whatever the stored setting - and with the format of [-f] when the
    validator accepts it, the stored format otherwise: two ways of
    renaming that agree there make the same [main]. *)
Theorem main_calls_rename_with_the_options
    (do_rename do_rename' : config_params → string → M value)
    (args : arguments) (w : world) :
  do_rename (options_config' args (w_settings w)) (target_of args) (w_fs w)
  = do_rename' (options_config' args (w_settings w)) (target_of args) (w_fs w) →
  main' do_rename args w = main' do_rename' args w.
Proof.
  intros Hsame. unfold main.
  destruct (args_install_right_click args); [done|].
  destruct (args_uninstall_right_click args); [done|].
  destruct (truthy_str (args_path_abbreviation_file args)); [done|].
  unfold read_options. destruct (decide (target_of args = "")); [done|].
  unfold rename_and_report, config_of. cbn [w_settings w_fs w_files
    set_format set_check_subfolders with_verbose].
  unfold options_config in Hsame. cbn [w_settings] in Hsame. by rewrite Hsame.
Qed.

(** X14: when [rename] returns a list with an element that is not a
    dictionary, [main] ends in a [TypeError], after the files were
    renamed. *)
Theorem main_crashes_on_non_dictionary
    (do_rename : config_params → string → M value)
    (args : arguments) (w : world)
    (l : list value) (v : value) (fs' : filesystem) (tr : list event) :
  args_install_right_click args = false →
  args_uninstall_right_click args = false →
  truthy_str (args_path_abbreviation_file args) = false →
  target_of args ≠ "" →
  do_rename (options_config' args (w_settings w)) (target_of args) (w_fs w)
  = (Return (VList l), fs', tr) →
  v ∈ l → is_dict v = false →
  ∃ msg w' tr',
    main' do_rename args w = (Raise (TypeError msg), w', tr') ∧
    w_fs w' = fs'.
Proof.
  intros Hi Hu Ha Ht Hrun Hv Hnd. unfold main. rewrite Hi, Hu, Ha.
  unfold read_options. rewrite decide_False by done.
  unfold rename_and_report, config_of. cbn [w_settings w_fs w_files
    set_format set_check_subfolders with_verbose].
  unfold options_config in Hrun. rewrite Hrun.
  destruct (report_crashes_on_non_dictionary_run os_path_relpath Fore_RED
              Fore_YELLOW Fore_MAGENTA
              (os_path_dirname
                 (if Fs.isdir fs' (target_of args)
                  then os_path_join (target_of args) "" else target_of args))
              l v Hv Hnd) as (msg & out & ->).
  by eexists _, _, _.
Qed.

End MainProperties.

(** ** The command line, end to end *)

Section CommandLine.

Context (sep : ascii).
Context (check_format_is_valid : string → option (list string)).
Context (build_filename : metadata_dict → string → list string → call string).
Context (pdf2bib_singlefile : filesystem → string → call resolved).
Context (pathlib_parent : string → string).
Context (os_path_splitext : string → string * string).
Context (os_rename_error : filesystem → string → string → option exn).
Context (open_error : string → string → option exn).
Context (other_path_exists : string → bool).
Context (uda : string).
Context (os_path_join : string → string → string).
Context (os_path_dirname : string → string).
Context (os_path_relpath : string → string → string).
Context (Fore_RED Fore_YELLOW Fore_MAGENTA : string).
Context (write_error : string → file_op → option (exn * nat)).
Context (os_linesep : string).

Local Abbreviation options_config' := (options_config check_format_is_valid).

Local Abbreviation main' do_rename :=
  (main check_format_is_valid do_rename open_error other_path_exists uda
        os_path_join os_path_dirname os_path_relpath
        Fore_RED Fore_YELLOW Fore_MAGENTA write_error os_linesep).

(** [main] with the [rename] of this file: line 323 passes the target
    only. *)
Local Abbreviation rename_target fuel :=
  (λ config target,
     rename sep config check_format_is_valid build_filename
            pdf2bib_singlefile pathlib_parent os_path_splitext
            os_rename_error fuel target None None).

Local Abbreviation cli fuel := (main' (rename_target fuel)).

Local Abbreviation quiet_lines args :=
  (if args_decrease_verbose args
   then ["(All intermediate output will be suppressed. To see additional outuput, do not use the command -s)"]
   else []).

Lemma printed_app (t1 t2 : list main_event) :
  printed (t1 ++ t2) = printed t1 ++ printed t2.
Proof. apply omap_app. Qed.

Lemma printed_events (tr : list event) : printed (Event <$> tr) = [].
Proof. by induction tr. Qed.

Lemma printed_prints (out : list string) : printed (Print <$> out) = out.
Proof. induction out as [|line out IH]; [done|]. cbn. f_equal. apply IH. Qed.

(** What [main] makes of the outcome of [rename], once it gets to call
    it. *)
Lemma main_after_rename
    (do_rename : config_params → string → M value)
    (args : arguments) (w : world)
    (o : outcome value) (fs' : filesystem) (tr : list event) :
  args_install_right_click args = false →
  args_uninstall_right_click args = false →
  truthy_str (args_path_abbreviation_file args) = false →
  target_of args ≠ "" →
  do_rename (options_config' args (w_settings w)) (target_of args) (w_fs w)
  = (o, fs', tr) →
  let summary :=
    report os_path_relpath Fore_RED Fore_YELLOW Fore_MAGENTA
      (os_path_dirname
         (if Fs.isdir fs' (target_of args)
          then os_path_join (target_of args) "" else target_of args)) in
  ∃ w' tr',
    main' do_rename args w
    = (match o with
       | Return VNone => Return ()
       | Return results =>
           match (summary results).1 with
           | None => Return ()
           | Some e => Raise e
           end
       | Raise e => Raise e
       | OutOfFuel => OutOfFuel
       end, w', tr') ∧
    w_fs w' = fs' ∧
    printed tr'
    = quiet_lines args
      ++ match o with
         | Return VNone => []
         | Return results => (summary results).2
         | _ => []
         end.
Proof.
  intros Hi Hu Ha Ht Hrun summary. unfold main. rewrite Hi, Hu, Ha.
  unfold read_options. rewrite decide_False by done.
  unfold rename_and_report, config_of. cbn [w_settings w_fs w_files
    set_format set_check_subfolders with_verbose].
  unfold options_config in Hrun. rewrite Hrun.
  destruct (0 <? args_max_length_authors args)%Z,
    (0 <? args_max_length_filename args)%Z, (args_set_default args),
    (args_decrease_verbose args);
    (destruct o as [[|s|r|l]|e|];
     [|destruct (summary (VStr s)) as [[e|] out] eqn:Hsum
      |destruct (summary (VDict r)) as [[e|] out] eqn:Hsum
      |destruct (summary (VList l)) as [[e|] out] eqn:Hsum| |];
     try (unfold summary in Hsum; rewrite Hsum);
     (eexists _, _; split_and!; [reflexivity..|]);
     rewrite !printed_app, ?printed_events, ?printed_prints;
     by rewrite ?app_nil_r).
Qed.

(** X15: when [rename] has nothing to return - the format in force is
    rejected, the path does not exist, or it is a file without a [.pdf]
    extension - [main] returns normally, renames nothing and prints no
    summary. *)
Theorem main_is_silent_without_results
    (fuel : nat) (args : arguments) (w : world) :
  args_install_right_click args = false →
  args_uninstall_right_click args = false →
  truthy_str (args_path_abbreviation_file args) = false →
  target_of args ≠ "" →
  check_format_is_valid (config_format (options_config' args (w_settings w)))
  = None ∨
  Fs.exists_ (w_fs w) (target_of args) = false ∨
  Fs.isdir (w_fs w) (target_of args) = false ∧
  Str.endswith (Str.lower (target_of args)) ".pdf" = false →
  ∃ w' tr,
    cli (S fuel) args w = (Return (), w', tr) ∧
    w_fs w' = w_fs w ∧
    printed tr = quiet_lines args.
Proof.
  intros Hi Hu Ha Ht Hwhy.
  destruct (rename_without_result sep
              (options_config' args (w_settings w)) check_format_is_valid
              build_filename pdf2bib_singlefile pathlib_parent
              os_path_splitext os_rename_error fuel (target_of args)
              None None (w_fs w) Hwhy) as [tr Hrun].
  destruct (main_after_rename (rename_target (S fuel)) args w _ _ _
              Hi Hu Ha Ht Hrun)
    as (w' & tr' & Hmain & Hfs & Hprinted).
  exists w', tr'. by rewrite app_nil_r in Hprinted.
Qed.

(** X16: nothing catches the [UnboundLocalError] of a folder without
    [.pdf] names: with the format in force accepted, on a directory that
    lists no [.pdf] name and whose subfolders are absent or left alone
    (no [-sf]), [main] ends in that exception, having renamed nothing and
    printed no summary. *)
Theorem main_raises_on_a_folder_without_pdf
    (fuel : nat) (args : arguments) (w : world) :
  args_install_right_click args = false →
  args_uninstall_right_click args = false →
  truthy_str (args_path_abbreviation_file args) = false →
  target_of args ≠ "" →
  is_Some (check_format_is_valid
             (config_format (options_config' args (w_settings w)))) →
  Fs.isdir (w_fs w) (target_of args) = true →
  pdf_files_of sep (w_fs w) (target_of args) = [] →
  args_sub_folders args = false ∨
  subfolders_of sep (w_fs w) (target_of args) = [] →
  ∃ w' tr,
    cli (S fuel) args w
    = (Raise (UnboundLocalError "files_processed"), w', tr) ∧
    w_fs w' = w_fs w ∧
    printed tr = quiet_lines args.
Proof.
  intros Hi Hu Ha Ht [tl Hc] Hd Hpdf Hsubs.
  destruct (rename_without_pdf_unbound sep
              (options_config' args (w_settings w)) check_format_is_valid
              build_filename pdf2bib_singlefile pathlib_parent
              os_path_splitext os_rename_error fuel (target_of args)
              None None tl (w_fs w) Hc Hd Hpdf Hsubs) as [tr Hrun].
  destruct (main_after_rename (rename_target (S fuel)) args w _ _ _
              Hi Hu Ha Ht Hrun)
    as (w' & tr' & Hmain & Hfs & Hprinted).
  exists w', tr'. by rewrite app_nil_r in Hprinted.
Qed.


End CommandLine.

(** * The properties at work *)

Import Sample.

Abbreviation walk config os_rename_error :=
  (rename Posix.sep config validator builder resolver Posix.parent
          Posix.splitext os_rename_error).

Lemma rename_file_missing_old_path_witness :
  Fs.exists_ papers "d/x.pdf" = false ∧
  rename_file accepts "d/x.pdf" "d/Beta" ".pdf" papers
  = (Raise (ValueError "The file d/x.pdf does not exist"), papers, []).
Proof.
  split; [reflexivity|].
  apply (rename_file_missing_old_path accepts "d/x.pdf" "d/Beta" ".pdf" papers).
  reflexivity.
Defined.

Lemma rename_file_first_free_candidate_witness :
  Fs.exists_ crowded "d/b.pdf" = true ∧
  rename_file accepts "d/b.pdf" "d/Beta" ".pdf" crowded
  = (Return "d/Beta (3).pdf",
     [("d", Directory); ("d/Beta (3).pdf", RegularFile);
      ("d/Beta.pdf", RegularFile); ("d/Beta (2).pdf", RegularFile)],
     [CallOsRename "d/b.pdf" "d/Beta (3).pdf"]).
Proof.
  split; [reflexivity|].
  destruct (rename_file_first_free_candidate accepts "d/b.pdf" "d/Beta" ".pdf"
              crowded eq_refl)
    as (k & Hk & Hfree & Htaken & _ & _ & Hrun).
  destruct k as [|[|[|[|k]]]].
  - lia.
  - vm_compute in Hfree. discriminate Hfree.
  - vm_compute in Hfree. discriminate Hfree.
  - destruct Hrun as (Hrun & _ & _). exact Hrun.
  - specialize (Htaken 3 ltac:(lia)). vm_compute in Htaken.
    discriminate Htaken.
Defined.

Lemma walk_without_pdf_raises_witness :
  (∀ v fs1 t1,
     walk deep_walk accepts 1 "d" None None barren ≠ (Return v, fs1, t1)) ∧
  ∃ tr, walk flat_walk accepts 1 "d" None None barren
        = (Raise (UnboundLocalError "files_processed"), barren, tr).
Proof.
  split.
  - apply (walk_without_pdf_raises Posix.sep deep_walk validator builder
             resolver Posix.parent Posix.splitext accepts 0 "d" None None
             ["{title}"] barren); reflexivity.
  - destruct (walk_without_pdf_raises Posix.sep flat_walk validator builder
                resolver Posix.parent Posix.splitext accepts 0 "d" None None
                ["{title}"] barren eq_refl eq_refl eq_refl) as [_ Hraise].
    destruct (Hraise (or_introl eq_refl)) as (tr & Hrun & _).
    by exists tr.
Defined.

Lemma rename_resolver_exception_escapes_witness :
  ∃ tr, walk flat_walk accepts 1 "d/broken.pdf" None None damaged
        = (Raise (UnboundLocalError "result"), damaged, tr).
Proof.
  destruct (rename_resolver_exception_escapes Posix.sep flat_walk validator
              builder resolver Posix.parent Posix.splitext accepts 0
              "d/broken.pdf" None None ["{title}"] damaged
              (Exception "EOF marker not found")
              eq_refl eq_refl eq_refl eq_refl eq_refl) as (tr & Hrun & _).
  by exists tr.
Defined.

(** The walk of the folder stops at the damaged file: the good file
    after it is never looked at. *)
Lemma walk_aborts_on_resolver_exception :
  ∃ tr, walk flat_walk accepts 2 "d" None None damaged
        = (Raise (UnboundLocalError "result"), damaged, tr) ∧
        CallResolver "d/b.pdf" ∉ tr.
Proof.
  eexists. split; [vm_compute; reflexivity|].
  intros Hin. repeat (apply elem_of_cons in Hin as [Hin|Hin]; [discriminate|]).
  by apply elem_of_nil in Hin.
Qed.

Lemma path_new_needs_identifier_and_metadata_witness :
  ∃ r fs' tr,
    walk flat_walk accepts 1 "d/s/c.pdf" None None papers
    = (Return (VDict r), fs', tr) ∧
    path_original r = "d/s/c.pdf" ∧ identifier r = None ∧ path_new r = None.
Proof.
  eexists _, _, _. split; [vm_compute; reflexivity|].
  edestruct (path_new_needs_identifier_and_metadata Posix.sep flat_walk
               validator builder resolver Posix.parent Posix.splitext accepts
               1 "d/s/c.pdf" None None papers)
    as (Horig & _ & Hnone);
    [reflexivity|vm_compute; reflexivity|].
  split; [exact Horig|]. split; [reflexivity|].
  exact (proj1 (Hnone eq_refl)).
Defined.

Lemma rename_same_name_is_noop_witness :
  ∃ result tr,
    walk flat_walk accepts 1 "d/Beta.pdf" None None crowded
    = (Return (VDict result), crowded, tr) ∧
    Forall (λ ev, is_os_rename ev = false) tr ∧
    path_new result = Some "d/Beta.pdf".
Proof.
  destruct (rename_same_name_is_noop Posix.sep flat_walk validator builder
              resolver Posix.parent Posix.splitext accepts 0 "d/Beta.pdf"
              None None ["{title}"] crowded (found "10.1000/b" "Beta") "Beta"
              eq_refl eq_refl eq_refl eq_refl eq_refl eq_refl eq_refl eq_refl
              eq_refl)
    as (result & tr & Hrun & Hquiet & Hnew & Horig).
  exists result, tr. split_and!; [done|done|]. by rewrite Hnew, Horig.
Defined.

Lemma rename_non_pdf_returns_none_witness :
  ∃ tr,
    walk flat_walk accepts 1 "d/notes.txt" None None papers
    = (Return VNone, papers, tr) ∧
    last tr = Some (Log ERROR "The file must have .pdf extension.").
Proof.
  destruct (rename_non_pdf_returns_none Posix.sep flat_walk validator builder
              resolver Posix.parent Posix.splitext accepts 0 "d/notes.txt"
              None None papers eq_refl eq_refl eq_refl)
    as (tr & Hrun & Htr).
  exists tr. split; [done|]. by rewrite Htr.
Defined.

(** C6, as the claim has it, fails: for the text file of [papers] no
    result dictionary comes back, with or without a [path_new]. *)
Lemma rename_non_pdf_gives_no_record :
  ¬ ∃ r fs' tr,
      walk flat_walk accepts 1 "d/notes.txt" None None papers
      = (Return (VDict r), fs', tr).
Proof. intros (r & fs' & tr & Hrun). vm_compute in Hrun. discriminate Hrun. Qed.

Lemma rename_survives_rename_file_error_witness :
  ∃ result tr,
    walk flat_walk denies 1 "d/b.pdf" None None papers
    = (Return (VDict result), papers, tr) ∧
    path_new result = None ∧
    identifier result = Some "10.1000/b" ∧
    metadata result = Some [("title", "Beta"); ("year", "2020")] ∧
    path_original result = "d/b.pdf".
Proof.
  edestruct (rename_survives_rename_file_error Posix.sep flat_walk validator
               builder resolver Posix.parent Posix.splitext denies 0 "d/b.pdf"
               None None ["{title}"] papers papers (found "10.1000/b" "Beta")
               "Beta" (OSError "[Errno 13] Permission denied")
               [CallOsRename "d/b.pdf" "d/Beta.pdf"])
    as (result & tr & Hrun & -> & _);
    [reflexivity|reflexivity|reflexivity|reflexivity|reflexivity|reflexivity
    |reflexivity|reflexivity|by vm_compute|reflexivity|].
  eexists _, tr. split; [exact Hrun|]. by split_and!.
Defined.

(** A directory whose name ends in [.pdf] is listed among the files, and
    its walk is appended as one element: the list is nested. *)
Lemma walk_nests_a_pdf_named_directory :
  ∃ ra rb fs' tr,
    walk flat_walk accepts 3 "d" None None odd
    = (Return (VList [VDict ra; VList [VDict rb]]), fs', tr) ∧
    flat [VDict ra; VList [VDict rb]] = false.
Proof. eexists _, _, _, _. split; [vm_compute; reflexivity|reflexivity]. Qed.

(** A format the validator rejects is worked with when tags come along,
    and stops the call when they do not. *)
Lemma invalid_format_passes_with_tags :
  validator "title" = None ∧
  (∃ tr, walk flat_walk accepts 1 "d/b.pdf" (Some "title") None papers
         = (Return VNone, papers, tr)) ∧
  (∃ r fs' tr,
     walk flat_walk accepts 1 "d/b.pdf" (Some "title") (Some ["{title}"]) papers
     = (Return (VDict r), fs', tr) ∧
     path_new r = Some "d/Beta.pdf" ∧
     CallBuildFilename [("title", "Beta"); ("year", "2020")] "title" ["{title}"]
     ∈ tr).
Proof.
  split; [reflexivity|]. split.
  - eexists. vm_compute. reflexivity.
  - eexists _, _, _. split; [vm_compute; reflexivity|]. split; [reflexivity|].
    do 5 apply list_elem_of_further. apply list_elem_of_here.
Qed.

(** ** The further properties at work *)

Abbreviation pdfrenamer fuel :=
  (main validator
        (λ config target, walk config accepts fuel target None None)
        may_open no_other_path user_abbreviations join dirname relpath
        red yellow magenta may_write linesep).

Lemma rename_fails_fast_witness :
  ∃ tr,
    walk flat_walk accepts 1 "d/gone.pdf" None None papers
    = (Return VNone, papers, tr) ∧
    tr = [CallCheckFormat "{title}";
          Log ERROR "d/gone.pdf is not a valid path to a file or a directory."].
Proof.
  destruct (rename_fails_fast Posix.sep flat_walk validator builder resolver
              Posix.parent Posix.splitext accepts 0 "d/gone.pdf" None None
              papers (or_intror eq_refl))
    as (tr & Hrun & _ & _ & Htr).
  exists tr. split; [exact Hrun|]. rewrite Htr; [reflexivity|by eexists].
Defined.

Lemma path_new_is_where_the_file_is_witness :
  ∃ r fs' tr,
    walk flat_walk accepts 1 "d/b.pdf" None None papers
    = (Return (VDict r), fs', tr) ∧
    path_new r = Some "d/Beta.pdf" ∧
    Fs.lookup fs' "d/Beta.pdf" = Some RegularFile ∧
    Fs.exists_ fs' "d/b.pdf" = false.
Proof.
  let run :=
    eval vm_compute in (walk flat_walk accepts 1 "d/b.pdf" None None papers) in
  match run with
  | (Return (VDict ?r), ?fs', ?tr) =>
      assert (walk flat_walk accepts 1 "d/b.pdf" None None papers
              = (Return (VDict r), fs', tr)) as Hrun
        by (vm_compute; reflexivity);
      pose proof (path_new_is_where_the_file_is Posix.sep flat_walk validator
                    builder resolver Posix.parent Posix.splitext accepts 1
                    "d/b.pdf" None None papers fs' r tr eq_refl Hrun)
        as Hwhere;
      exists r, fs', tr
  end.
  split; [exact Hrun|]. split; [reflexivity|].
  cbn [path_new] in Hwhere.
  destruct Hwhere as [Hlook [[Hsame _]|(_ & _ & Hgone & _)]];
    [discriminate Hsame|].
  split; [exact Hlook|exact Hgone].
Defined.

Lemma rename_each_numbers_the_copies_witness :
  ∃ fs' tr,
    rename_each accepts ["d/b.pdf"; "d/b2.pdf"] "d/Beta" ".pdf" twins
    = (Return ["d/Beta (2).pdf"; "d/Beta (3).pdf"], fs', tr) ∧
    Fs.exists_ fs' "d/b.pdf" = false ∧
    Fs.lookup fs' "d" = Some Directory.
Proof.
  destruct (rename_each_numbers_the_copies accepts ["d/b.pdf"; "d/b2.pdf"]
              "d/Beta" ".pdf" 1 twins)
    as (fs' & tr & Hrun & _ & Hgone & Hframe & _).
  - reflexivity.
  - repeat constructor; intros Hin;
      repeat (apply elem_of_cons in Hin as [Hin|Hin]; [discriminate|]);
      by apply elem_of_nil in Hin.
  - intros o Ho.
    repeat (apply elem_of_cons in Ho as [->|Ho]; [reflexivity|]).
    by apply elem_of_nil in Ho.
  - intros o i Ho. unfold candidate. rewrite !string_app_cons.
    repeat (apply elem_of_cons in Ho as [->|Ho]; [discriminate|]).
    by apply elem_of_nil in Ho.
  - intros [|[|i]] Hi; [lia|reflexivity|].
    unfold candidate. cbn [Nat.ltb Nat.leb].
    rewrite !string_app_cons. reflexivity.
  - exists fs', tr. split; [exact Hrun|]. split.
    + apply Hgone. left.
    + rewrite Hframe; [reflexivity|..].
      * intros Hin.
        repeat (apply elem_of_cons in Hin as [Hin|Hin]; [discriminate|]).
        by apply elem_of_nil in Hin.
      * intros i. unfold candidate. rewrite !string_app_cons. discriminate.
Defined.

Lemma walk_of_canonical_files_is_noop_witness :
  ∃ l tr,
    walk flat_walk accepts 2 "d" None None settled
    = (Return (VList l), settled, tr) ∧
    original <$> l = ["d/Beta.pdf"] ∧
    renamed <$> l = [Some "d/Beta.pdf"].
Proof.
  destruct (walk_of_canonical_files_is_noop Posix.sep flat_walk validator
              builder resolver Posix.parent Posix.splitext accepts 0 "d"
              None None ["{title}"] settled)
    as (l & tr & Hrun & _ & Horig & Hnew & _).
  - reflexivity.
  - reflexivity.
  - reflexivity.
  - by vm_compute.
  - intros f Hf. vm_compute in Hf.
    repeat (apply elem_of_cons in Hf as [->|Hf];
            [exists (found "10.1000/b" "Beta"), "Beta";
             by split_and!; vm_compute|]).
    by apply elem_of_nil in Hf.
  - exists l, tr. split; [exact Hrun|]. split; [exact Horig|].
    rewrite Hnew, Horig. reflexivity.
Defined.

Lemma report_warns_without_names_witness :
  ∃ rs fs' tr out,
    walk flat_walk denies 2 "d" None None papers
    = (Return (VList (VDict <$> rs)), fs', tr) ∧
    report relpath red yellow magenta "d" (VList (VDict <$> rs))
    = (None, out) ∧
    last out = Some (not_found_line red).
Proof.
  let run :=
    eval vm_compute in (walk flat_walk denies 2 "d" None None papers) in
  match run with
  | (Return (VList [VDict ?r1; VDict ?r2]), ?fs', ?tr) =>
      destruct (report_warns_without_names relpath red yellow magenta "d"
                  [r1; r2] r1) as (out & Hout & Hlast);
      [|left|reflexivity|exists [r1; r2], fs', tr, out]
  end.
  - intros r' Hr'.
    repeat (apply elem_of_cons in Hr' as [->|Hr']; [reflexivity|]).
    by apply elem_of_nil in Hr'.
  - split; [vm_compute; reflexivity|]. split; [exact Hout|exact Hlast].
Defined.

Lemma report_crashes_on_non_dictionary_witness :
  ∃ l fs' tr msg out,
    walk flat_walk accepts 3 "d" None None odd = (Return (VList l), fs', tr) ∧
    report relpath red yellow magenta "d" (VList l)
    = (Some (TypeError msg), out).
Proof.
  let run :=
    eval vm_compute in (walk flat_walk accepts 3 "d" None None odd) in
  match run with
  | (Return (VList [?a; ?b]), ?fs', ?tr) =>
      destruct (proj1 (report_crashes_on_non_dictionary relpath red yellow
                         magenta "d" [a; b])) as (msg & out & Hout);
      [exists b; split; [right; left|reflexivity]
      |exists [a; b], fs', tr, msg, out]
  end.
  split; [vm_compute; reflexivity|exact Hout].
Defined.

Lemma add_abbreviations_prepends_witness :
  ∃ files' log,
    add_abbreviations may_open no_other_path user_abbreviations may_write
                      linesep "more.txt" dos_texts
    = (files', log) ∧
    files' !! user_abbreviations
    = Some ("Nature = Nat." +:+ newline +:+ newline
            +:+ "Physical Review Letters = PRL") ∧
    files' !! "more.txt"
    = Some ("Nature = Nat." +:+ String carriage_return newline).
Proof.
  destruct (add_abbreviations_prepends may_open no_other_path
              user_abbreviations may_write linesep "more.txt"
              ("Nature = Nat." +:+ String carriage_return newline)
              "Physical Review Letters = PRL" dos_texts)
    as (files' & log & Hrun & Hnew & _ & Hothers & _);
    [by vm_compute|by vm_compute|reflexivity|reflexivity|reflexivity
    |reflexivity|reflexivity|reflexivity|reflexivity|].
  exists files', log. split; [exact Hrun|]. split; [exact Hnew|].
  rewrite Hothers; [by vm_compute|discriminate].
Defined.

(** A write that fails leaves the user's file without the old
    abbreviations: when the write of the old ones fails the file
    holds the new abbreviations, the line break and the first six
    characters of the old ones. *)
Lemma add_abbreviations_can_lose_the_old_ones :
  ∃ files' msg,
    add_abbreviations may_open no_other_path user_abbreviations full_disk
                      linesep "more.txt" texts
    = (files',
       [Log INFO "Loading the file more.txt...";
        Log INFO "Adding the content of the file more.txt to the user-specified journal abbreviations...";
        Log ERROR msg]) ∧
    texts !! user_abbreviations = Some "Physical Review Letters = PRL" ∧
    files' !! user_abbreviations
    = Some ("Nature = Nat." +:+ newline +:+ "Physic").
Proof. eexists _, _. split_and!; vm_compute; reflexivity. Qed.

Lemma main_options_stop_before_rename_witness :
  pdfrenamer 3 (command [] None) (desk papers)
  = pdfrenamer 0 (command [] None) (desk papers) ∧
  (pdfrenamer 3 (command [] None) (desk papers)).1.1 = Return () ∧
  w_fs (pdfrenamer 3 (command [] None) (desk papers)).1.2 = papers.
Proof.
  apply (main_options_stop_before_rename validator may_open no_other_path
           user_abbreviations join dirname relpath red yellow magenta
           may_write linesep
           (λ config target, walk config accepts 3 target None None)
           (λ config target, walk config accepts 0 target None None)
           (command [] None) (desk papers)).
  right. right. right. reflexivity.
Defined.

Lemma main_calls_rename_with_the_options_witness :
  pdfrenamer 3 (command ["d"] None) (desk papers)
  = pdfrenamer 4 (command ["d"] None) (desk papers).
Proof.
  apply (main_calls_rename_with_the_options validator may_open no_other_path
           user_abbreviations join dirname relpath red yellow magenta
           may_write linesep
           (λ config target, walk config accepts 3 target None None)
           (λ config target, walk config accepts 4 target None None)
           (command ["d"] None) (desk papers)).
  vm_compute. reflexivity.
Defined.

Lemma main_crashes_on_non_dictionary_witness :
  ∃ msg w' tr,
    pdfrenamer 3 (command ["d"] None) (desk odd)
    = (Raise (TypeError msg), w', tr) ∧
    Fs.exists_ (w_fs w') "d/Alpha.pdf" = true.
Proof.
  let run :=
    eval vm_compute in (walk flat_walk accepts 3 "d" None None odd) in
  match run with
  | (Return (VList [?a; ?b]), ?fs', ?tr) =>
      destruct (main_crashes_on_non_dictionary validator may_open
                  no_other_path user_abbreviations join dirname relpath
                  red yellow magenta may_write linesep
                  (λ config target, walk config accepts 3 target None None)
                  (command ["d"] None) (desk odd) [a; b] b fs' tr)
        as (msg & w' & tr' & Hrun & Hfs);
      [reflexivity|reflexivity|reflexivity|discriminate
      |vm_compute; reflexivity|right; left|reflexivity|]
  end.
  exists msg, w', tr'. split; [exact Hrun|]. rewrite Hfs. reflexivity.
Defined.

Lemma main_is_silent_without_results_witness :
  ∃ w' tr,
    pdfrenamer 1 (command ["d/notes.txt"] None) (desk papers)
    = (Return (), w', tr) ∧
    w_fs w' = papers ∧ printed tr = [].
Proof.
  destruct (main_is_silent_without_results Posix.sep validator builder
              resolver Posix.parent Posix.splitext accepts may_open
              no_other_path user_abbreviations join dirname relpath
              red yellow magenta may_write linesep 0
              (command ["d/notes.txt"] None)
              (desk papers))
    as (w' & tr & Hrun & Hfs & Hprinted);
    [reflexivity|reflexivity|reflexivity|discriminate
    |right; right; split; reflexivity|].
  by exists w', tr.
Defined.

Lemma main_raises_on_a_folder_without_pdf_witness :
  ∃ w' tr,
    pdfrenamer 1 (command ["d"] None) (desk barren)
    = (Raise (UnboundLocalError "files_processed"), w', tr) ∧
    w_fs w' = barren.
Proof.
  destruct (main_raises_on_a_folder_without_pdf Posix.sep validator builder
              resolver Posix.parent Posix.splitext accepts may_open
              no_other_path user_abbreviations join dirname relpath
              red yellow magenta may_write linesep 0
              (command ["d"] None) (desk barren))
    as (w' & tr & Hrun & Hfs & _);
    [reflexivity|reflexivity|reflexivity|discriminate
    |by eexists|reflexivity|reflexivity|left; reflexivity|].
  by exists w', tr.
Defined.


(** The summary [main] prints for the folder of [papers]. *)
Lemma main_summary_of_papers :
  ∃ w' tr,
    pdfrenamer 2 (command ["d"] None) (desk papers) = (Return (), w', tr) ∧
    printed tr
    = [red +:+ "Summaries of changes done:";
       yellow +:+ "b.pdf"; magenta +:+ "---> Beta.pdf";
       yellow +:+ "a.PDF"; magenta +:+ "---> Alpha.pdf";
       "2 files have been renamed."].
Proof. eexists _, _. split; vm_compute; reflexivity. Qed.

Lemma numbered_copy_is_renamed_again_witness :
  ∃ result tr,
    rename Posix.sep flat_walk validator builder librarian Posix.parent
           Posix.splitext accepts 1 "d/Beta (2).pdf" None None crowded
    = (Return (VDict result),
       Fs.move crowded "d/Beta (2).pdf" "d/Beta (3).pdf", tr) ∧
    path_new result = Some "d/Beta (3).pdf".
Proof.
  destruct (numbered_copy_is_renamed_again Posix.sep flat_walk validator
              builder librarian Posix.parent Posix.splitext accepts 0
              "d/Beta (2).pdf" None None ["{title}"] crowded
              (found "10.1000/b" "Beta") "Beta" 2)
    as (result & j & tr & Hrun & Hnew & Hj & Hjk & Hfree & Hbelow & _);
    [reflexivity|reflexivity|reflexivity|reflexivity|reflexivity|reflexivity
    |reflexivity|reflexivity|lia|reflexivity|reflexivity|].
  destruct j as [|[|[|[|j]]]].
  - lia.
  - lia.
  - lia.
  - by exists result, tr.
  - specialize (Hbelow 3 ltac:(lia)). vm_compute in Hbelow.
    discriminate Hbelow.
Defined.

Lemma explicit_format_ignores_the_stored_one_witness :
  walk flat_walk accepts 2 "d" (Some "{title}") None papers
  = walk {| config_format := "title"; config_check_subfolders := false |}
         accepts 2 "d" (Some "{title}") None papers.
Proof.
  apply (explicit_format_ignores_the_stored_one Posix.sep flat_walk
           {| config_format := "title"; config_check_subfolders := false |}
           validator builder resolver Posix.parent Posix.splitext accepts
           2 "d" "{title}" None papers).
  - discriminate.
  - reflexivity.
Defined.

Lemma flat_walk_renames_listed_files_only_witness :
  Forall (renames_from ["d/b.pdf"; "d/a.PDF"])
         (walk flat_walk accepts 3 "d" None None papers).2.
Proof.
  apply (flat_walk_renames_listed_files_only Posix.sep flat_walk validator
           builder resolver Posix.parent Posix.splitext accepts 3 "d"
           None None papers); [reflexivity|reflexivity|].
  intros f Hf. vm_compute in Hf.
  repeat (apply elem_of_cons in Hf as [->|Hf]; [reflexivity|]).
  by apply elem_of_nil in Hf.
Defined.

Lemma truthy_tags_skip_validation_witness :
  validator "title" = None ∧
  ∃ result fs' tr,
    walk flat_walk accepts 1 "d/b.pdf" (Some "title") (Some ["{title}"]) papers
    = (Return (VDict result), fs', tr) ∧
    path_original result = "d/b.pdf" ∧
    identifier result = Some "10.1000/b" ∧
    CallBuildFilename [("title", "Beta"); ("year", "2020")] "title" ["{title}"]
    ∈ tr.
Proof.
  split; [reflexivity|].
  destruct (truthy_tags_skip_validation Posix.sep flat_walk validator
              validator builder resolver Posix.parent Posix.splitext accepts
              1 "d/b.pdf" (Some "title") "{title}" [] papers)
    as (_ & _ & _ & _ & Hbuilder).
  destruct (Hbuilder (found "10.1000/b" "Beta"))
    as (result & fs' & tr & Hrun & Horig & Hid & Hin);
    [lia|reflexivity|reflexivity|reflexivity|reflexivity|reflexivity|].
  by exists result, fs', tr.
Defined.

Lemma walk_nests_a_listed_directory_witness :
  pdf_files_of Posix.sep odd "d" = ["a.PDF"; "x.pdf"] ∧
  Fs.isdir odd "d/x.pdf" = true ∧
  ∃ ra rb fs' tr,
    walk flat_walk accepts 3 "d" None None odd
    = (Return (VList [VDict ra; VList [VDict rb]]), fs', tr) ∧
    path_original ra = "d/a.PDF" ∧
    path_original rb = "d/x.pdf/b.pdf" ∧
    flat [VDict ra; VList [VDict rb]] = false.
Proof.
  split; [reflexivity|]. split; [reflexivity|].
  pose (files :=
    mapM (λ f, walk flat_walk accepts 2 ("d/" +:+ f)
                    (Some "{title}") (Some ["{title}"]))
         ["a.PDF"; "x.pdf"] odd).
  let r := eval vm_compute in files in
  match r with
  | (Return [VDict ?ra; VList [VDict ?rb]], ?fs1, ?t1) =>
      destruct (walk_nests_a_listed_directory Posix.sep flat_walk validator
                  builder resolver Posix.parent Posix.splitext accepts 2
                  "d" None None ["{title}"] odd fs1 fs1
                  [VDict ra; VList [VDict rb]] [] t1 [] 1 "x.pdf")
        as (tr & nested & Hrun & _ & _ & _ & Hflat);
      [reflexivity|reflexivity|reflexivity|reflexivity
      |vm_compute; reflexivity|by split_and!|];
      exists ra, rb, fs1, tr
  end.
  split; [exact Hrun|]. split; [reflexivity|]. split; [reflexivity|].
  exact Hflat.
Defined.
